(** * BIRD: the Linux netlink interface (sysdep/linux/netlink/netlink.c)

    A shallow embedding of the netlink protocol engine of the BIRD routing
    daemon: the synchronous request/reply channel, the attribute (TLV) codec,
    the link, address and route translators and the route emitter.

    Netlink frames are kept as the C code sees them: bytes in a buffer,
    addressed through pointers (here: offsets, as [Z]) and decoded with the
    accessor macros of <linux/netlink.h> and <linux/rtnetlink.h>.  The host
    is little-endian (i386, the platform the file was written for), so
    multi-byte header fields are little-endian and [ipa_ntoh]/[ipa_hton]
    swap bytes. *)

From Stdlib Require Import ZArith List Bool Lia String.
From coqutil Require Import Byte Word.LittleEndianList Z.bitblast.
From Equations Require Import Equations.
From stdpp Require Import base option list.
Import ListNotations.
Local Open Scope Z_scope.

(** ** Machine integers *)

(** Conversions to the C integer types used by the file; arithmetic is done
    in [Z] and wrapped where the C code stores the result. *)
Definition u32 (x : Z) : Z := x mod 2 ^ 32.
Definition int32 (x : Z) : Z := (x + 2 ^ 31) mod 2 ^ 32 - 2 ^ 31.

(** [fl & BIT] used as a C truth value. *)
Definition has_flag (fl bit : Z) : bool := negb (Z.land fl bit =? 0).

(** ** Memory *)

(** A buffer is a list of bytes; a pointer into it is an offset.  Loads are
    total: bytes beyond the end of the buffer read as absent (the value is
    assembled from the bytes that are there). *)
Abbreviation mem := (list byte).

Definition load_bytes (n : nat) (m : mem) (p : Z) : list byte :=
  take n (drop (Z.to_nat p) m).

Definition load (n : nat) (m : mem) (p : Z) : Z :=
  le_combine (load_bytes n m p).

(** [memcpy(m + p, bs, length bs)]. *)
Definition store_bytes (m : mem) (p : Z) (bs : list byte) : mem :=
  take (Z.to_nat p) m ++ bs ++ drop (Z.to_nat p + length bs) m.

(** Assignment of an [n]-byte integer field at [p]. *)
Definition store (n : nat) (m : mem) (p : Z) (v : Z) : mem :=
  store_bytes m p (le_split n v).

Definition zeros (n : nat) : mem := replicate n Byte.x00.

(** ** Addresses (lib/ip.h, IPv4 build) *)

(** Modelled from the spec: lib/ip.h is not among the sources.  An address
    ([ip_addr]) is a 32-bit IPv4 address; the daemon keeps it in host byte
    order and the wire carries it in network byte order (4.2, 4.5), so on
    this host the conversion swaps the four bytes. *)
Definition bswap32 (x : Z) : Z := le_combine (rev (le_split 4 x)).
(** Modelled from the spec: lib/ip.h, network to host byte order (4.5). *)
Definition ipa_ntoh (x : Z) : Z := bswap32 x.
(** Modelled from the spec: lib/ip.h, host to network byte order (4.2). *)
Definition ipa_hton (x : Z) : Z := bswap32 x.
(** Modelled from the spec: lib/ip.h, the unset address (4.5: "unset",
    "addresses cleared"). *)
Definition IPA_NONE : Z := 0.
(** Modelled from the spec: lib/ip.h, an IPv4 address has 4 bytes (4.5). *)
Definition sizeof_ip_addr : Z := 4.
(** Modelled from the spec: lib/ip.h, the netmask of a prefix length (4.5:
    "local & netmask(prefix_len)"). *)
Definition ipa_mkmask (n : Z) : Z :=
  if n =? 0 then 0 else u32 (Z.lnot (Z.shiftl 1 (32 - n) - 1)).
(** Modelled from the spec: lib/ip.h, bitwise and of two addresses (4.5). *)
Definition ipa_and (a b : Z) : Z := Z.land a b.

(** ** <linux/netlink.h> *)

(** [struct nlmsghdr]: u32 nlmsg_len; u16 nlmsg_type; u16 nlmsg_flags;
    u32 nlmsg_seq; u32 nlmsg_pid. *)
Definition sizeof_nlmsghdr : Z := 16.
Definition nlmsg_len (m : mem) (h : Z) : Z := load 4 m h.
Definition nlmsg_type (m : mem) (h : Z) : Z := load 2 m (h + 4).
Definition nlmsg_flags (m : mem) (h : Z) : Z := load 2 m (h + 6).
Definition nlmsg_seq (m : mem) (h : Z) : Z := load 4 m (h + 8).
Definition nlmsg_pid (m : mem) (h : Z) : Z := load 4 m (h + 12).

Definition NLMSG_ALIGNTO : Z := 4.
(** [((len)+NLMSG_ALIGNTO-1) & ~(NLMSG_ALIGNTO-1)], on unsigned 32-bit. *)
Definition NLMSG_ALIGN (len : Z) : Z :=
  u32 (Z.land (len + NLMSG_ALIGNTO - 1) (Z.lnot (NLMSG_ALIGNTO - 1))).
Definition NLMSG_LENGTH (len : Z) : Z := len + NLMSG_ALIGN sizeof_nlmsghdr.
Definition NLMSG_DATA (h : Z) : Z := h + NLMSG_LENGTH 0.
(** [(len) > 0 && nlh->nlmsg_len >= sizeof(struct nlmsghdr) &&
     nlh->nlmsg_len <= (len)] *)
Definition NLMSG_OK (m : mem) (h : Z) (len : Z) : bool :=
  (0 <? len) && (sizeof_nlmsghdr <=? nlmsg_len m h) && (nlmsg_len m h <=? len).

Definition NLMSG_ERROR : Z := 2.
Definition NLMSG_DONE : Z := 3.

Definition NLM_F_REQUEST : Z := 1.
Definition NLM_F_ACK : Z := 4.
Definition NLM_F_ROOT : Z := 0x100.
Definition NLM_F_MATCH : Z := 0x200.
Definition NLM_F_DUMP : Z := Z.lor NLM_F_ROOT NLM_F_MATCH.
Definition NLM_F_REPLACE : Z := 0x100.
Definition NLM_F_CREATE : Z := 0x400.

(** [struct nlmsgerr]: int error; struct nlmsghdr msg. *)
Definition sizeof_nlmsgerr : Z := 4 + sizeof_nlmsghdr.
Definition ENOBUFS : Z := 105.

(** ** <linux/rtnetlink.h> *)

Definition RTM_NEWLINK : Z := 16.
Definition RTM_DELLINK : Z := 17.
Definition RTM_GETLINK : Z := 18.
Definition RTM_NEWADDR : Z := 20.
Definition RTM_DELADDR : Z := 21.
Definition RTM_GETADDR : Z := 22.
Definition RTM_NEWROUTE : Z := 24.
Definition RTM_DELROUTE : Z := 25.
Definition RTM_GETROUTE : Z := 26.

(** [struct rtattr]: unsigned short rta_len; unsigned short rta_type. *)
Definition sizeof_rtattr : Z := 4.
Definition rta_len (m : mem) (a : Z) : Z := load 2 m a.
Definition rta_type (m : mem) (a : Z) : Z := load 2 m (a + 2).

Definition RTA_ALIGNTO : Z := 4.
Definition RTA_ALIGN (len : Z) : Z :=
  Z.land (len + RTA_ALIGNTO - 1) (Z.lnot (RTA_ALIGNTO - 1)).
(** [(len) > 0 && rta->rta_len >= sizeof(struct rtattr) &&
     rta->rta_len <= (len)] *)
Definition RTA_OK (m : mem) (a : Z) (len : Z) : bool :=
  (0 <? len) && (sizeof_rtattr <=? rta_len m a) && (rta_len m a <=? len).
Definition RTA_LENGTH (len : Z) : Z := RTA_ALIGN sizeof_rtattr + len.
Definition RTA_DATA (a : Z) : Z := a + RTA_LENGTH 0.
Definition RTA_PAYLOAD (m : mem) (a : Z) : Z := rta_len m a - RTA_LENGTH 0.

(** [struct rtgenmsg]: unsigned char rtgen_family. *)
Definition sizeof_rtgenmsg : Z := 1.

(** [struct ifinfomsg]: unsigned char ifi_family, __ifi_pad;
    unsigned short ifi_type; int ifi_index; unsigned ifi_flags, ifi_change. *)
Definition sizeof_ifinfomsg : Z := 16.
Definition ifi_index (m : mem) (i : Z) : Z := load 4 m (i + 4).
Definition ifi_flags (m : mem) (i : Z) : Z := load 4 m (i + 8).
Definition IFLA_RTA (i : Z) : Z := i + NLMSG_ALIGN sizeof_ifinfomsg.

Definition IFLA_IFNAME : Z := 3.
Definition IFLA_MTU : Z := 4.
Definition IFLA_STATS : Z := 7.

(** [struct ifaddrmsg]: unsigned char ifa_family, ifa_prefixlen, ifa_flags,
    ifa_scope; int ifa_index. *)
Definition sizeof_ifaddrmsg : Z := 8.
Definition ifa_family (m : mem) (i : Z) : Z := load 1 m i.
Definition ifa_prefixlen (m : mem) (i : Z) : Z := load 1 m (i + 1).
Definition ifa_flags (m : mem) (i : Z) : Z := load 1 m (i + 2).
Definition ifa_index (m : mem) (i : Z) : Z := load 4 m (i + 4).
Definition IFA_RTA (i : Z) : Z := i + NLMSG_ALIGN sizeof_ifaddrmsg.

Definition IFA_ADDRESS : Z := 1.
Definition IFA_LOCAL : Z := 2.
Definition IFA_BROADCAST : Z := 4.
Definition IFA_ANYCAST : Z := 5.
Definition IFA_F_SECONDARY : Z := 1.

(** [struct rtmsg]: unsigned char rtm_family, rtm_dst_len, rtm_src_len,
    rtm_tos, rtm_table, rtm_protocol, rtm_scope, rtm_type;
    unsigned rtm_flags. *)
Definition sizeof_rtmsg : Z := 12.
Definition rtm_family (m : mem) (i : Z) : Z := load 1 m i.
Definition rtm_dst_len (m : mem) (i : Z) : Z := load 1 m (i + 1).
Definition rtm_tos (m : mem) (i : Z) : Z := load 1 m (i + 3).
Definition rtm_table (m : mem) (i : Z) : Z := load 1 m (i + 4).
Definition rtm_protocol (m : mem) (i : Z) : Z := load 1 m (i + 5).
Definition rtm_scope (m : mem) (i : Z) : Z := load 1 m (i + 6).
Definition rtm_type (m : mem) (i : Z) : Z := load 1 m (i + 7).
Definition RTM_RTA (i : Z) : Z := i + NLMSG_ALIGN sizeof_rtmsg.

Definition RTA_DST : Z := 1.
Definition RTA_OIF : Z := 4.
Definition RTA_GATEWAY : Z := 5.
Definition RTA_CACHEINFO : Z := 12.

Definition RTN_UNICAST : Z := 1.
Definition RTN_BLACKHOLE : Z := 6.
Definition RTN_UNREACHABLE : Z := 7.
Definition RTN_PROHIBIT : Z := 8.

Definition RTPROT_REDIRECT : Z := 1.
Definition RTPROT_KERNEL : Z := 2.
(** The file's own fallback: [#define RTPROT_BIRD 13]. *)
Definition RTPROT_BIRD : Z := 13.

Definition RT_TABLE_MAIN : Z := 254.
Definition RT_SCOPE_UNIVERSE : Z := 0.

(** <sys/socket.h>, <net/if.h> *)
Definition AF_INET : Z := 2.
Definition PF_INET : Z := AF_INET.
Definition IFF_UP : Z := 0x1.
Definition IFF_BROADCAST : Z := 0x2.
Definition IFF_LOOPBACK : Z := 0x8.
Definition IFF_POINTOPOINT : Z := 0x10.

(** Size of a pointer on the target; only the quotient
    [sizeof(a) / sizeof(struct rtattr * )] of [nl_parse_attrs] depends on it. *)
Definition sizeof_ptr : Z := 4.

(** ** The daemon's records (nest/iface.h, nest/route.h, lib/krt.h)

    These headers are not among the sources; the records hold the fields
    netlink.c reads or writes. *)

(** Modelled from the spec: nest/iface.h, the interface flags of section 3,
    a bit set with one bit per flag. *)
Definition IF_UNNUMBERED : Z := 0x4.
(** Modelled from the spec: nest/iface.h, flag BROADCAST of section 3. *)
Definition IF_BROADCAST : Z := 0x8.
(** Modelled from the spec: nest/iface.h, flag MULTICAST of section 3. *)
Definition IF_MULTICAST : Z := 0x10.
(** Modelled from the spec: nest/iface.h, flag ADMIN_DOWN of section 3. *)
Definition IF_ADMIN_DOWN : Z := 0x40.
(** Modelled from the spec: nest/iface.h, flag LOOPBACK of section 3. *)
Definition IF_LOOPBACK : Z := 0x80.
(** Modelled from the spec: nest/iface.h, flag IGNORE of section 3. *)
Definition IF_IGNORE : Z := 0x100.
(** Modelled from the spec: nest/iface.h, flag LINK_UP of section 3. *)
Definition IF_LINK_UP : Z := 0x200.

(** Modelled from the spec: nest/iface.h, [sizeof(f.name)]; the name is a
    short byte string (section 3). *)
Definition sizeof_if_name : nat := 16.

(** Modelled from the spec: nest/iface.h, [struct iface] with the members
    netlink.c uses: the interface record and the address binding of
    section 3. *)
Record iface := mk_iface {
  if_name : list byte;
  if_flags : Z;
  if_mtu : Z;
  if_index : Z;
  if_ip : Z;
  if_prefix : Z;
  if_pxlen : Z;
  if_brd : Z;
  if_opposite : Z }.

(** [bzero(&f, sizeof(f))] *)
Definition iface_zero : iface :=
  mk_iface (zeros sizeof_if_name) 0 0 0 0 0 0 0 0.

(** Modelled from the spec: nest/iface.h, a neighbor cache entry (6.5:
    [neighbor_find(ip)]); [ng_iface] is the pointer [ng->iface]. *)
Record neighbor := mk_neighbor {
  ng_iface : option iface }.

(** Modelled from the spec: nest/route.h, the values of [rta.source],
    [rta.scope], [rta.cast] and [rta.dest] that netlink.c names; [_OTHER]
    stands for the rest. *)
Inductive rta_source := RTS_INHERIT | RTS_OTHER (code : Z).
(** Modelled from the spec: nest/route.h, see [rta_source]. *)
Inductive rta_scope := SCOPE_UNIVERSE | SCOPE_OTHER (code : Z).
(** Modelled from the spec: nest/route.h, see [rta_source]. *)
Inductive rta_cast := RTC_UNICAST | RTC_OTHER (code : Z).
(** Modelled from the spec: nest/route.h, see [rta_source]; the emittable
    destinations of 4.7. *)
Inductive rta_dest :=
  RTD_ROUTER | RTD_DEVICE | RTD_BLACKHOLE | RTD_UNREACHABLE | RTD_PROHIBIT
| RTD_OTHER (code : Z).

(** Modelled from the spec: lib/krt.h, the source tags of section 3. *)
Inductive krt_src :=
  KRT_SRC_KERNEL | KRT_SRC_REDIRECT | KRT_SRC_BIRD | KRT_SRC_ALIEN.

(** Modelled from the spec: nest/route.h, [struct rta] with the members
    [nl_parse_route] sets; [ra_iface] is the pointer [iface]. *)
Record rta := mk_rta {
  ra_source : rta_source;
  ra_scope : rta_scope;
  ra_cast : rta_cast;
  ra_dest : rta_dest;
  ra_tos : Z;
  ra_flags : Z;
  ra_aflags : Z;
  ra_from : Z;
  ra_gw : Z;
  ra_iface : option iface }.

(** Modelled from the spec: nest/route.h, the RIB slot of a prefix, as far
    as netlink.c looks into it ([net->n.prefix], [net->n.pxlen]). *)
Record net := mk_net {
  n_prefix : Z;
  n_pxlen : Z }.

(** Modelled from the spec: nest/route.h, [struct rte]: the slot, the
    attributes and [u.krt_sync.src]. *)
Record rte := mk_rte {
  e_net : net;
  e_attrs : rta;
  e_src : krt_src }.

(** ** Observable effects

    What the code does to the rest of the daemon: lines handed to the logger
    and records handed to the interface table and to the krt syncer.
    [DBG] output is left out. *)
Inductive log_class := L_DEBUG | L_WARN | L_ERR.

Inductive event :=
| Log (c : log_class) (msg : string)
| If_update (f : iface)
| Krt_got_route (e : rte)
| Krt_got_route_async (e : rte) (new : bool).

(** ** Synchronous netlink interface *)

(** What a [recvmsg] on the socket delivers: an error, or a datagram with
    the sender's port ([sa.nl_pid]). *)
Inductive rx_event :=
| RxErr
| RxDgram (pid : Z) (data : mem).

Definition NL_RX_SIZE : nat := 2048.

(** The statics of the synchronous interface together with the socket they
    talk to: [sk_inbox] holds what the coming [recvmsg] calls will deliver,
    [sk_outbox] the datagrams passed to [sendto] (oldest first), [sk_tx_ok]
    whether [sendto] succeeds, and [trace] the log. *)
Record nl_state := mk_nl_state {
  nl_sync_seq : Z;
  nl_rx_buffer : mem;
  nl_last_hdr : option Z;
  nl_last_size : Z;
  sk_inbox : list rx_event;
  sk_outbox : list mem;
  sk_tx_ok : bool;
  trace : list event }.

(** How a call on the synchronous interface ends: it returns, the daemon
    stops in [die] or [bug] or on a null pointer, [recvmsg] blocks for ever
    on a silent socket, or the model's fuel is used up. *)
Inductive outcome (A : Type) :=
| Ok (a : A)
| Die (msg : string)
| Bug (msg : string)
| Crash
| Blocked
| OutOfFuel.
Arguments Ok {A} a.
Arguments Die {A} msg.
Arguments Bug {A} msg.
Arguments Crash {A}.
Arguments Blocked {A}.
Arguments OutOfFuel {A}.

(** Sequencing: what follows a call runs only if the call returned. *)
Definition and_then {A B S : Type} (r : outcome A * S)
  (k : A -> S -> outcome B * S) : outcome B * S :=
  match r with
  | (Ok a, st) => k a st
  | (Die msg, st) => (Die msg, st)
  | (Bug msg, st) => (Bug msg, st)
  | (Crash, st) => (Crash, st)
  | (Blocked, st) => (Blocked, st)
  | (OutOfFuel, st) => (OutOfFuel, st)
  end.

Definition set_seq (st : nl_state) (s : Z) : nl_state :=
  mk_nl_state s (nl_rx_buffer st) (nl_last_hdr st) (nl_last_size st)
    (sk_inbox st) (sk_outbox st) (sk_tx_ok st) (trace st).
Definition set_last (st : nl_state) (h : option Z) : nl_state :=
  mk_nl_state (nl_sync_seq st) (nl_rx_buffer st) h (nl_last_size st)
    (sk_inbox st) (sk_outbox st) (sk_tx_ok st) (trace st).
Definition set_last_size (st : nl_state) (n : Z) : nl_state :=
  mk_nl_state (nl_sync_seq st) (nl_rx_buffer st) (nl_last_hdr st) n
    (sk_inbox st) (sk_outbox st) (sk_tx_ok st) (trace st).
Definition add_log (st : nl_state) (c : log_class) (msg : string) : nl_state :=
  mk_nl_state (nl_sync_seq st) (nl_rx_buffer st) (nl_last_hdr st)
    (nl_last_size st) (sk_inbox st) (sk_outbox st) (sk_tx_ok st)
    (trace st ++ [Log c msg]).
Definition add_sent (st : nl_state) (d : mem) : nl_state :=
  mk_nl_state (nl_sync_seq st) (nl_rx_buffer st) (nl_last_hdr st)
    (nl_last_size st) (sk_inbox st) (sk_outbox st ++ [d]) (sk_tx_ok st)
    (trace st).

(** [nl_send]: stamp port and sequence number into the caller's frame [nh],
    pass its first [nlmsg_len] bytes to [sendto], forget the receive cursor.
    Returns the stamped frame along with the new state. *)
Definition nl_send (nh : mem) (st : nl_state) : outcome mem * nl_state :=
  let nh := store 4 nh 12 0 in
  let st := set_seq st (u32 (nl_sync_seq st + 1)) in
  let nh := store 4 nh 8 (nl_sync_seq st) in
  if sk_tx_ok st then
    let st := add_sent st (take (Z.to_nat (nlmsg_len nh 0)) nh) in
    (Ok nh, set_last st None)
  else (Die "rtnetlink sendto: %m", st).

(** [struct { struct nlmsghdr nh; struct rtgenmsg g; } req]: [g] lies right
    behind the header and the struct, aligned like the header's 32-bit
    members, is padded to a multiple of four bytes. *)
Definition sizeof_dump_req : Z :=
  4 * ((sizeof_nlmsghdr + sizeof_rtgenmsg + 3) / 4).

(** [nl_request_dump]; [req] is the uninitialised stack slot of the
    request. *)
Definition nl_request_dump (req : mem) (cmd : Z) (st : nl_state)
  : outcome mem * nl_state :=
  let req := store 2 req 4 cmd in
  let req := store 4 req 0 sizeof_dump_req in
  let req := store 2 req 6 (Z.lor NLM_F_REQUEST NLM_F_DUMP) in
  let req := store 1 req 16 PF_INET in
  nl_send req st.

(** One [recvmsg] into [nl_rx_buffer] (lines 113-127 of [nl_get_reply]). *)
Inductive refill :=
| RfStop (o : outcome Z) (st : nl_state)
| RfAgain (st : nl_state)
| RfGo (st : nl_state).

Definition nl_recv (st : nl_state) : refill :=
  match sk_inbox st with
  | [] => RfStop Blocked st
  | RxErr :: rest =>
      RfStop (Die "nl_get_reply: %m")
        (mk_nl_state (nl_sync_seq st) (nl_rx_buffer st) (nl_last_hdr st)
           (nl_last_size st) rest (sk_outbox st) (sk_tx_ok st) (trace st))
  | RxDgram pid data :: rest =>
      let x := Nat.min (length data) NL_RX_SIZE in
      let buf := take x data ++ drop x (nl_rx_buffer st) in
      let st := mk_nl_state (nl_sync_seq st) buf (nl_last_hdr st)
                  (nl_last_size st) rest (sk_outbox st) (sk_tx_ok st)
                  (trace st) in
      if negb (pid =? 0) then RfAgain st
      else
        let st := set_last (set_last_size st (Z.of_nat x)) (Some 0) in
        if (NL_RX_SIZE <? length data)%nat
        then RfStop
               (Bug "nl_get_reply: got truncated reply which should be impossible")
               st
        else RfGo st
  end.

(** [NLMSG_NEXT(h, nl_last_size)] *)
Definition NLMSG_NEXT (m : mem) (h : Z) (len : Z) : Z * Z :=
  (h + NLMSG_ALIGN (nlmsg_len m h), u32 (len - NLMSG_ALIGN (nlmsg_len m h))).

(** Lines 129-143: look at the frame under the cursor [nl_last_hdr]. *)
Definition nl_reply_step (st : nl_state) : outcome Z * nl_state + nl_state :=
  let h := default 0 (nl_last_hdr st) in
  if NLMSG_OK (nl_rx_buffer st) h (nl_last_size st) then
    if negb (nlmsg_seq (nl_rx_buffer st) h =? nl_sync_seq st) then
      inr (add_log st L_WARN
             "nl_get_reply: Ignoring out of sequence netlink packet (%x != %x)")
    else
      let '(next, size) := NLMSG_NEXT (nl_rx_buffer st) h (nl_last_size st) in
      inl (Ok h, set_last_size (set_last st (Some next)) size)
  else
    let st := if negb (nl_last_size st =? 0)
              then add_log st L_WARN
                     "nl_get_reply: Found packet remnant of size %d"
              else st in
    inr (set_last st None).

(** [nl_get_reply]: each turn of the [for(;;)] loop takes one unit of fuel.
    The pointer returned points into [nl_rx_buffer]. *)
Fixpoint nl_get_reply (fuel : nat) (st : nl_state) : outcome Z * nl_state :=
  match fuel with
  | O => (OutOfFuel, st)
  | S fuel =>
      match (match nl_last_hdr st with
             | None => nl_recv st
             | Some _ => RfGo st
             end) with
      | RfStop o st => (o, st)
      | RfAgain st => nl_get_reply fuel st
      | RfGo st =>
          match nl_reply_step st with
          | inl r => r
          | inr st => nl_get_reply fuel st
          end
      end
  end.

(** [nl_error] *)
Definition nl_error (h : Z) (st : nl_state) : Z * nl_state :=
  if nlmsg_len (nl_rx_buffer st) h <? NLMSG_LENGTH sizeof_nlmsgerr then
    (ENOBUFS, add_log st L_WARN "Netlink: Truncated error message received")
  else
    let e := NLMSG_DATA h in
    let ec := int32 (- int32 (load 4 (nl_rx_buffer st) e)) in
    (ec, if negb (ec =? 0) then add_log st L_WARN "Netlink: %s" else st).

(** [nl_get_scan]: [None] is the [NULL] that ends a dump. *)
Definition nl_get_scan (fuel : nat) (st : nl_state)
  : outcome (option Z) * nl_state :=
  and_then (nl_get_reply fuel st) (fun h st =>
    if nlmsg_type (nl_rx_buffer st) h =? NLMSG_DONE then (Ok None, st)
    else if nlmsg_type (nl_rx_buffer st) h =? NLMSG_ERROR
    then (Ok None, snd (nl_error h st))
    else (Ok (Some h), st)).

(** The reply loop of [nl_exchange]. *)
Fixpoint nl_exchange_loop (fuel : nat) (st : nl_state) : outcome Z * nl_state :=
  match fuel with
  | O => (OutOfFuel, st)
  | S fuel' =>
      and_then (nl_get_reply fuel st) (fun h st =>
        if nlmsg_type (nl_rx_buffer st) h =? NLMSG_ERROR
        then let '(ec, st) := nl_error h st in (Ok ec, st)
        else nl_exchange_loop fuel'
               (add_log st L_WARN "nl_exchange: Unexpected reply received"))
  end.

(** [nl_exchange] *)
Definition nl_exchange (fuel : nat) (pkt : mem) (st : nl_state)
  : outcome Z * nl_state :=
  and_then (nl_send pkt st) (fun _ st => nl_exchange_loop fuel st).

(** ** Netlink attributes *)

(** [nl_checkin]: the pointer to the body ([None] is [NULL]) and the value
    left in the static [nl_attr_len]. *)
Definition nl_checkin (m : mem) (h : Z) (lsize : Z)
  : list event * (option Z * Z) :=
  let nl_attr_len := int32 (nlmsg_len m h - NLMSG_LENGTH lsize) in
  if nl_attr_len <? 0
  then ([Log L_ERR "nl_checkin: underrun by %d bytes"], (None, nl_attr_len))
  else ([], (Some (NLMSG_DATA h), nl_attr_len)).

Definition inspect {A : Type} (a : A) : {b : A | a = b} := exist _ a eq_refl.

Lemma align4_eq (x : Z) : Z.land x (Z.lnot 3) = 4 * (x / 4).
Proof.
  change 4 with (2 ^ 2).
  rewrite Z.mul_comm, <- Z.shiftr_div_pow2, <- Z.shiftl_mul_pow2 by lia.
  Z.bitblast.
  - assert (Hl : l = 0 \/ l = 1) by lia.
    destruct Hl; subst l; simpl; now rewrite andb_false_r.
  - rewrite (Z.bits_above_log2 3 l) by (simpl; lia).
    simpl. now rewrite andb_true_r.
Qed.

Lemma RTA_ALIGN_eq (len : Z) : RTA_ALIGN len = 4 * ((len + 3) / 4).
Proof.
  unfold RTA_ALIGN, RTA_ALIGNTO. simpl (4 - 1).
  replace (len + 4 - 1) with (len + 3) by lia. apply align4_eq.
Qed.

Lemma RTA_OK_true (m : mem) (a len : Z) :
  RTA_OK m a len = true -> 0 < len /\ 4 <= rta_len m a <= len.
Proof.
  unfold RTA_OK, sizeof_rtattr. intros H.
  apply andb_prop in H as [H H3]. apply andb_prop in H as [H1 H2]. lia.
Qed.

(** [a = RTA_NEXT(a, nl_attr_len)]: the next attribute and what is left of
    the region. *)
Definition RTA_NEXT (m : mem) (a len : Z) : Z * Z :=
  (a + RTA_ALIGN (rta_len m a), int32 (len - RTA_ALIGN (rta_len m a))).

Lemma RTA_NEXT_decreases (m : mem) (a len : Z) :
  RTA_OK m a len = true ->
  (Z.to_nat (snd (RTA_NEXT m a len)) < Z.to_nat len)%nat.
Proof.
  intros H. apply RTA_OK_true in H. unfold RTA_NEXT, int32. simpl snd.
  rewrite RTA_ALIGN_eq.
  Z.div_mod_to_equations. lia.
Qed.

(** The [while (RTA_OK(a, nl_attr_len))] loop of [nl_parse_attrs]: the
    table [k] filled so far and the remaining length go round the loop. *)
Equations? nl_parse_attrs_loop (m : mem) (kmax : Z) (a len : Z)
  (k : list (option Z)) : list (option Z) * Z by wf (Z.to_nat len) lt :=
  nl_parse_attrs_loop m kmax a len k with inspect (RTA_OK m a len) := {
    | exist _ true Hok :=
        nl_parse_attrs_loop m kmax (fst (RTA_NEXT m a len))
          (snd (RTA_NEXT m a len))
          (if rta_type m a <? kmax
           then <[Z.to_nat (rta_type m a) := Some a]> k
           else k);
    | exist _ false _ := (k, len) }.
Proof. now apply RTA_NEXT_decreases. Qed.

(** [nl_parse_attrs]: the table [k] after the call and the return value. *)
Definition nl_parse_attrs (m : mem) (a : Z) (nl_attr_len : Z) (ksize : Z)
  : list event * (list (option Z) * bool) :=
  let max := ksize / sizeof_ptr in
  let k := replicate (Z.to_nat max) None in
  let '(k, nl_attr_len) := nl_parse_attrs_loop m max a nl_attr_len k in
  if negb (nl_attr_len =? 0)
  then ([Log L_ERR "nl_parse_attrs: remnant of size %d"], (k, false))
  else ([], (k, true)).

(** [k[code]], [None] for a null pointer. *)
Definition attr (k : list (option Z)) (code : Z) : option Z :=
  mjoin (k !! Z.to_nat code).

(** *** Emitting attributes *)

(** [nl_add_attr_u32]; the frame [h] starts at offset 0 of its buffer. *)
Definition nl_add_attr_u32 (h : mem) (maxsize code data : Z) : outcome mem :=
  let len := RTA_LENGTH 4 in
  if maxsize <? u32 (NLMSG_ALIGN (nlmsg_len h 0) + len)
  then Bug "nl_add_attr32: packet buffer overflow"
  else
    let a := NLMSG_ALIGN (nlmsg_len h 0) in
    let h := store 2 h (a + 2) code in
    let h := store 2 h a len in
    let h := store_bytes h (RTA_DATA a) (le_split 4 data) in
    Ok (store 4 h 0 (NLMSG_ALIGN (nlmsg_len h 0) + len)).

(** [nl_add_attr_ipa] *)
Definition nl_add_attr_ipa (h : mem) (maxsize code ipa : Z) : outcome mem :=
  let len := RTA_LENGTH sizeof_ip_addr in
  if maxsize <? u32 (NLMSG_ALIGN (nlmsg_len h 0) + len)
  then Bug "nl_add_attr_ipa: packet buffer overflow"
  else
    let a := NLMSG_ALIGN (nlmsg_len h 0) in
    let h := store 2 h (a + 2) code in
    let h := store 2 h a len in
    let ipa := ipa_hton ipa in
    let h := store_bytes h (RTA_DATA a) (le_split 4 ipa) in
    Ok (store 4 h 0 (NLMSG_ALIGN (nlmsg_len h 0) + len)).

(** ** Translators

    A translator is a [void] function that logs, hands records to the daemon
    and leaves early with [return;] at the first check that fails.  [tr A]
    is such a computation: the events so far and, unless it has returned
    early, a value. *)
Definition tr (A : Type) : Type := (list event * option A)%type.

#[global] Instance tr_ret : MRet tr := fun A x => ([], Some x).
#[global] Instance tr_bind : MBind tr := fun A B k c =>
  match c with
  | (ev, Some x) => let '(ev', r) := k x in (ev ++ ev', r)
  | (ev, None) => (ev, None)
  end.

(** [return;] *)
Definition leave {A : Type} : tr A := ([], None).
Definition emit (e : event) : tr unit := ([e], Some tt).
(** A call of a function that logs and returns a value. *)
Definition run {A : Type} (c : list event * A) : tr A := (fst c, Some (snd c)).
(** [if (!p) return;] *)
Definition non_null {A : Type} (p : option A) : tr A := ([], p).
(** [if (!ok) return;] *)
Definition check (ok : bool) : tr unit := if ok then mret tt else leave.

(** [!p || f(p)] and [p && f(p)] on a pointer. *)
Definition null_or {A : Type} (p : option A) (f : A -> bool) : bool :=
  match p with None => true | Some x => f x end.
Definition nonnull_and {A : Type} (p : option A) (f : A -> bool) : bool :=
  match p with None => false | Some x => f x end.

(** The bytes of a C string: those before the first NUL. *)
Fixpoint c_string (bs : list byte) : list byte :=
  match bs with
  | [] => []
  | b :: bs => if Byte.eqb b Byte.x00 then [] else b :: c_string bs
  end.

(** [strncpy(dst, src, n)] and [strcpy(dst, src)] on a buffer [dst]. *)
Definition strncpy (dst : list byte) (src : list byte) (n : nat) : list byte :=
  let s := c_string (take n src) in
  s ++ zeros (n - length s) ++ drop n dst.
Definition strcpy (dst : list byte) (src : list byte) : list byte :=
  let s := c_string src ++ [Byte.x00] in
  s ++ drop (length s) dst.

Definition set_if_name (f : iface) (v : list byte) : iface :=
  mk_iface v (if_flags f) (if_mtu f) (if_index f) (if_ip f) (if_prefix f)
    (if_pxlen f) (if_brd f) (if_opposite f).
Definition set_if_flags (f : iface) (v : Z) : iface :=
  mk_iface (if_name f) v (if_mtu f) (if_index f) (if_ip f) (if_prefix f)
    (if_pxlen f) (if_brd f) (if_opposite f).
Definition set_if_mtu (f : iface) (v : Z) : iface :=
  mk_iface (if_name f) (if_flags f) v (if_index f) (if_ip f) (if_prefix f)
    (if_pxlen f) (if_brd f) (if_opposite f).
Definition set_if_index (f : iface) (v : Z) : iface :=
  mk_iface (if_name f) (if_flags f) (if_mtu f) v (if_ip f) (if_prefix f)
    (if_pxlen f) (if_brd f) (if_opposite f).
Definition set_if_ip (f : iface) (v : Z) : iface :=
  mk_iface (if_name f) (if_flags f) (if_mtu f) (if_index f) v (if_prefix f)
    (if_pxlen f) (if_brd f) (if_opposite f).
Definition set_if_prefix (f : iface) (v : Z) : iface :=
  mk_iface (if_name f) (if_flags f) (if_mtu f) (if_index f) (if_ip f) v
    (if_pxlen f) (if_brd f) (if_opposite f).
Definition set_if_pxlen (f : iface) (v : Z) : iface :=
  mk_iface (if_name f) (if_flags f) (if_mtu f) (if_index f) (if_ip f)
    (if_prefix f) v (if_brd f) (if_opposite f).
Definition set_if_brd (f : iface) (v : Z) : iface :=
  mk_iface (if_name f) (if_flags f) (if_mtu f) (if_index f) (if_ip f)
    (if_prefix f) (if_pxlen f) v (if_opposite f).
Definition set_if_opposite (f : iface) (v : Z) : iface :=
  mk_iface (if_name f) (if_flags f) (if_mtu f) (if_index f) (if_ip f)
    (if_prefix f) (if_pxlen f) (if_brd f) v.

(** [if (c) x |= bits;] *)
Definition or_if (c : bool) (x bits : Z) : Z := if c then Z.lor x bits else x.

Section Translators.

(** The daemon's interface table, looked up by index. *)
Variable if_find_by_index : Z -> option iface.

(** *** Scanning of interfaces *)

(** Lines 316-324 of [nl_parse_link]: [f.flags] from [i->ifi_flags]. *)
Definition link_flags (fl : Z) : Z :=
  let flags := 0 in
  let flags := or_if (has_flag fl IFF_UP) flags IF_LINK_UP in
  let flags := or_if (has_flag fl IFF_POINTOPOINT) flags
                 (Z.lor IF_UNNUMBERED IF_MULTICAST) in
  let flags := or_if (has_flag fl IFF_LOOPBACK) flags
                 (Z.lor IF_LOOPBACK IF_IGNORE) in
  let flags := or_if (has_flag fl IFF_BROADCAST) flags
                 (Z.lor IF_BROADCAST IF_MULTICAST) in
  flags.

(** [nl_parse_link] *)
Definition nl_parse_link (m : mem) (h : Z) (scan : bool) : list event :=
  let new := nlmsg_type m h =? RTM_NEWLINK in
  fst (
    '(i, nl_attr_len) ← run (nl_checkin m h sizeof_ifinfomsg);
    i ← non_null i;
    '(a, ok) ← run (nl_parse_attrs m (IFLA_RTA i) nl_attr_len
                      (sizeof_ptr * (IFLA_STATS + 1)));
    check ok;;
    (if null_or (attr a IFLA_IFNAME) (fun p => RTA_PAYLOAD m p <? 2)
        || null_or (attr a IFLA_MTU) (fun p => negb (RTA_PAYLOAD m p =? 4))
     then emit (Log L_ERR "nl_parse_link: Malformed message received");; leave
     else mret tt);;
    a_name ← non_null (attr a IFLA_IFNAME);
    a_mtu ← non_null (attr a IFLA_MTU);
    let name := RTA_DATA a_name in
    let mtu := load 4 m (RTA_DATA a_mtu) in
    let ifi := if_find_by_index (ifi_index m i) in
    if negb new then
      match ifi with
      | Some ifi =>
          if negb scan then
            let f := ifi in
            let f := set_if_flags f (Z.lor (if_flags f) IF_ADMIN_DOWN) in
            emit (If_update f)
          else mret tt
      | None => mret tt
      end
    else
      let f := match ifi with
               | Some ifi => ifi
               | None => set_if_index iface_zero (ifi_index m i)
               end in
      let f := set_if_name f
                 (strncpy (if_name f) (drop (Z.to_nat name) m)
                    (sizeof_if_name - 1)) in
      let f := set_if_mtu f mtu in
      let f := set_if_flags f (link_flags (ifi_flags m i)) in
      emit (If_update f)).

(** Lines 338-353 of [nl_parse_addr]: the checks in front of the interface
    lookup; what comes out is the body [i] and the attribute table [a]. *)
Definition nl_addr_filters (m : mem) (h : Z) : tr (Z * list (option Z)) :=
  '(i, nl_attr_len) ← run (nl_checkin m h sizeof_ifaddrmsg);
  i ← non_null i;
  '(a, ok) ← run (nl_parse_attrs m (IFA_RTA i) nl_attr_len
                    (sizeof_ptr * (IFA_ANYCAST + 1)));
  check ok;;
  check (ifa_family m i =? AF_INET);;
  (if null_or (attr a IFA_ADDRESS)
        (fun p => negb (RTA_PAYLOAD m p =? sizeof_ip_addr))
      || null_or (attr a IFA_LOCAL)
           (fun p => negb (RTA_PAYLOAD m p =? sizeof_ip_addr))
      || nonnull_and (attr a IFA_BROADCAST)
           (fun p => negb (RTA_PAYLOAD m p =? sizeof_ip_addr))
   then emit (Log L_ERR "nl_parse_addr: Malformed message received");; leave
   else mret tt);;
  check (negb (has_flag (ifa_flags m i) IFA_F_SECONDARY));;
  mret (i, a).

(** Line 363: the test on the prefix length. *)
Definition invalid_pxlen (flags pxlen : Z) : bool :=
  (32 <? pxlen) || (pxlen =? 31)
  || (has_flag flags IF_UNNUMBERED && negb (pxlen =? 32)).

(** Lines 355-395 of [nl_parse_addr]. *)
Definition nl_addr_bind (m : mem) (h : Z) (i : Z) (a : list (option Z))
  : tr unit :=
  let new := nlmsg_type m h =? RTM_NEWADDR in
  match if_find_by_index (ifa_index m i) with
  | None =>
      emit (Log L_ERR
              "KRT: Received address message for unknown interface %d\n");;
      leave
  | Some ifi =>
      let f := ifi in
      let bad := invalid_pxlen (if_flags f) (ifa_prefixlen m i) in
      (if bad
       then emit (Log L_ERR "KRT: Invalid prefix length for interface %s: %d\n")
       else mret tt);;
      let new := if bad then false else new in
      let f := set_if_opposite (set_if_brd (set_if_ip f IPA_NONE) IPA_NONE)
                 IPA_NONE in
      if negb new then
        let f := set_if_pxlen f 0 in
        emit (If_update f)
      else
        a_local ← non_null (attr a IFA_LOCAL);
        let f := set_if_ip f (ipa_ntoh (load 4 m (RTA_DATA a_local))) in
        let f := set_if_pxlen f (ifa_prefixlen m i) in
        f ← (if has_flag (if_flags f) IF_UNNUMBERED then
               a_addr ← non_null (attr a IFA_ADDRESS);
               let f := set_if_opposite f (load 4 m (RTA_DATA a_addr)) in
               let v := ipa_ntoh (if_opposite f) in
               mret (set_if_opposite (set_if_brd f v) v)
             else
               match (if has_flag (if_flags f) IF_BROADCAST
                      then attr a IFA_BROADCAST else None) with
               | Some a_brd =>
                   mret (set_if_brd f (ipa_ntoh (load 4 m (RTA_DATA a_brd))))
               | None => mret f
               end);
        let f := set_if_prefix f
                   (ipa_and (if_ip f) (ipa_mkmask (if_pxlen f))) in
        emit (If_update f)
  end.

(** [nl_parse_addr] *)
Definition nl_parse_addr (m : mem) (h : Z) : list event :=
  fst ('(i, a) ← nl_addr_filters m h; nl_addr_bind m h i a).

End Translators.

(** ** Routes *)

(** [krt_capable] *)
Definition krt_capable (e : rte) : bool :=
  let a := e_attrs e in
  match ra_cast a with
  | RTC_UNICAST =>
      match ra_dest a with
      | RTD_ROUTER | RTD_DEVICE | RTD_BLACKHOLE | RTD_UNREACHABLE
      | RTD_PROHIBIT => true
      | RTD_OTHER _ => false
      end
  | RTC_OTHER _ => false
  end.

(** [struct { struct nlmsghdr h; struct rtmsg r; char buf[128]; } r] of
    [nl_send_route]. *)
Definition sizeof_route_req : Z := sizeof_nlmsghdr + sizeof_rtmsg + 128.

(** Assignment to a one-byte member of [r.r], [off] bytes into it. *)
Definition set_rtm (r : mem) (off : Z) (v : Z) : mem :=
  store 1 r (sizeof_nlmsghdr + off) v.

Definition out_bind {A B : Type} (o : outcome A) (k : A -> outcome B)
  : outcome B :=
  match o with
  | Ok a => k a
  | Die msg => Die msg
  | Bug msg => Bug msg
  | Crash => Crash
  | Blocked => Blocked
  | OutOfFuel => OutOfFuel
  end.

(** Lines 461-496 of [nl_send_route]: the frame handed to [nl_exchange].
    [buf] is the uninitialised member [r.buf]. *)
Definition nl_route_frame (e : rte) (new : bool) (buf : mem) : outcome mem :=
  let net := e_net e in
  let a := e_attrs e in
  let r := zeros (Z.to_nat sizeof_nlmsghdr) ++ zeros (Z.to_nat sizeof_rtmsg)
           ++ buf in
  let r := store 2 r 4 (if new then RTM_NEWROUTE else RTM_DELROUTE) in
  let r := store 4 r 0 (NLMSG_LENGTH sizeof_rtmsg) in
  let r := store 2 r 6
             (Z.lor (Z.lor NLM_F_REQUEST NLM_F_ACK)
                (if new then Z.lor NLM_F_CREATE NLM_F_REPLACE else 0)) in
  let r := set_rtm r 0 AF_INET in
  let r := set_rtm r 1 (n_pxlen net) in
  let r := set_rtm r 3 0 in
  let r := set_rtm r 4 RT_TABLE_MAIN in
  let r := set_rtm r 5 RTPROT_BIRD in
  let r := set_rtm r 6 RT_SCOPE_UNIVERSE in
  out_bind (nl_add_attr_ipa r sizeof_route_req RTA_DST (n_prefix net))
    (fun r =>
       match ra_dest a with
       | RTD_ROUTER =>
           let r := set_rtm r 7 RTN_UNICAST in
           nl_add_attr_ipa r sizeof_route_req RTA_GATEWAY (ra_gw a)
       | RTD_DEVICE =>
           let r := set_rtm r 7 RTN_UNICAST in
           match ra_iface a with
           | Some ifa => nl_add_attr_u32 r sizeof_route_req RTA_OIF (if_index ifa)
           | None => Crash
           end
       | RTD_BLACKHOLE => Ok (set_rtm r 7 RTN_BLACKHOLE)
       | RTD_UNREACHABLE => Ok (set_rtm r 7 RTN_UNREACHABLE)
       | RTD_PROHIBIT => Ok (set_rtm r 7 RTN_PROHIBIT)
       | RTD_OTHER _ => Bug "krt_capable inconsistent with nl_send_route"
       end).

(** [nl_send_route]; the value is what [nl_exchange] returned. *)
Definition nl_send_route (fuel : nat) (e : rte) (new : bool) (buf : mem)
  (st : nl_state) : outcome Z * nl_state :=
  match nl_route_frame e new buf with
  | Ok r => nl_exchange fuel r st
  | Die msg => (Die msg, st)
  | Bug msg => (Bug msg, st)
  | Crash => (Crash, st)
  | Blocked => (Blocked, st)
  | OutOfFuel => (OutOfFuel, st)
  end.

Section Routes.

(** The daemon's interface table and neighbor cache, looked up by index and
    by gateway address. *)
Variable if_find_by_index : Z -> option iface.
Variable neigh_find : Z -> option neighbor.

(** [krt_temp_iface]: [temp_ifs] is the list [p->scan.temp_ifs]; the value
    is the entry found or added and the list after the call. *)
Definition krt_temp_iface (temp_ifs : list iface) (index : Z)
  : iface * list iface :=
  match List.find (fun i => if_index i =? index) temp_ifs with
  | Some i => (i, temp_ifs)
  | None =>
      let i := iface_zero in
      let i := match if_find_by_index index with
               | Some j => set_if_name i (strcpy (if_name i) (if_name j))
               | None => set_if_name i (strcpy (if_name i) [Byte.x3f])
               end in
      let i := set_if_index i index in
      (i, temp_ifs ++ [i])
  end.

(** Lines 557-578 of [nl_parse_route]: the checks in front of the
    translation; what comes out is the body [i] and the attribute table. *)
Definition nl_route_filters (m : mem) (h : Z) (scan : bool)
  : tr (Z * list (option Z)) :=
  let new := nlmsg_type m h =? RTM_NEWROUTE in
  '(i, nl_attr_len) ← run (nl_checkin m h sizeof_rtmsg);
  i ← non_null i;
  '(a, ok) ← run (nl_parse_attrs m (RTM_RTA i) nl_attr_len
                    (sizeof_ptr * (RTA_CACHEINFO + 1)));
  check ok;;
  check (rtm_family m i =? AF_INET);;
  (if nonnull_and (attr a RTA_DST)
        (fun p => negb (RTA_PAYLOAD m p =? sizeof_ip_addr))
      || nonnull_and (attr a RTA_OIF)
           (fun p => negb (RTA_PAYLOAD m p =? 4))
      || nonnull_and (attr a RTA_GATEWAY)
           (fun p => negb (RTA_PAYLOAD m p =? sizeof_ip_addr))
   then emit (Log L_ERR "nl_parse_route: Malformed message received");; leave
   else mret tt);;
  check (rtm_table m i =? RT_TABLE_MAIN);;
  check (rtm_tos m i =? 0);;
  check (negb (scan && negb new));;
  mret (i, a).

(** Lines 594-612: the [switch (i->rtm_protocol)]; [None] is the [return]. *)
Definition route_src (protocol : Z) (scan : bool) : option krt_src :=
  if protocol =? RTPROT_REDIRECT then Some KRT_SRC_REDIRECT
  else if protocol =? RTPROT_KERNEL then None
  else if protocol =? RTPROT_BIRD then
    if negb scan then None else Some KRT_SRC_BIRD
  else Some KRT_SRC_ALIEN.

(** Modelled from the spec: nest/route.h, [net_get(&master_table, 0, dst,
    pxlen)] obtains the RIB slot of the prefix (6.5). *)
Definition net_get (dst pxlen : Z) : net := mk_net dst pxlen.

(** Lines 580-672 of [nl_parse_route]; the value is the list
    [p->scan.temp_ifs] after the call. *)
Definition nl_route_translate (temp_ifs : list iface) (m : mem) (h : Z)
  (scan : bool) (i : Z) (a : list (option Z)) : tr (list iface) :=
  let new := nlmsg_type m h =? RTM_NEWROUTE in
  let dst := match attr a RTA_DST with
             | Some p => ipa_ntoh (load 4 m (RTA_DATA p))
             | None => IPA_NONE
             end in
  let oif := match attr a RTA_OIF with
             | Some p => load 4 m (RTA_DATA p)
             | None => u32 (Z.lnot 0)
             end in
  src ← non_null (route_src (rtm_protocol m i) scan);
  let net := net_get dst (rtm_dst_len m i) in
  let ra dest gw iface :=
    mk_rta RTS_INHERIT SCOPE_UNIVERSE RTC_UNICAST dest 0 0 0 IPA_NONE gw
      iface in
  '(ra, temp_ifs) ←
    (if rtm_type m i =? RTN_UNICAST then
       (if oif =? u32 (Z.lnot 0)
        then emit (Log L_ERR "KRT: Mysterious route with no OIF (%I/%d)");;
             leave
        else mret tt);;
       match attr a RTA_GATEWAY with
       | Some p =>
           let gw := ipa_ntoh (load 4 m (RTA_DATA p)) in
           match neigh_find gw with
           | Some ng => mret (ra RTD_ROUTER gw (ng_iface ng), temp_ifs)
           | None =>
               emit (Log L_WARN
                       "Kernel told us to use non-neighbor %I for %I/%d");;
               mret (ra RTD_ROUTER gw None, temp_ifs)
           end
       | None =>
           let '(ifa, temp_ifs) := krt_temp_iface temp_ifs oif in
           mret (ra RTD_DEVICE IPA_NONE (Some ifa), temp_ifs)
       end
     else if rtm_type m i =? RTN_BLACKHOLE
     then mret (ra RTD_BLACKHOLE IPA_NONE None, temp_ifs)
     else if rtm_type m i =? RTN_UNREACHABLE
     then mret (ra RTD_UNREACHABLE IPA_NONE None, temp_ifs)
     else if rtm_type m i =? RTN_PROHIBIT
     then mret (ra RTD_PROHIBIT IPA_NONE None, temp_ifs)
     else leave);
  let e := mk_rte net ra src in
  (if scan then emit (Krt_got_route e) else emit (Krt_got_route_async e new));;
  mret temp_ifs.

(** [nl_parse_route]: the events and [p->scan.temp_ifs] after the call. *)
Definition nl_parse_route (temp_ifs : list iface) (m : mem) (h : Z)
  (scan : bool) : list event * list iface :=
  let r := '(i, a) ← nl_route_filters m h scan;
           nl_route_translate temp_ifs m h scan i a in
  (fst r, default temp_ifs (snd r)).

(** [nl_async_msg]: the dispatch of one asynchronous notification. *)
Definition nl_async_msg (temp_ifs : list iface) (m : mem) (h : Z)
  : list event * list iface :=
  let type := nlmsg_type m h in
  if (type =? RTM_NEWROUTE) || (type =? RTM_DELROUTE)
  then nl_parse_route temp_ifs m h false
  else if (type =? RTM_NEWLINK) || (type =? RTM_DELLINK)
  then (nl_parse_link if_find_by_index m h false, temp_ifs)
  else if (type =? RTM_NEWADDR) || (type =? RTM_DELADDR)
  then (nl_parse_addr if_find_by_index m h, temp_ifs)
  else ([], temp_ifs).

End Routes.

(** ** Reading a region of attributes *)

(** The attributes of a region in wire order, as [RTA_OK] and [RTA_NEXT]
    step through them, and the length left over behind the last one. *)
Equations? rta_walk (m : mem) (a len : Z) : list Z * Z
  by wf (Z.to_nat len) lt :=
  rta_walk m a len with inspect (RTA_OK m a len) := {
    | exist _ true Hok :=
        let r := rta_walk m (fst (RTA_NEXT m a len)) (snd (RTA_NEXT m a len)) in
        (a :: fst r, snd r);
    | exist _ false _ := ([], len) }.
Proof. now apply RTA_NEXT_decreases. Qed.

(** ** Sample frames

    Builders for the concrete frames of the examples below: an attribute
    with its padding, a frame with its header, and the bodies of the three
    kinds of message. *)
Definition sample_attr (code : Z) (payload : list byte) : mem :=
  le_split 2 (RTA_LENGTH (Z.of_nat (length payload))) ++ le_split 2 code
  ++ payload
  ++ zeros (Z.to_nat (RTA_ALIGN (Z.of_nat (length payload))) - length payload).

Definition sample_frame (type flags seq pid : Z) (body : mem) : mem :=
  le_split 4 (NLMSG_LENGTH (Z.of_nat (length body))) ++ le_split 2 type
  ++ le_split 2 flags ++ le_split 4 seq ++ le_split 4 pid ++ body.

(** An address as it travels: most significant byte first. *)
Definition be32 (x : Z) : list byte := rev (le_split 4 x).

Definition sample_ifinfomsg (index flags : Z) : mem :=
  le_split 1 0 ++ le_split 1 0 ++ le_split 2 0 ++ le_split 4 index
  ++ le_split 4 flags ++ le_split 4 0.

Definition sample_ifaddrmsg (family prefixlen flags index : Z) : mem :=
  le_split 1 family ++ le_split 1 prefixlen ++ le_split 1 flags
  ++ le_split 1 0 ++ le_split 4 index.

Definition sample_rtmsg (family dst_len tos table protocol type : Z) : mem :=
  le_split 1 family ++ le_split 1 dst_len ++ le_split 1 0 ++ le_split 1 tos
  ++ le_split 1 table ++ le_split 1 protocol ++ le_split 1 RT_SCOPE_UNIVERSE
  ++ le_split 1 type ++ le_split 4 0.

(** ** The flag table of the link translator, in the spec's words

    Section 3 names the abstract flags; section 4.4 gives, for each kernel
    flag, the abstract flags it contributes. *)
Inductive abstract_flag :=
  LINK_UP | ADMIN_DOWN | LOOPBACK | BROADCAST | MULTICAST | UNNUMBERED | IGNORE.

#[global] Instance abstract_flag_eq_dec : EqDecision abstract_flag.
Proof. solve_decision. Defined.

Definition flag_bit (x : abstract_flag) : Z :=
  match x with
  | LINK_UP => IF_LINK_UP
  | ADMIN_DOWN => IF_ADMIN_DOWN
  | LOOPBACK => IF_LOOPBACK
  | BROADCAST => IF_BROADCAST
  | MULTICAST => IF_MULTICAST
  | UNNUMBERED => IF_UNNUMBERED
  | IGNORE => IF_IGNORE
  end.

(** The flag word of a set of abstract flags. *)
Definition flag_word (s : list abstract_flag) : Z :=
  fold_right (fun x w => Z.lor (flag_bit x) w) 0 s.

Definition spec_link_flags (fl : Z) : list abstract_flag :=
  (if has_flag fl IFF_UP then [LINK_UP] else [])
  ++ (if has_flag fl IFF_LOOPBACK then [LOOPBACK; IGNORE] else [])
  ++ (if has_flag fl IFF_BROADCAST then [BROADCAST; MULTICAST] else [])
  ++ (if has_flag fl IFF_POINTOPOINT then [UNNUMBERED; MULTICAST] else []).

(** The routes an event list hands to the krt syncer, through either sink. *)
Definition delivered (evs : list event) : list rte :=
  omap (fun e => match e with
                 | Krt_got_route r => Some r
                 | Krt_got_route_async r _ => Some r
                 | _ => None
                 end) evs.

(** The attributes a route frame carries, in wire order, each with its code
    and payload, and the length left over behind the last one. *)
Definition frame_attrs (fr : mem) : list (Z * list byte) * Z :=
  let w := rta_walk fr (RTM_RTA (NLMSG_DATA 0))
             (int32 (nlmsg_len fr 0 - NLMSG_LENGTH sizeof_rtmsg)) in
  (map (fun a => (rta_type fr a,
                  load_bytes (Z.to_nat (RTA_PAYLOAD fr a)) fr (RTA_DATA a)))
     w.1, w.2).

(** ** Notions used in the statements *)

(** What one turn of the loop does to the table. *)
Definition table_put (m : mem) (kmax : Z) (k : list (option Z)) (a : Z)
  : list (option Z) :=
  if rta_type m a <? kmax then <[Z.to_nat (rta_type m a) := Some a]> k else k.

Definition stale_warning : string :=
  "nl_get_reply: Ignoring out of sequence netlink packet (%x != %x)".

(** The frame under the cursor is complete and carries a sequence number
    other than that of the last request. *)
Definition stale_under_cursor (st : nl_state) : bool :=
  match nl_last_hdr st with
  | Some h =>
      NLMSG_OK (nl_rx_buffer st) h (nl_last_size st)
      && negb (nlmsg_seq (nl_rx_buffer st) h =? nl_sync_seq st)
  | None => false
  end.

(** Events that are lines of the log. *)
Definition is_log (e : event) : Prop :=
  match e with Log _ _ => True | _ => False end.

Definition invalid_pxlen_msg : string :=
  "KRT: Invalid prefix length for interface %s: %d\n".

Definition non_neighbor_msg : string :=
  "Kernel told us to use non-neighbor %I for %I/%d".

(** ** Sample inputs *)

(** Two attributes of code 1 in a row: the slot holds the second one, at
    offset 8, and the parse succeeds. *)
Definition twice_code_1 : mem :=
  sample_attr 1 (le_split 4 10) ++ sample_attr 1 (le_split 4 20).

(** A state in which an earlier reply is still under the cursor, and it even
    carries the sequence number the next request will get; the kernel's
    answer to that request, a DONE frame, waits on the socket. *)
Definition leftover_state : nl_state :=
  mk_nl_state 41
    (sample_frame RTM_NEWLINK 0 42 0 [] ++ zeros (NL_RX_SIZE - 16))
    (Some 0) 16
    [RxDgram 0 (sample_frame NLMSG_DONE 0 42 0 [])] [] true [].

Definition leftover_request : mem :=
  sample_frame RTM_GETLINK (Z.lor NLM_F_REQUEST NLM_F_DUMP) 0 0
    (le_split 4 PF_INET).

(** An active dump with sequence number 7; the kernel delivers one datagram
    holding a reply to request 6 followed by a reply to request 7. *)
Definition stale_then_current : nl_state :=
  mk_nl_state 7 (zeros NL_RX_SIZE) None 0
    [RxDgram 0 (sample_frame RTM_NEWLINK 2 6 0 []
                ++ sample_frame RTM_NEWLINK 2 7 0 [])]
    [] true [].

(** The loopback interface of a cold scan: index 1, name "lo", MTU 65536,
    kernel flags UP|LOOPBACK. *)
Definition sample_newlink : mem :=
  sample_frame RTM_NEWLINK 2 1 0
    (sample_ifinfomsg 1 (Z.lor IFF_UP IFF_LOOPBACK)
     ++ sample_attr IFLA_IFNAME [Byte.x6c; Byte.x6f; Byte.x00]
     ++ sample_attr IFLA_MTU (le_split 4 65536)).

(** An interface table that knows index 1 with other flags. *)
Definition sample_if_stale (index : Z) : option iface :=
  if index =? 1
  then Some (mk_iface (zeros sizeof_if_name)
               (Z.lor IF_ADMIN_DOWN IF_BROADCAST) 1500 1 0 0 0 0 0)
  else None.

Definition sample_newlink_published : iface :=
  mk_iface ([Byte.x6c; Byte.x6f] ++ zeros 14)
    (Z.lor IF_LINK_UP (Z.lor IF_LOOPBACK IF_IGNORE)) 65536 1 0 0 0 0 0.

(** A broadcast interface and an unnumbered point-to-point link. *)
Definition sample_if_2 : iface :=
  mk_iface (zeros sizeof_if_name) (Z.lor IF_BROADCAST IF_MULTICAST)
    1500 2 0 0 0 0 0.

Definition sample_if_3 : iface :=
  mk_iface (zeros sizeof_if_name) (Z.lor IF_UNNUMBERED IF_MULTICAST)
    1500 3 0 0 0 0 0.

(** The interface table of the examples, holding these two. *)
Definition sample_if_table (index : Z) : option iface :=
  if index =? 2 then Some sample_if_2
  else if index =? 3 then Some sample_if_3
  else None.

(** Local address 10.0.0.1/[prefixlen] on interface [index], with ADDRESS
    attribute [address] and broadcast 10.0.0.255. *)
Definition sample_newaddr (prefixlen flags index address : Z) : mem :=
  sample_frame RTM_NEWADDR 0 1 0
    (sample_ifaddrmsg AF_INET prefixlen flags index
     ++ sample_attr IFA_ADDRESS (be32 address)
     ++ sample_attr IFA_LOCAL (be32 0x0A000001)
     ++ sample_attr IFA_BROADCAST (be32 0x0A0000FF)).

(** Where [nl_parse_attrs] finds the attributes of [sample_newaddr]. *)
Definition sample_newaddr_table : list (option Z) :=
  [None; Some 24; Some 32; None; Some 40; None].

(** What is published for 10.0.0.1/32 with peer 10.0.0.2 on interface 3. *)
Definition sample_ptp_published : iface :=
  mk_iface (zeros sizeof_if_name) (Z.lor IF_UNNUMBERED IF_MULTICAST)
    1500 3 0x0A000001 0x0A000001 32 0x0A000002 0x0A000002.

(** A NEWROUTE frame for 192.0.2.0/24 in the main table. *)
Definition sample_newroute (protocol type : Z) (attrs : mem) : mem :=
  sample_frame RTM_NEWROUTE 0 1 0
    (sample_rtmsg AF_INET 24 0 RT_TABLE_MAIN protocol type ++ attrs).

(** 192.0.2.0/24 via 198.51.100.1 on interface 7, installed at boot
    (RTPROT_BOOT = 3). *)
Definition sample_route_via_gw : mem :=
  sample_newroute 3 RTN_UNICAST
    (sample_attr RTA_DST (be32 0xC0000200)
     ++ sample_attr RTA_GATEWAY (be32 0xC6336401)
     ++ sample_attr RTA_OIF (le_split 4 7)).

Definition sample_route_via_gw_table : list (option Z) :=
  [None; Some 28; None; None; Some 44; Some 36; None; None; None; None; None;
   None; None].

(** The route [sample_route_via_gw] turns into when 198.51.100.1 is not a
    neighbor. *)
Definition sample_route_via_gw_rte : rte :=
  mk_rte (mk_net 0xC0000200 24)
    (mk_rta RTS_INHERIT SCOPE_UNIVERSE RTC_UNICAST RTD_ROUTER 0 0 0 IPA_NONE
       0xC6336401 None)
    KRT_SRC_ALIEN.

(** A daemon with an empty interface table and an empty neighbor cache. *)
Definition no_interfaces (index : Z) : option iface := None.
Definition no_neighbors (gw : Z) : option neighbor := None.

(** One of BIRD's own routes read back in a scan: a blackhole route. *)
Definition sample_own_blackhole : mem :=
  sample_newroute RTPROT_BIRD RTN_BLACKHOLE
    (sample_attr RTA_DST (be32 0xC0000200)).

Definition sample_own_blackhole_table : list (option Z) :=
  [None; Some 28; None; None; None; None; None; None; None; None; None;
   None; None].

(** A synchronous channel that has just been opened. *)
Definition sample_state : nl_state :=
  mk_nl_state 41 (zeros NL_RX_SIZE) None 0 [] [] true [].

(** 192.0.2.0/24 via 10.0.0.254, as the daemon hands it to the syncer. *)
Definition sample_rte_router : rte :=
  mk_rte (mk_net 0xC0000200 24)
    (mk_rta RTS_INHERIT SCOPE_UNIVERSE RTC_UNICAST RTD_ROUTER 0 0 0 IPA_NONE
       0x0A0000FE None)
    KRT_SRC_BIRD.

(** ** Installing and withdrawing routes *)

(** [a->source == RTS_...] on the values of [rta.source]. *)
Definition rta_source_eqb (a b : rta_source) : bool :=
  match a, b with
  | RTS_INHERIT, RTS_INHERIT => true
  | RTS_OTHER x, RTS_OTHER y => x =? y
  | _, _ => false
  end.

(** A [void] call of a function on the synchronous interface. *)
Definition void {A S : Type} (r : outcome A * S) : outcome unit * S :=
  and_then r (fun _ st => (Ok tt, st)).

Section Notify.

(** The value [RTS_DEVICE] of nest/route.h and the flag [IF_UP] of
    nest/iface.h; neither header is among the sources. *)
Variable RTS_DEVICE : rta_source.
Variable IF_UP : Z.

(** [if (e && e->attrs->source == RTS_DEVICE) e = NULL;] *)
Definition not_device (e : option rte) : option rte :=
  match e with
  | Some r =>
      if rta_source_eqb (ra_source (e_attrs r)) RTS_DEVICE then None
      else Some r
  | None => None
  end.

(** [!old->attrs->iface || (old->attrs->iface->flags & IF_UP)] *)
Definition iface_up_or_none (e : rte) : bool :=
  match ra_iface (e_attrs e) with
  | None => true
  | Some i => has_flag (if_flags i) IF_UP
  end.

(** [krt_set_notify]; [buf_del] and [buf_add] are the uninitialised
    buffers of the two calls of [nl_send_route]. *)
Definition krt_set_notify (fuel : nat) (new old : option rte)
  (buf_del buf_add : mem) (st : nl_state) : outcome unit * nl_state :=
  let old := not_device old in
  let new := not_device new in
  match old, new with
  | Some o, Some n =>
      if ra_tos (e_attrs o) =? ra_tos (e_attrs n)
      then void (nl_send_route fuel n true buf_add st)
      else
        and_then
          (if iface_up_or_none o
           then void (nl_send_route fuel o false buf_del st)
           else (Ok tt, st))
          (fun _ st => void (nl_send_route fuel n true buf_add st))
  | Some o, None =>
      if iface_up_or_none o
      then void (nl_send_route fuel o false buf_del st)
      else (Ok tt, st)
  | None, Some n => void (nl_send_route fuel n true buf_add st)
  | None, None => (Ok tt, st)
  end.

End Notify.

(** ** Scans *)

(** The events of a translator go to the trace, behind what is there. *)
Definition add_events (st : nl_state) (evs : list event) : nl_state :=
  mk_nl_state (nl_sync_seq st) (nl_rx_buffer st) (nl_last_hdr st)
    (nl_last_size st) (sk_inbox st) (sk_outbox st) (sk_tx_ok st)
    (trace st ++ evs).

(** A call on the synchronous interface next to state it does not touch. *)
Definition beside {A S : Type} (s : S) (r : outcome A * nl_state)
  : outcome A * (S * nl_state) :=
  (r.1, (s, r.2)).

Section Dump.

(** The three loops [while (h = nl_get_scan()) if (h->nlmsg_type == ... ||
    h->nlmsg_type == ...) parse(h); else log(L_DEBUG ...);] of [krt_if_scan]
    and [krt_scan_fire] differ in the pair of types, in the translator and
    in the message; [S] is the state of the daemon the translator works on. *)
Context {S : Type}.
Variable known : Z -> bool.
Variable parse : S -> mem -> Z -> list event * S.
Variable unknown_msg : string.

(** Each frame takes one unit of fuel. *)
Fixpoint nl_dump_loop (fuel : nat) (s : S) (st : nl_state)
  : outcome unit * (S * nl_state) :=
  match fuel with
  | O => (OutOfFuel, (s, st))
  | Datatypes.S fuel' =>
      and_then (beside s (nl_get_scan fuel st)) (fun h '(s, st) =>
        match h with
        | None => (Ok tt, (s, st))
        | Some h =>
            if known (nlmsg_type (nl_rx_buffer st) h)
            then
              let '(evs, s) := parse s (nl_rx_buffer st) h in
              nl_dump_loop fuel' s (add_events st evs)
            else nl_dump_loop fuel' s (add_log st L_DEBUG unknown_msg)
        end)
  end.

End Dump.

Section Daemon.

(** The daemon behind netlink.c: the interface table and the neighbor cache
    (nest/iface.c, nest/neighbor.c) and the krt syncer (krt.c), none of
    which is among the sources.  [T] is its state, with the lookups
    netlink.c makes in it and the calls netlink.c makes into it; what the
    calls do to the state is left open. *)
Variable T : Type.
Variable if_find_by_index : T -> Z -> option iface.
Variable neigh_find : T -> Z -> option neighbor.
Variable if_update : iface -> T -> T.
Variable krt_got_route : rte -> T -> T.
Variable krt_got_route_async : rte -> bool -> T -> T.
Variable if_start_update : T -> T.
Variable if_end_update : T -> T.

(** The daemon's side of a call: a line of the log leaves its state alone. *)
Definition daemon_call (t : T) (ev : event) : T :=
  match ev with
  | Log _ _ => t
  | If_update f => if_update f t
  | Krt_got_route e => krt_got_route e t
  | Krt_got_route_async e new => krt_got_route_async e new t
  end.

(** The calls a translator has made, in their order. *)
Definition daemon_apply (evs : list event) (t : T) : T :=
  fold_left daemon_call evs t.

(** The daemon's state together with the list [p->scan.temp_ifs]. *)
Definition krt_state : Type := (T * list iface)%type.


(** [krt_if_scan]: [req_link] and [req_addr] are the stack slots of the two
    calls of [nl_request_dump]. *)
Definition krt_if_scan (fuel : nat) (req_link req_addr : mem) (tbl : T)
  (st : nl_state) : outcome unit * (T * nl_state) :=
  let tbl := if_start_update tbl in
  and_then (beside tbl (nl_request_dump req_link RTM_GETLINK st))
    (fun _ '(tbl, st) =>
  and_then
    (nl_dump_loop
       (fun type => (type =? RTM_NEWLINK) || (type =? RTM_DELLINK))
       (fun tbl m h =>
          let evs := nl_parse_link (if_find_by_index tbl) m h true in
          (evs, daemon_apply evs tbl))
       "nl_scan_ifaces: Unknown packet received (type=%d)"
       fuel tbl st)
    (fun _ '(tbl, st) =>
  and_then (beside tbl (nl_request_dump req_addr RTM_GETADDR st))
    (fun _ '(tbl, st) =>
  and_then
    (nl_dump_loop
       (fun type => (type =? RTM_NEWADDR) || (type =? RTM_DELADDR))
       (fun tbl m h =>
          let evs := nl_parse_addr (if_find_by_index tbl) m h in
          (evs, daemon_apply evs tbl))
       "nl_scan_ifaces: Unknown packet received (type=%d)"
       fuel tbl st)
    (fun _ '(tbl, st) => (Ok tt, (if_end_update tbl, st)))))).

(** *** Asynchronous notifications *)

(** What the [recvmsg] of [nl_async_hook] delivers: nothing yet
    ([EWOULDBLOCK]), another error, or a datagram with its sender's port. *)
Inductive async_rx :=
| ARxWouldBlock
| ARxErr
| ARxDgram (pid : Z) (data : mem).

(** The [while (NLMSG_OK(h, len))] loop of [nl_async_hook] on the buffer
    [m]; each frame takes one unit of fuel.  The value is [len] after the
    loop, [None] if the fuel did not last. *)
Fixpoint nl_async_loop (fuel : nat) (m : mem) (h len : Z) (s : krt_state)
  : list event * (option Z * krt_state) :=
  match fuel with
  | O => ([], (None, s))
  | Datatypes.S fuel' =>
      if NLMSG_OK m h len then
        let '(tbl, temp_ifs) := s in
        let '(evs, temp_ifs) :=
          nl_async_msg (if_find_by_index tbl) (neigh_find tbl) temp_ifs m h in
        let '(h, len) := NLMSG_NEXT m h len in
        let '(evs', r) :=
          nl_async_loop fuel' m h len (daemon_apply evs tbl, temp_ifs) in
        (evs ++ evs', r)
      else ([], (Some len, s))
  end.

(** [nl_async_hook]: [abuf] is [nl_async_rx_buffer]; the value is the
    hook's return value. *)
Definition nl_async_hook (fuel : nat) (abuf : mem) (rx : async_rx)
  (s : krt_state) (st : nl_state)
  : outcome Z * (mem * krt_state * nl_state) :=
  let st := set_last st None in
  match rx with
  | ARxWouldBlock => (Ok 0, (abuf, s, st))
  | ARxErr => (Ok 0, (abuf, s, add_log st L_ERR "Netlink recvmsg: %m"))
  | ARxDgram pid data =>
      let x := Nat.min (length data) NL_RX_SIZE in
      let abuf := take x data ++ drop x abuf in
      if negb (pid =? 0) then (Ok 1, (abuf, s, st))
      else if (NL_RX_SIZE <? length data)%nat
      then (Ok 1, (abuf, s,
                   add_log st L_WARN
                     "Netlink got truncated asynchronous message"))
      else
        let '(evs, (len, s)) := nl_async_loop fuel abuf 0 (Z.of_nat x) s in
        let st := add_events st evs in
        match len with
        | None => (OutOfFuel, (abuf, s, st))
        | Some len =>
            let st := if negb (len =? 0)
                      then add_log st L_WARN
                             "nl_async_hook: Found packet remnant of size %d"
                      else st in
            (Ok 1, (abuf, s, st))
        end
  end.

End Daemon.

(** ** Notions used in the further statements *)

(** The attribute table [nl_parse_link] works with: [a] after
    [nl_checkin] and [nl_parse_attrs]. *)
Definition link_table (m : mem) (h : Z) : list (option Z) :=
  (nl_parse_attrs m (IFLA_RTA (NLMSG_DATA h))
     (int32 (nlmsg_len m h - NLMSG_LENGTH sizeof_ifinfomsg))
     (sizeof_ptr * (IFLA_STATS + 1))).2.1.

(** The attribute table [nl_parse_addr] works with. *)
Definition addr_table (m : mem) (h : Z) : list (option Z) :=
  (nl_parse_attrs m (IFA_RTA (NLMSG_DATA h))
     (int32 (nlmsg_len m h - NLMSG_LENGTH sizeof_ifaddrmsg))
     (sizeof_ptr * (IFA_ANYCAST + 1))).2.1.

(** The attribute table [nl_parse_route] works with: [a] after
    [nl_checkin] and [nl_parse_attrs]. *)
Definition route_table (m : mem) (h : Z) : list (option Z) :=
  (nl_parse_attrs m (RTM_RTA (NLMSG_DATA h))
     (int32 (nlmsg_len m h - NLMSG_LENGTH sizeof_rtmsg))
     (sizeof_ptr * (RTA_CACHEINFO + 1))).2.1.

(** The interface records an event list publishes. *)
Definition published (evs : list event) : list iface :=
  omap (fun e => match e with If_update f => Some f | _ => None end) evs.

(** The record [nl_parse_addr] publishes for a deletion: the record of the
    interface table with the addresses cleared and prefix length 0. *)
Definition addr_deletion (ifi : iface) : iface :=
  set_if_pxlen
    (set_if_opposite (set_if_brd (set_if_ip ifi IPA_NONE) IPA_NONE) IPA_NONE)
    0.

Definition unknown_iface_msg : string :=
  "KRT: Received address message for unknown interface %d\n".

Definition underrun_msg : string := "nl_checkin: underrun by %d bytes".

Definition no_oif_msg : string := "KRT: Mysterious route with no OIF (%I/%d)".

Definition remnant_warning : string :=
  "nl_get_reply: Found packet remnant of size %d".

(** What [nl_error] logs. *)
Definition error_warning (ev : event) : Prop :=
  ev = Log L_WARN "Netlink: Truncated error message received"
  \/ ev = Log L_WARN "Netlink: %s".

(** What the route translator may do on a path: log, and hand a route to
    the sink of the path (the scan's [krt_got_route], or
    [krt_got_route_async] with the frame's [new]). *)
Definition route_sink (scan new : bool) (ev : event) : Prop :=
  match ev with
  | Log _ _ => True
  | If_update _ => False
  | Krt_got_route _ => scan = true
  | Krt_got_route_async _ n => scan = false /\ n = new
  end.

(** What an asynchronous notification may do: log, publish an interface
    record, and hand over a route that is not one of BIRD's own, with the
    frame's [new]. *)
Definition async_event (new : bool) (ev : event) : Prop :=
  match ev with
  | Log _ _ => True
  | If_update _ => True
  | Krt_got_route _ => False
  | Krt_got_route_async e n => n = new /\ e_src e <> KRT_SRC_BIRD
  end.

(** Types of frame [nl_async_msg] has a case for. *)
Definition async_known (type : Z) : bool :=
  (type =? RTM_NEWROUTE) || (type =? RTM_DELROUTE)
  || (type =? RTM_NEWLINK) || (type =? RTM_DELLINK)
  || (type =? RTM_NEWADDR) || (type =? RTM_DELADDR).


(** Events of a scan of interfaces: log lines and interface records. *)
Definition if_event (ev : event) : Prop :=
  match ev with
  | Log _ _ | If_update _ => True
  | _ => False
  end.

(** The channel after a call that has only received: the same sequence
    number and the same datagrams sent, and some log lines more. *)
Definition received (st st' : nl_state) : Prop :=
  nl_sync_seq st' = nl_sync_seq st
  /\ sk_outbox st' = sk_outbox st
  /\ sk_tx_ok st' = sk_tx_ok st
  /\ exists l : list event, trace st' = trace st ++ l /\ Forall is_log l.

(** The frame [nl_send] hands to [sendto] for the caller's [nh] when the
    last sequence number was [seq]. *)
Definition stamped (nh : mem) (seq : Z) : mem :=
  let nh := store 4 (store 4 nh 12 0) 8 (u32 (seq + 1)) in
  take (Z.to_nat (nlmsg_len nh 0)) nh.

(** The frame [nl_send_route] hands to [sendto] for [e], when [nl_send]
    stamps it with the sequence number after [seq]; null when
    [nl_send_route] does not get that far. *)
Definition route_frame_sent (e : rte) (new : bool) (buf : mem) (seq : Z)
  : option mem :=
  match nl_route_frame e new buf with
  | Ok r => Some (stamped r seq)
  | _ => None
  end.

(** Destinations that need neither a gateway nor an interface. *)
Definition rtd_plain (d : rta_dest) : bool :=
  match d with
  | RTD_BLACKHOLE | RTD_UNREACHABLE | RTD_PROHIBIT => true
  | _ => false
  end.

(** [h'] is the frame [h] with one attribute of code [code] and a payload
    of four bytes added at [a]: the length field covers it, the header of
    the attribute and its payload are in place, and apart from the length
    field the rest of the buffer is as it was. *)
Definition attr_appended (h h' : mem) (a code : Z) (payload : list byte)
  : Prop :=
  length h' = length h
  /\ nlmsg_len h' 0 = a + RTA_LENGTH 4
  /\ rta_len h' a = RTA_LENGTH 4
  /\ rta_type h' a = code mod 2 ^ 16
  /\ load_bytes 4 h' (RTA_DATA a) = payload
  /\ (forall (q : Z) (n : nat),
        4 <= q -> q + Z.of_nat n <= a ->
        load_bytes n h' q = load_bytes n h q)
  /\ drop (Z.to_nat (a + RTA_LENGTH 4)) h'
     = drop (Z.to_nat (a + RTA_LENGTH 4)) h.

(** ** Further sample inputs *)

(** The link with index 1 goes down. *)
Definition sample_dellink : mem :=
  sample_frame RTM_DELLINK 0 0 0
    (sample_ifinfomsg 1 0
     ++ sample_attr IFLA_IFNAME [Byte.x6c; Byte.x6f; Byte.x00]
     ++ sample_attr IFLA_MTU (le_split 4 65536)).

(** The address 10.0.0.1/24 leaves interface 2. *)
Definition sample_deladdr : mem :=
  sample_frame RTM_DELADDR 0 0 0
    (sample_ifaddrmsg AF_INET 24 0 2
     ++ sample_attr IFA_ADDRESS (be32 0x0A000001)
     ++ sample_attr IFA_LOCAL (be32 0x0A000001)
     ++ sample_attr IFA_BROADCAST (be32 0x0A0000FF)).

(** What is published for 10.0.0.1/24, broadcast 10.0.0.255, on the
    broadcast interface 2. *)
Definition sample_bcast_published : iface :=
  mk_iface (zeros sizeof_if_name) (Z.lor IF_BROADCAST IF_MULTICAST)
    1500 2 0x0A000001 0x0A000000 24 0x0A0000FF 0.

(** 192.0.2.0/24 as a blackhole route of a protocol, with a given TOS. *)
Definition sample_rte_blackhole (tos : Z) : rte :=
  mk_rte (mk_net 0xC0000200 24)
    (mk_rta RTS_INHERIT SCOPE_UNIVERSE RTC_UNICAST RTD_BLACKHOLE tos 0 0
       IPA_NONE IPA_NONE None)
    KRT_SRC_BIRD.

(** The same prefix as a route of the device protocol (source 7, say) on
    interface 2, and as a route of another protocol on interface 3. *)
Definition sample_rte_device : rte :=
  mk_rte (mk_net 0xC0000200 24)
    (mk_rta (RTS_OTHER 7) SCOPE_UNIVERSE RTC_UNICAST RTD_DEVICE 0 0 0
       IPA_NONE IPA_NONE (Some sample_if_2))
    KRT_SRC_BIRD.

Definition sample_rte_on_if_3 : rte :=
  mk_rte (mk_net 0xC0000200 24)
    (mk_rta RTS_INHERIT SCOPE_UNIVERSE RTC_UNICAST RTD_DEVICE 0 0 0
       IPA_NONE IPA_NONE (Some sample_if_3))
    KRT_SRC_BIRD.

(** A channel on which the kernel acknowledges the next two requests. *)
Definition sample_state_acks : nl_state :=
  mk_nl_state 41 (zeros NL_RX_SIZE) None 0
    [RxDgram 0 (sample_frame NLMSG_ERROR 0 42 0 (zeros 20));
     RxDgram 0 (sample_frame NLMSG_ERROR 0 43 0 (zeros 20))]
    [] true [].

(** A daemon for the examples: its state is the list of the interface
    records published so far, latest first, looked up by index; it has no
    neighbors, and routes leave its state alone. *)
Definition sample_tbl_find (tbl : list iface) (index : Z) : option iface :=
  List.find (fun i => if_index i =? index) tbl.

Definition sample_neigh_find (tbl : list iface) : Z -> option neighbor :=
  no_neighbors.

Definition sample_got_route (e : rte) (tbl : list iface) : list iface := tbl.

Definition sample_got_route_async (e : rte) (new : bool) (tbl : list iface)
  : list iface := tbl.


(** The kernel's answer to the two dumps of a scan of interfaces: the
    loopback link, then no address. *)
Definition sample_if_scan_state : nl_state :=
  mk_nl_state 41 (zeros NL_RX_SIZE) None 0
    [RxDgram 0 (stamped (sample_frame RTM_NEWLINK 2 0 0
                           (drop 16 sample_newlink)) 41
                ++ sample_frame NLMSG_DONE 0 42 0 []);
     RxDgram 0 (sample_frame NLMSG_DONE 0 43 0 [])]
    [] true [].

(** A buffer of [size] bytes that starts with the header and the [rtmsg]
    of a route frame. *)
Definition sample_route_head (size : nat) : mem :=
  sample_frame RTM_NEWROUTE 0 0 0
    (sample_rtmsg AF_INET 24 0 RT_TABLE_MAIN RTPROT_BIRD RTN_UNICAST)
  ++ zeros (size - 28).

(** A channel with a datagram of two replies to request 7 waiting. *)
Definition two_replies : nl_state :=
  mk_nl_state 7 (zeros NL_RX_SIZE) None 0
    [RxDgram 0 (sample_frame RTM_NEWLINK 2 7 0 []
                ++ sample_frame RTM_NEWLINK 2 7 0 [])]
    [] true [].

(** * Properties *)

(** ** Loads *)

Lemma load_bound (n : nat) (m : mem) (p : Z) :
  0 <= load n m p < 2 ^ (8 * Z.of_nat n).
Proof.
  unfold load, load_bytes.
  pose proof (le_combine_bound (take n (drop (Z.to_nat p) m))) as H.
  rewrite length_take in H.
  split; [lia |].
  eapply Z.lt_le_trans; [apply H |].
  apply Z.pow_le_mono_r; lia.
Qed.

Lemma rta_type_nonneg (m : mem) (a : Z) : 0 <= rta_type m a.
Proof. unfold rta_type. pose proof (load_bound 2 m (a + 2)). lia. Qed.

(** ** The attribute table *)

Lemma rta_walk_eq (m : mem) (a len : Z) :
  rta_walk m a len =
  if RTA_OK m a len
  then (a :: (rta_walk m (RTA_NEXT m a len).1 (RTA_NEXT m a len).2).1,
        (rta_walk m (RTA_NEXT m a len).1 (RTA_NEXT m a len).2).2)
  else ([], len).
Proof.
  rewrite rta_walk_equation_1.
  destruct (inspect (RTA_OK m a len)) as [[|] H]; simpl; now rewrite H.
Qed.

Lemma nl_parse_attrs_loop_eq (m : mem) (kmax a len : Z) (k : list (option Z)) :
  nl_parse_attrs_loop m kmax a len k =
  if RTA_OK m a len
  then nl_parse_attrs_loop m kmax (RTA_NEXT m a len).1 (RTA_NEXT m a len).2
         (if rta_type m a <? kmax
          then <[Z.to_nat (rta_type m a) := Some a]> k else k)
  else (k, len).
Proof.
  rewrite nl_parse_attrs_loop_equation_1.
  destruct (inspect (RTA_OK m a len)) as [[|] H]; simpl; now rewrite H.
Qed.

(** The loop stores the attributes of the walk, one after the other. *)
Lemma nl_parse_attrs_loop_walk (m : mem) (kmax : Z) :
  forall (n : nat) (a len : Z) (k : list (option Z)),
    (Z.to_nat len < n)%nat ->
    nl_parse_attrs_loop m kmax a len k =
    (fold_left (table_put m kmax) (rta_walk m a len).1 k, (rta_walk m a len).2).
Proof.
  induction n as [|n IH]; intros a len k Hn; [lia |].
  rewrite nl_parse_attrs_loop_eq, rta_walk_eq.
  destruct (RTA_OK m a len) eqn:Hok; [| reflexivity].
  pose proof (RTA_NEXT_decreases m a len Hok).
  rewrite IH by lia. reflexivity.
Qed.

Lemma table_put_length (m : mem) (kmax : Z) (k : list (option Z)) (a : Z) :
  length (table_put m kmax k a) = length k.
Proof. unfold table_put. destruct (_ <? _); [apply length_insert | reflexivity]. Qed.

Lemma attr_table_put (m : mem) (kmax : Z) (k : list (option Z)) (a c : Z) :
  0 <= c < kmax -> (Z.to_nat c < length k)%nat ->
  attr (table_put m kmax k a) c =
  if decide (rta_type m a = c) then Some a else attr k c.
Proof.
  intros Hc Hlen. unfold table_put, attr.
  pose proof (rta_type_nonneg m a) as Hty.
  destruct (decide (rta_type m a = c)) as [->|Hne].
  - replace (c <? kmax) with true by (symmetry; apply Z.ltb_lt; lia).
    now rewrite list_lookup_insert_eq.
  - destruct (rta_type m a <? kmax); [| reflexivity].
    rewrite list_lookup_insert_ne by lia. reflexivity.
Qed.

(** A slot of the table holds the last attribute of its code. *)
Lemma attr_fold_table_put (m : mem) (kmax c : Z) :
  0 <= c < kmax ->
  forall (l : list Z) (k : list (option Z)),
    (Z.to_nat c < length k)%nat ->
    attr (fold_left (table_put m kmax) l k) c =
    match last (filter (fun p => rta_type m p = c) l) with
    | Some p => Some p
    | None => attr k c
    end.
Proof.
  intros Hc. induction l as [|p l IH]; intros k Hlen; [reflexivity |].
  simpl fold_left. rewrite IH by now rewrite table_put_length.
  rewrite attr_table_put by assumption.
  rewrite filter_cons.
  destruct (decide (rta_type m p = c)) as [Hp|Hp]; [| reflexivity].
  destruct (filter (fun p0 => rta_type m p0 = c) l) as [|q l'] eqn:Hf.
  - reflexivity.
  - rewrite (last_cons p). now destruct (last (q :: l')).
Qed.

Lemma filter_none (c : Z) (m : mem) (l : list Z) :
  (forall q : Z, q ∈ l -> rta_type m q <> c) ->
  filter (fun q => rta_type m q = c) l = [].
Proof.
  induction l as [|q l IH]; intros H; [reflexivity |].
  rewrite filter_cons_False by (apply H; left).
  apply IH. intros q' Hq'. apply H. now right.
Qed.

(** C9.  [nl_parse_attrs] and repeated codes: for a code [c] below the
    bound of the table, the slot [k[c]] holds the last attribute of code [c]
    in wire order (the slot is null if there is none); so when the code
    occurs several times, every later occurrence overwrites the earlier
    ones, whatever comes before the last one.  The return value is 1
    exactly when the walk over the lengths leaves no remnant: repeated
    codes do not make the parse fail. *)
Theorem nl_parse_attrs_last_wins (m : mem) (a len ksize c : Z) :
  0 <= c < ksize / sizeof_ptr ->
  attr (nl_parse_attrs m a len ksize).2.1 c
  = last (filter (fun p => rta_type m p = c) (rta_walk m a len).1)
  /\ (forall (earlier later : list Z) (p : Z),
        (rta_walk m a len).1 = earlier ++ p :: later ->
        rta_type m p = c ->
        (forall q : Z, q ∈ later -> rta_type m q <> c) ->
        attr (nl_parse_attrs m a len ksize).2.1 c = Some p)
  /\ (nl_parse_attrs m a len ksize).2.2 = ((rta_walk m a len).2 =? 0).
Proof.
  intros Hc.
  assert (Hlast : attr (nl_parse_attrs m a len ksize).2.1 c
                  = last (filter (fun p => rta_type m p = c)
                            (rta_walk m a len).1)).
  { unfold nl_parse_attrs.
    rewrite (nl_parse_attrs_loop_walk m _ (S (Z.to_nat len))) by lia.
    destruct ((rta_walk m a len).2 =? 0); simpl.
    all: rewrite attr_fold_table_put by (rewrite ?length_replicate; lia).
    all: destruct (last _); [reflexivity |].
    all: unfold attr; rewrite lookup_replicate_2 by lia; reflexivity. }
  split; [exact Hlast | split].
  - intros earlier later p Hwalk Hp Hlater.
    rewrite Hlast, Hwalk, filter_app, filter_cons_True by exact Hp.
    rewrite (filter_none c m later Hlater). apply last_snoc.
  - unfold nl_parse_attrs.
    rewrite (nl_parse_attrs_loop_walk m _ (S (Z.to_nat len))) by lia.
    now destruct ((rta_walk m a len).2 =? 0).
Qed.

Lemma nl_parse_attrs_last_wins_witness :
  0 <= 1 < (sizeof_ptr * 13) / sizeof_ptr
  /\ (attr (nl_parse_attrs twice_code_1 0 16 (sizeof_ptr * 13)).2.1 1
      = last (filter (fun p => rta_type twice_code_1 p = 1)
                (rta_walk twice_code_1 0 16).1)
      /\ (forall (earlier later : list Z) (p : Z),
            (rta_walk twice_code_1 0 16).1 = earlier ++ p :: later ->
            rta_type twice_code_1 p = 1 ->
            (forall q : Z, q ∈ later -> rta_type twice_code_1 q <> 1) ->
            attr (nl_parse_attrs twice_code_1 0 16 (sizeof_ptr * 13)).2.1 1
            = Some p)
      /\ (nl_parse_attrs twice_code_1 0 16 (sizeof_ptr * 13)).2.2
         = ((rta_walk twice_code_1 0 16).2 =? 0)).
Proof.
  split; [change (0 <= 1 < 13); lia |].
  apply (nl_parse_attrs_last_wins twice_code_1 0 16 (sizeof_ptr * 13) 1).
  change (0 <= 1 < 13); lia.
Defined.

(** Two attributes of code 1: the walk visits offsets 0 and 8, and the slot
    holds the second. *)
Example twice_code_1_walk : rta_walk twice_code_1 0 16 = ([0; 8], 0).
Proof. vm_compute. reflexivity. Qed.

Example twice_code_1_parsed :
  nl_parse_attrs twice_code_1 0 16 (sizeof_ptr * 13)
  = ([], ([None; Some 8; None; None; None; None; None; None; None; None;
           None; None; None], true)).
Proof. vm_compute. reflexivity. Qed.

(** ** The reply stream *)

Lemma nl_reply_step_stale (st : nl_state) :
  stale_under_cursor st = true ->
  nl_reply_step st = inr (add_log st L_WARN stale_warning)
  /\ stale_under_cursor (add_log st L_WARN stale_warning) = true.
Proof.
  unfold stale_under_cursor, nl_reply_step.
  destruct (nl_last_hdr st) as [h|] eqn:Hh; [| discriminate].
  intros H. apply andb_prop in H as [Hok Hseq].
  simpl. rewrite Hh. simpl. rewrite Hok, Hseq. auto.
Qed.

(** Once a stale frame is under the cursor, every further turn of the loop
    logs the warning and leaves the cursor where it is: [nl_get_reply] does
    not return. *)
Lemma nl_get_reply_stale (fuel : nat) :
  forall st : nl_state,
    stale_under_cursor st = true ->
    nl_get_reply fuel st
    = (OutOfFuel, Nat.iter fuel (fun s => add_log s L_WARN stale_warning) st).
Proof.
  induction fuel as [|fuel IH]; intros st Hst; [reflexivity |].
  destruct (nl_reply_step_stale st Hst) as [Hstep Hst'].
  simpl nl_get_reply.
  unfold stale_under_cursor in Hst.
  destruct (nl_last_hdr st) eqn:Hh; [| discriminate].
  rewrite Hstep, (IH _ Hst'). f_equal.
  apply (Nat.iter_swap fuel _ (fun s => add_log s L_WARN stale_warning) st).
Qed.

Lemma NLMSG_OK_true (m : mem) (h len : Z) :
  NLMSG_OK m h len = true -> 0 < len /\ 16 <= nlmsg_len m h <= len.
Proof.
  unfold NLMSG_OK, sizeof_nlmsghdr. intros H.
  apply andb_prop in H as [H H3]. apply andb_prop in H as [H1 H2]. lia.
Qed.

(** A reply returned by [nl_get_reply] when it starts with an empty cursor
    is the first frame of a datagram that the kernel (port 0) delivered
    during the call, and it lies within the bytes of that datagram. *)
Lemma nl_get_reply_fresh (fuel : nat) :
  forall (st st2 : nl_state) (h : Z),
    nl_last_hdr st = None ->
    nl_get_reply fuel st = (Ok h, st2) ->
    exists (pre : list rx_event) (data : mem) (post : list rx_event),
      sk_inbox st = pre ++ RxDgram 0 data :: post
      /\ sk_inbox st2 = post
      /\ h = 0
      /\ nlmsg_len (nl_rx_buffer st2) h <= Z.of_nat (length data)
      /\ take (Z.to_nat (nlmsg_len (nl_rx_buffer st2) h)) (nl_rx_buffer st2)
         = take (Z.to_nat (nlmsg_len (nl_rx_buffer st2) h)) data
      /\ nlmsg_seq (nl_rx_buffer st2) h = nl_sync_seq st.
Proof.
  induction fuel as [|fuel IH]; intros st st2 h Hnone Hrun; [discriminate |].
  simpl in Hrun. rewrite Hnone in Hrun. unfold nl_recv in Hrun.
  destruct (sk_inbox st) as [|[|pid data] rest] eqn:Hin; try discriminate.
  destruct (pid =? 0) eqn:Hpid; simpl in Hrun.
  2:{ (* not from the kernel: next turn, cursor still empty *)
    apply IH in Hrun; [| exact Hnone].
    destruct Hrun as (pre & d & post & Hin' & Hpost & Hh & Hlen & Htake & Hseq).
    simpl in Hin'. subst rest.
    exists (RxDgram pid data :: pre), d, post. repeat split; auto. }
  apply Z.eqb_eq in Hpid. subst pid.
  destruct (NL_RX_SIZE <? length data)%nat eqn:Htrunc; [discriminate |].
  apply Nat.ltb_ge in Htrunc.
  unfold nl_reply_step in Hrun. simpl in Hrun.
  match type of Hrun with
  | context [NLMSG_OK ?b 0 ?n] => destruct (NLMSG_OK b 0 n) eqn:Hok
  end.
  - match type of Hrun with
    | context [negb (?s =? ?q)] => destruct (s =? q) eqn:Hs
    end; simpl in Hrun.
    + (* the frame answers the request *)
      injection Hrun as <- <-. simpl.
      apply Z.eqb_eq in Hs. apply NLMSG_OK_true in Hok.
      rewrite Nat.min_l in * by exact Htrunc.
      exists [], data, rest. repeat split; try reflexivity; try exact Hs.
      * lia.
      * rewrite take_app_le by (rewrite length_take; lia).
        rewrite take_take. f_equal. lia.
    + (* stale frame: the loop never returns *)
      rewrite nl_get_reply_stale in Hrun; [discriminate |].
      unfold stale_under_cursor. simpl. rewrite Hok, Hs. reflexivity.
  - (* remnant or empty datagram: cursor emptied, next turn *)
    match type of Hrun with
    | nl_get_reply fuel ?s = _ => assert (Hn : nl_last_hdr s = None)
    end.
    { now destruct (negb _). }
    apply IH in Hrun; [| exact Hn].
    destruct Hrun as (pre & d & post & Hin' & Hpost & Hh & Hlen & Htake & Hseq).
    exists (RxDgram 0 data :: pre), d, post.
    repeat split; try assumption.
    + destruct (negb _) in Hin'; simpl in Hin'; now rewrite Hin'.
    + destruct (negb _) in Hseq; simpl in Hseq; exact Hseq.
Qed.

Lemma nl_send_ok (nh fr : mem) (st st1 : nl_state) :
  nl_send nh st = (Ok fr, st1) ->
  nl_last_hdr st1 = None
  /\ nl_sync_seq st1 = u32 (nl_sync_seq st + 1)
  /\ sk_inbox st1 = sk_inbox st
  /\ nl_rx_buffer st1 = nl_rx_buffer st.
Proof.
  unfold nl_send. simpl. destruct (sk_tx_ok st); [| discriminate].
  intros H. injection H as <- <-. simpl. auto.
Qed.

(** C10.  [nl_send] empties the receive cursor, so the first reply that
    [nl_get_reply] returns after a send is never a frame left in the buffer
    by an earlier [recvmsg]: it is the first frame of a datagram that the
    kernel delivered after the send, it lies within the bytes of that
    datagram and it carries the sequence number of the request. *)
Theorem nl_send_then_reply_is_fresh (nh fr : mem) (st st1 st2 : nl_state)
  (fuel : nat) (h : Z) :
  nl_send nh st = (Ok fr, st1) ->
  nl_get_reply fuel st1 = (Ok h, st2) ->
  nl_last_hdr st1 = None
  /\ exists (pre : list rx_event) (data : mem) (post : list rx_event),
       sk_inbox st = pre ++ RxDgram 0 data :: post
       /\ sk_inbox st2 = post
       /\ h = 0
       /\ nlmsg_len (nl_rx_buffer st2) h <= Z.of_nat (length data)
       /\ take (Z.to_nat (nlmsg_len (nl_rx_buffer st2) h)) (nl_rx_buffer st2)
          = take (Z.to_nat (nlmsg_len (nl_rx_buffer st2) h)) data
       /\ nlmsg_seq (nl_rx_buffer st2) h = u32 (nl_sync_seq st + 1).
Proof.
  intros Hsend Hreply.
  destruct (nl_send_ok _ _ _ _ Hsend) as (Hnone & Hseq & Hin & _).
  split; [exact Hnone |].
  destruct (nl_get_reply_fresh fuel st1 st2 h Hnone Hreply)
    as (pre & data & post & H1 & H2 & H3 & H4 & H5 & H6).
  exists pre, data, post. rewrite <- Hin, <- Hseq. auto 10.
Qed.

Lemma nl_send_then_reply_is_fresh_witness :
  let r1 := nl_send leftover_request leftover_state in
  let r2 := nl_get_reply 1 r1.2 in
  nl_send leftover_request leftover_state
  = (Ok (store 4 leftover_request 8 42), r1.2)
  /\ nl_get_reply 1 r1.2 = (Ok 0, r2.2)
  /\ nl_last_hdr r1.2 = None
  /\ nlmsg_type (nl_rx_buffer r2.2) 0 = NLMSG_DONE.
Proof.
  intros r1 r2.
  assert (H1 : nl_send leftover_request leftover_state
               = (Ok (store 4 leftover_request 8 42), r1.2))
    by (vm_compute; reflexivity).
  assert (H2 : nl_get_reply 1 r1.2 = (Ok 0, r2.2))
    by (vm_compute; reflexivity).
  split; [exact H1 | split; [exact H2 | split; [| vm_compute; reflexivity]]].
  exact (proj1 (nl_send_then_reply_is_fresh _ _ _ _ _ _ _ H1 H2)).
Defined.

(** ** A stale reply *)

Lemma iter_add_log (c : log_class) (msg : string) (n : nat) (st : nl_state) :
  let st' := Nat.iter n (fun s => add_log s c msg) st in
  nl_last_hdr st' = nl_last_hdr st
  /\ nl_last_size st' = nl_last_size st
  /\ sk_inbox st' = sk_inbox st
  /\ trace st' = trace st ++ replicate n (Log c msg).
Proof.
  induction n as [|n IH]; simpl.
  - now rewrite app_nil_r.
  - destruct IH as (-> & -> & -> & ->).
    repeat split. rewrite <- app_assoc. f_equal.
    change [Log c msg] with (replicate 1 (Log c msg)).
    rewrite <- replicate_add. now rewrite Nat.add_1_r.
Qed.

Lemma nl_get_reply_recv_stale (fuel : nat) (st st1 : nl_state) :
  nl_last_hdr st = None ->
  nl_recv st = RfGo st1 ->
  stale_under_cursor st1 = true ->
  nl_get_reply (S fuel) st
  = (OutOfFuel, Nat.iter (S fuel) (fun s => add_log s L_WARN stale_warning) st1).
Proof.
  intros Hnone Hrecv Hst.
  destruct (nl_reply_step_stale st1 Hst) as [Hstep Hst'].
  change (nl_get_reply (S fuel) st) with
    (match (match nl_last_hdr st with
            | None => nl_recv st
            | Some _ => RfGo st
            end) with
     | RfStop o st => (o, st)
     | RfAgain st => nl_get_reply fuel st
     | RfGo st =>
         match nl_reply_step st with
         | inl r => r
         | inr st => nl_get_reply fuel st
         end
     end).
  rewrite Hnone, Hrecv, Hstep, (nl_get_reply_stale fuel _ Hst').
  f_equal.
  apply (Nat.iter_swap fuel _ (fun s => add_log s L_WARN stale_warning) st1).
Qed.

(** C3 (the code departs from the claim).  On [stale_then_current] the stale
    frame is never returned, but it is not skipped either: the cursor stays
    on it at offset 0, every turn of the loop logs the warning again, and
    the reply to request 7 behind it, at offset 16, is never delivered,
    however long the loop runs. *)
Theorem nl_get_reply_stale_frame_spins (fuel : nat) :
  let r := nl_get_reply (S fuel) stale_then_current in
  r.1 = OutOfFuel
  /\ nl_last_hdr r.2 = Some 0
  /\ nl_last_size r.2 = 32
  /\ sk_inbox r.2 = []
  /\ trace r.2 = replicate (S fuel) (Log L_WARN stale_warning).
Proof.
  set (st1 := match nl_recv stale_then_current with
              | RfGo s => s
              | _ => stale_then_current
              end).
  assert (Hrecv : nl_recv stale_then_current = RfGo st1)
    by (vm_compute; reflexivity).
  assert (Hst : stale_under_cursor st1 = true) by (vm_compute; reflexivity).
  intros r. subst r.
  rewrite (nl_get_reply_recv_stale fuel stale_then_current st1 eq_refl Hrecv Hst).
  destruct (iter_add_log L_WARN stale_warning (S fuel) st1)
    as (Hh & Hs & Hi & Ht).
  cbv zeta in Hh, Hs, Hi, Ht. cbn [fst snd].
  rewrite Hh, Hs, Hi, Ht.
  repeat split.
Qed.

(** ** Translators: early returns *)

Lemma tr_bind_some {A B : Type} (c : tr A) (k : A -> tr B) (ev : list event)
  (x : A) :
  c = (ev, Some x) -> c ≫= k = (ev ++ (k x).1, (k x).2).
Proof. intros ->. unfold mbind, tr_bind. now destruct (k x). Qed.

Lemma nl_parse_attrs_logs (m : mem) (a len ksize : Z) :
  Forall is_log (nl_parse_attrs m a len ksize).1.
Proof.
  unfold nl_parse_attrs. destruct (nl_parse_attrs_loop _ _ _ _ _).
  case_match; repeat constructor.
Qed.

Lemma nl_parse_attrs_ok (m : mem) (a len ksize : Z) (k : list (option Z)) :
  (nl_parse_attrs m a len ksize).2 = (k, true) ->
  (nl_parse_attrs m a len ksize).1 = [].
Proof.
  unfold nl_parse_attrs. destruct (nl_parse_attrs_loop _ _ _ _ _).
  case_match; [discriminate | reflexivity].
Qed.

(** Unfolds the plumbing of [tr] and splits on every test in sight. *)
Ltac tr_cases :=
  unfold check, non_null, run, emit, leave, nl_checkin in *;
  unfold mbind, tr_bind, mret, tr_ret in *;
  repeat first [progress simpl in * | progress simplify_eq | case_match].

(** Closes a goal [Forall P evs] once [tr_cases] has laid the events out. *)
Ltac tr_events :=
  rewrite ?Forall_app;
  repeat first
    [ split
    | apply Forall_nil
    | apply Forall_cons
    | eapply Forall_impl; [apply nl_parse_attrs_logs |];
      intros [] ?; simpl in *; tauto
    | exact I
    | reflexivity
    | assumption ].

(** ** The link translator *)

(** The code's flag word is the flag word of the spec's table. *)
Lemma link_flags_spec (fl : Z) : link_flags fl = flag_word (spec_link_flags fl).
Proof.
  unfold link_flags, spec_link_flags, or_if.
  destruct (has_flag fl IFF_UP), (has_flag fl IFF_LOOPBACK),
    (has_flag fl IFF_BROADCAST), (has_flag fl IFF_POINTOPOINT);
    vm_compute; reflexivity.
Qed.

Lemma flag_word_member (fl : Z) (x : abstract_flag) :
  has_flag (flag_word (spec_link_flags fl)) (flag_bit x)
  = bool_decide (x ∈ spec_link_flags fl).
Proof.
  unfold spec_link_flags.
  destruct (has_flag fl IFF_UP), (has_flag fl IFF_LOOPBACK),
    (has_flag fl IFF_BROADCAST), (has_flag fl IFF_POINTOPOINT), x;
    vm_compute; reflexivity.
Qed.

(** What [nl_parse_link] hands to the daemon: log lines and, at most, one
    interface record; for a NEWLINK frame the record has the flag word of
    [link_flags], whatever flags the interface table held. *)
Lemma nl_parse_link_events (if_find_by_index : Z -> option iface) (m : mem)
  (h : Z) (scan : bool) :
  Forall (fun e =>
            match e with
            | Log _ _ => True
            | If_update f =>
                nlmsg_type m h = RTM_NEWLINK ->
                if_flags f = link_flags (ifi_flags m (NLMSG_DATA h))
            | _ => False
            end)
    (nl_parse_link if_find_by_index m h scan).
Proof.
  unfold nl_parse_link.
  destruct (nlmsg_type m h =? RTM_NEWLINK) eqn:Hty.
  - tr_cases; tr_events.
  - apply Z.eqb_neq in Hty. tr_cases; tr_events; try (intros; contradiction).
Qed.

(** C7.  The flag word [nl_parse_link] publishes for a NEWLINK frame is
    computed from the kernel flags alone: it is the flag word of the spec's
    table (LINK_UP for IFF_UP; LOOPBACK, IGNORE for IFF_LOOPBACK; BROADCAST,
    MULTICAST for IFF_BROADCAST; UNNUMBERED, MULTICAST for IFF_POINTOPOINT),
    so an abstract flag is set in it exactly when the table contributes it
    and no bit of the record found in the interface table survives. *)
Theorem nl_parse_link_flags_fresh (if_find_by_index : Z -> option iface)
  (m : mem) (h : Z) (scan : bool) (f : iface) :
  nlmsg_type m h = RTM_NEWLINK ->
  In (If_update f) (nl_parse_link if_find_by_index m h scan) ->
  if_flags f = flag_word (spec_link_flags (ifi_flags m (NLMSG_DATA h)))
  /\ forall x : abstract_flag,
       has_flag (if_flags f) (flag_bit x)
       = bool_decide (x ∈ spec_link_flags (ifi_flags m (NLMSG_DATA h))).
Proof.
  intros Hty Hin.
  pose proof (nl_parse_link_events if_find_by_index m h scan) as Hev.
  rewrite Forall_forall in Hev. rewrite <- list_elem_of_In in Hin.
  specialize (Hev _ Hin Hty).
  rewrite Hev, link_flags_spec. split; [reflexivity |].
  intros x. apply flag_word_member.
Qed.

Lemma nl_parse_link_flags_fresh_witness :
  nlmsg_type sample_newlink 0 = RTM_NEWLINK
  /\ In (If_update sample_newlink_published)
       (nl_parse_link sample_if_stale sample_newlink 0 true)
  /\ if_flags sample_newlink_published
     = flag_word (spec_link_flags (ifi_flags sample_newlink (NLMSG_DATA 0)))
  /\ forall x : abstract_flag,
       has_flag (if_flags sample_newlink_published) (flag_bit x)
       = bool_decide
           (x ∈ spec_link_flags (ifi_flags sample_newlink (NLMSG_DATA 0))).
Proof.
  assert (H1 : nlmsg_type sample_newlink 0 = RTM_NEWLINK)
    by (vm_compute; reflexivity).
  assert (H2 : In (If_update sample_newlink_published)
                 (nl_parse_link sample_if_stale sample_newlink 0 true))
    by (vm_compute; left; reflexivity).
  split; [exact H1 | split; [exact H2 |]].
  exact (nl_parse_link_flags_fresh sample_if_stale sample_newlink 0 true
           sample_newlink_published H1 H2).
Defined.

(** ** The address translator *)

(** What a frame that passes the checks of [nl_addr_filters] looks like. *)
Lemma nl_addr_filters_pass (m : mem) (h : Z) (evs : list event) (i : Z)
  (a : list (option Z)) :
  nl_addr_filters m h = (evs, Some (i, a)) ->
  evs = []
  /\ i = NLMSG_DATA h
  /\ ifa_family m i = AF_INET
  /\ has_flag (ifa_flags m i) IFA_F_SECONDARY = false
  /\ (exists p, attr a IFA_ADDRESS = Some p /\ RTA_PAYLOAD m p = sizeof_ip_addr)
  /\ (exists p, attr a IFA_LOCAL = Some p /\ RTA_PAYLOAD m p = sizeof_ip_addr).
Proof.
  unfold nl_addr_filters. intros H.
  tr_cases.
  match goal with
  | H : (nl_parse_attrs _ _ _ _).2 = (_, true) |- _ =>
      rewrite (nl_parse_attrs_ok _ _ _ _ _ H)
  end.
  unfold null_or in *.
  repeat match goal with
         | H : _ || _ = false |- _ => apply orb_false_elim in H as [? ?]
         | H : negb _ = false |- _ => apply negb_false_iff in H
         | H : negb _ = true |- _ => apply negb_true_iff in H
         | H : (_ =? _) = true |- _ => apply Z.eqb_eq in H
         end.
  repeat case_match; try discriminate.
  repeat match goal with
         | H : negb _ = false |- _ => apply negb_false_iff in H
         | H : (_ =? _) = true |- _ => apply Z.eqb_eq in H
         end.
  repeat split; eauto.
Qed.

Lemma invalid_pxlen_true (flags pxlen : Z) :
  invalid_pxlen flags pxlen = true <->
  32 < pxlen \/ pxlen = 31
  \/ (has_flag flags IF_UNNUMBERED = true /\ pxlen <> 32).
Proof.
  unfold invalid_pxlen.
  rewrite !orb_true_iff, andb_true_iff, negb_true_iff.
  rewrite Z.ltb_lt, Z.eqb_eq, Z.eqb_neq. tauto.
Qed.

(** C4 (as amended).  For an address frame that passes the checks in front
    of the interface lookup (well-formed, IPv4, mandatory attributes of the
    right size, not a secondary address), whose interface is known and whose
    prefix length is greater than 32, equal to 31, or, on an UNNUMBERED
    interface, different from 32: the translator logs an error and publishes
    the interface record as a deletion, with prefix length 0 and the local,
    broadcast and opposite addresses cleared. *)
Theorem nl_parse_addr_invalid_prefix_deletes
  (if_find_by_index : Z -> option iface) (m : mem) (h : Z)
  (evs : list event) (i : Z) (a : list (option Z)) (ifi : iface) :
  nl_addr_filters m h = (evs, Some (i, a)) ->
  if_find_by_index (ifa_index m i) = Some ifi ->
  32 < ifa_prefixlen m i \/ ifa_prefixlen m i = 31
  \/ (has_flag (if_flags ifi) IF_UNNUMBERED = true /\ ifa_prefixlen m i <> 32) ->
  exists f : iface,
    nl_parse_addr if_find_by_index m h
    = [Log L_ERR invalid_pxlen_msg; If_update f]
    /\ if_pxlen f = 0
    /\ if_ip f = IPA_NONE /\ if_brd f = IPA_NONE /\ if_opposite f = IPA_NONE
    /\ if_index f = if_index ifi /\ if_name f = if_name ifi
    /\ if_flags f = if_flags ifi /\ if_mtu f = if_mtu ifi.
Proof.
  intros Hfil Hifi Hbad.
  destruct (nl_addr_filters_pass _ _ _ _ _ Hfil) as (-> & _).
  apply invalid_pxlen_true in Hbad.
  unfold nl_parse_addr. rewrite (tr_bind_some _ _ _ _ Hfil).
  unfold nl_addr_bind. rewrite Hifi. simpl if_flags. rewrite Hbad.
  eexists. split; [reflexivity |]. simpl. auto 10.
Qed.

Lemma nl_parse_addr_invalid_prefix_deletes_witness :
  let m := sample_newaddr 31 0 2 0x0A000001 in
  nl_addr_filters m 0 = ([], Some (16, sample_newaddr_table))
  /\ sample_if_table (ifa_index m 16) = Some sample_if_2
  /\ (32 < ifa_prefixlen m 16 \/ ifa_prefixlen m 16 = 31
      \/ (has_flag (if_flags sample_if_2) IF_UNNUMBERED = true
          /\ ifa_prefixlen m 16 <> 32))
  /\ exists f : iface,
       nl_parse_addr sample_if_table m 0
       = [Log L_ERR invalid_pxlen_msg; If_update f]
       /\ if_pxlen f = 0
       /\ if_ip f = IPA_NONE /\ if_brd f = IPA_NONE
       /\ if_opposite f = IPA_NONE
       /\ if_index f = if_index sample_if_2
       /\ if_name f = if_name sample_if_2
       /\ if_flags f = if_flags sample_if_2
       /\ if_mtu f = if_mtu sample_if_2.
Proof.
  intros m.
  assert (H1 : nl_addr_filters m 0 = ([], Some (16, sample_newaddr_table)))
    by (vm_compute; reflexivity).
  assert (H2 : sample_if_table (ifa_index m 16) = Some sample_if_2)
    by (vm_compute; reflexivity).
  assert (H3 : 32 < ifa_prefixlen m 16 \/ ifa_prefixlen m 16 = 31
               \/ (has_flag (if_flags sample_if_2) IF_UNNUMBERED = true
                   /\ ifa_prefixlen m 16 <> 32))
    by (right; left; vm_compute; reflexivity).
  split; [exact H1 | split; [exact H2 | split; [exact H3 |]]].
  exact (nl_parse_addr_invalid_prefix_deletes sample_if_table m 0 [] 16
           sample_newaddr_table sample_if_2 H1 H2 H3).
Defined.

(** C4 (as stated) fails: an address frame for the known interface 2 with
    prefix length 31 and the secondary flag set is dropped by the check on
    [IFA_F_SECONDARY]; nothing is logged and nothing is published. *)
Lemma nl_parse_addr_secondary_dropped :
  let m := sample_newaddr 31 IFA_F_SECONDARY 2 0x0A000001 in
  is_Some (sample_if_table (ifa_index m (NLMSG_DATA 0)))
  /\ ifa_prefixlen m (NLMSG_DATA 0) = 31
  /\ nl_parse_addr sample_if_table m 0 = [].
Proof.
  intros m. split; [| split].
  - vm_compute. eexists. reflexivity.
  - vm_compute. reflexivity.
  - vm_compute. reflexivity.
Qed.

(** C6.  For a NEWADDR frame that passes the checks, on an interface flagged
    UNNUMBERED, published without the invalid-prefix error (so not turned
    into a deletion): the published record has prefix length 32, and its
    opposite and broadcast addresses are both the value of the ADDRESS
    attribute converted to host byte order. *)
Theorem nl_parse_addr_unnumbered (if_find_by_index : Z -> option iface)
  (m : mem) (h : Z) (evs : list event) (i : Z) (a : list (option Z))
  (ifi f : iface) :
  nlmsg_type m h = RTM_NEWADDR ->
  nl_addr_filters m h = (evs, Some (i, a)) ->
  if_find_by_index (ifa_index m i) = Some ifi ->
  has_flag (if_flags ifi) IF_UNNUMBERED = true ->
  In (If_update f) (nl_parse_addr if_find_by_index m h) ->
  ~ In (Log L_ERR invalid_pxlen_msg) (nl_parse_addr if_find_by_index m h) ->
  if_pxlen f = 32
  /\ exists p : Z,
       attr a IFA_ADDRESS = Some p
       /\ if_opposite f = ipa_ntoh (load 4 m (RTA_DATA p))
       /\ if_brd f = ipa_ntoh (load 4 m (RTA_DATA p)).
Proof.
  intros Hty Hfil Hifi Hunn Hin Hnolog.
  destruct (nl_addr_filters_pass _ _ _ _ _ Hfil)
    as (-> & _ & _ & _ & (pa & Hpa & _) & (pl & Hpl & _)).
  unfold nl_parse_addr in Hin, Hnolog.
  rewrite (tr_bind_some _ _ _ _ Hfil) in Hin, Hnolog.
  unfold nl_addr_bind in Hin, Hnolog.
  rewrite Hifi, Hty in Hin, Hnolog.
  change (RTM_NEWADDR =? RTM_NEWADDR) with true in Hin, Hnolog.
  simpl if_flags in Hin, Hnolog.
  destruct (invalid_pxlen (if_flags ifi) (ifa_prefixlen m i)) eqn:Hbad.
  { exfalso. apply Hnolog. simpl. auto. }
  rewrite Hpl in Hin. simpl in Hin. rewrite Hunn, Hpa in Hin. simpl in Hin.
  destruct Hin as [Hin | []]. injection Hin as <-. simpl.
  split; [| exists pa; auto].
  unfold invalid_pxlen in Hbad. rewrite Hunn in Hbad.
  apply orb_false_elim in Hbad as [_ Hbad]. simpl in Hbad.
  apply negb_false_iff, Z.eqb_eq in Hbad. exact Hbad.
Qed.

Lemma nl_parse_addr_unnumbered_witness :
  let m := sample_newaddr 32 0 3 0x0A000002 in
  nlmsg_type m 0 = RTM_NEWADDR
  /\ nl_addr_filters m 0 = ([], Some (16, sample_newaddr_table))
  /\ sample_if_table (ifa_index m 16) = Some sample_if_3
  /\ has_flag (if_flags sample_if_3) IF_UNNUMBERED = true
  /\ In (If_update sample_ptp_published) (nl_parse_addr sample_if_table m 0)
  /\ ~ In (Log L_ERR invalid_pxlen_msg) (nl_parse_addr sample_if_table m 0)
  /\ if_pxlen sample_ptp_published = 32
  /\ exists p : Z,
       attr sample_newaddr_table IFA_ADDRESS = Some p
       /\ if_opposite sample_ptp_published = ipa_ntoh (load 4 m (RTA_DATA p))
       /\ if_brd sample_ptp_published = ipa_ntoh (load 4 m (RTA_DATA p)).
Proof.
  intros m.
  assert (H1 : nlmsg_type m 0 = RTM_NEWADDR) by (vm_compute; reflexivity).
  assert (H2 : nl_addr_filters m 0 = ([], Some (16, sample_newaddr_table)))
    by (vm_compute; reflexivity).
  assert (H3 : sample_if_table (ifa_index m 16) = Some sample_if_3)
    by (vm_compute; reflexivity).
  assert (H4 : has_flag (if_flags sample_if_3) IF_UNNUMBERED = true)
    by (vm_compute; reflexivity).
  assert (H5 : In (If_update sample_ptp_published)
                 (nl_parse_addr sample_if_table m 0))
    by (vm_compute; left; reflexivity).
  assert (H6 : ~ In (Log L_ERR invalid_pxlen_msg)
                 (nl_parse_addr sample_if_table m 0))
    by (vm_compute; intros [H | []]; discriminate H).
  repeat (split; [assumption |]).
  exact (nl_parse_addr_unnumbered sample_if_table m 0 [] 16
           sample_newaddr_table sample_if_3 sample_ptp_published
           H1 H2 H3 H4 H5 H6).
Defined.

(** ** The route translator *)

Lemma nl_route_filters_pass (m : mem) (h : Z) (scan : bool)
  (evs : list event) (i : Z) (a : list (option Z)) :
  nl_route_filters m h scan = (evs, Some (i, a)) ->
  evs = []
  /\ i = NLMSG_DATA h
  /\ rtm_family m i = AF_INET
  /\ rtm_table m i = RT_TABLE_MAIN
  /\ rtm_tos m i = 0
  /\ (scan = true -> nlmsg_type m h = RTM_NEWROUTE).
Proof.
  unfold nl_route_filters. intros H.
  tr_cases.
  match goal with
  | H : (nl_parse_attrs _ _ _ _).2 = (_, true) |- _ =>
      rewrite (nl_parse_attrs_ok _ _ _ _ _ H)
  end.
  repeat match goal with
         | H : (_ =? _) = true |- _ => apply Z.eqb_eq in H
         end.
  repeat split; auto.
  intros ->. simpl in *.
  match goal with
  | H : negb (negb _) = true |- _ =>
      apply negb_true_iff, negb_false_iff, Z.eqb_eq in H; exact H
  end.
Qed.

(** The [switch] on [rtm_protocol] as a table. *)
Lemma route_src_table (protocol : Z) (scan : bool) :
  route_src protocol scan =
  if protocol =? RTPROT_KERNEL then None
  else if protocol =? RTPROT_REDIRECT then Some KRT_SRC_REDIRECT
  else if protocol =? RTPROT_BIRD
       then (if scan then Some KRT_SRC_BIRD else None)
  else Some KRT_SRC_ALIEN.
Proof.
  unfold route_src.
  destruct (protocol =? RTPROT_REDIRECT) eqn:H1.
  - apply Z.eqb_eq in H1. subst protocol. reflexivity.
  - destruct (protocol =? RTPROT_KERNEL); [reflexivity |].
    destruct (protocol =? RTPROT_BIRD); [| reflexivity].
    now destruct scan.
Qed.

Section RouteProperties.

Variable if_find_by_index : Z -> option iface.
Variable neigh_find : Z -> option neighbor.

Local Abbreviation parse_route := (nl_parse_route if_find_by_index neigh_find).

Local Arguments nl_parse_route : simpl never.

(** A frame that passes the checks hands at most one route to the syncer,
    tagged by the [switch] on [rtm_protocol]; when the [switch] returns,
    nothing at all happens. *)
Lemma nl_parse_route_tagged (temp_ifs : list iface) (m : mem) (h : Z)
  (scan : bool) (evs : list event) (i : Z) (a : list (option Z)) :
  nl_route_filters m h scan = (evs, Some (i, a)) ->
  match route_src (rtm_protocol m i) scan with
  | None => (parse_route temp_ifs m h scan).1 = []
  | Some src =>
      delivered (parse_route temp_ifs m h scan).1 = []
      \/ exists e : rte,
           delivered (parse_route temp_ifs m h scan).1 = [e] /\ e_src e = src
  end.
Proof.
  intros Hfil.
  destruct (nl_route_filters_pass _ _ _ _ _ _ Hfil) as (-> & _).
  unfold nl_parse_route. rewrite (tr_bind_some _ _ _ _ Hfil).
  unfold nl_route_translate.
  destruct (route_src (rtm_protocol m i) scan) as [src|]; [| reflexivity].
  tr_cases; eauto.
Qed.

(** C2.  For a route frame that passes the pre-filters the source tag is a
    function of [rtm_protocol] and of the path: a RTPROT_KERNEL frame is
    dropped (nothing is logged, nothing handed to the syncer), and so is a
    RTPROT_BIRD frame on the asynchronous path ([scan] false); a route that
    is handed over (there is at most one) carries the tag REDIRECT for
    RTPROT_REDIRECT, BIRD for RTPROT_BIRD (then [scan] holds) and ALIEN for
    every other protocol.  A frame of type BLACKHOLE, UNREACHABLE or
    PROHIBIT whose protocol is not dropped does hand over its route. *)
Theorem route_source_classification (temp_ifs : list iface) (m : mem)
  (h : Z) (scan : bool) (evs : list event) (i : Z) (a : list (option Z)) :
  nl_route_filters m h scan = (evs, Some (i, a)) ->
  let p := rtm_protocol m i in
  let out := delivered (parse_route temp_ifs m h scan).1 in
  (p = RTPROT_KERNEL -> (parse_route temp_ifs m h scan).1 = [])
  /\ (p = RTPROT_BIRD -> scan = false ->
      (parse_route temp_ifs m h scan).1 = [])
  /\ (forall e : rte, In e out ->
        (p = RTPROT_REDIRECT /\ e_src e = KRT_SRC_REDIRECT)
        \/ (p = RTPROT_BIRD /\ scan = true /\ e_src e = KRT_SRC_BIRD)
        \/ (p <> RTPROT_KERNEL /\ p <> RTPROT_REDIRECT /\ p <> RTPROT_BIRD
            /\ e_src e = KRT_SRC_ALIEN))
  /\ (length out <= 1)%nat
  /\ (rtm_type m i = RTN_BLACKHOLE \/ rtm_type m i = RTN_UNREACHABLE
      \/ rtm_type m i = RTN_PROHIBIT ->
      p <> RTPROT_KERNEL -> (p = RTPROT_BIRD -> scan = true) ->
      length out = 1%nat).
Proof.
  intros Hfil p out.
  pose proof (nl_parse_route_tagged temp_ifs m h scan evs i a Hfil) as Htag.
  fold p in Htag. fold out in Htag.
  pose proof (route_src_table p scan) as Htab.
  assert (Hnone : route_src p scan = None ->
                  (parse_route temp_ifs m h scan).1 = []).
  { intros Hsrc. now rewrite Hsrc in Htag. }
  split; [| split; [| split; [| split]]].
  - intros Hp. apply Hnone. rewrite Htab, Hp. reflexivity.
  - intros Hp ->. apply Hnone. rewrite Htab, Hp. reflexivity.
  - intros e He.
    destruct (route_src p scan) as [src|] eqn:Hsrc;
      [| unfold out in He; rewrite (Hnone eq_refl) in He; destruct He].
    destruct Htag as [Hnil | (e' & Hout & He')];
      [rewrite Hnil in He; destruct He |].
    rewrite Hout in He. destruct He as [<- | []]. rewrite He'.
    destruct (p =? RTPROT_KERNEL) eqn:Hk; [discriminate |].
    destruct (p =? RTPROT_REDIRECT) eqn:Hr;
      [| destruct (p =? RTPROT_BIRD) eqn:Hb; [destruct scan eqn:Hs |]].
    all: try discriminate.
    all: injection Htab as <-.
    all: rewrite ?Z.eqb_eq, ?Z.eqb_neq in *; auto 10.
  - destruct (route_src p scan) as [src|];
      [| unfold out; rewrite (Hnone eq_refl); simpl; lia].
    destruct Htag as [-> | (e' & -> & _)]; simpl; lia.
  - intros Hty Hk Hb. clear Htag.
    destruct (nl_route_filters_pass _ _ _ _ _ _ Hfil) as (-> & _).
    assert (Hsrc : exists src, route_src p scan = Some src).
    { rewrite route_src_table.
      apply Z.eqb_neq in Hk. rewrite Hk.
      destruct (p =? RTPROT_REDIRECT); [eauto |].
      destruct (p =? RTPROT_BIRD) eqn:Hpb; [| eauto].
      apply Z.eqb_eq in Hpb. rewrite (Hb Hpb). eauto. }
    destruct Hsrc as [src Hsrc].
    unfold out, nl_parse_route. rewrite (tr_bind_some _ _ _ _ Hfil).
    unfold nl_route_translate. fold p. rewrite Hsrc.
    destruct Hty as [Hty | [Hty | Hty]]; rewrite Hty;
      destruct scan; reflexivity.
Qed.

(** C1 (as amended).  A UNICAST frame that passes the checks and hands a
    route to the syncer carries an OIF attribute.  With a GATEWAY attribute
    the route is a ROUTER route through that gateway and the temporary
    interfaces are left alone: if the gateway is a neighbor the route gets
    the neighbor's interface, and if it is not, a warning is logged and the
    route is handed over with no interface (a null pointer).  Without a
    GATEWAY attribute the route is a DEVICE route whose interface is the
    temporary interface of the OIF index. *)
Theorem nl_parse_route_unicast_iface (temp_ifs : list iface) (m : mem)
  (h : Z) (scan : bool) (evs : list event) (i : Z) (a : list (option Z))
  (e : rte) :
  nl_route_filters m h scan = (evs, Some (i, a)) ->
  rtm_type m i = RTN_UNICAST ->
  In e (delivered (parse_route temp_ifs m h scan).1) ->
  exists oif_p : Z,
    attr a RTA_OIF = Some oif_p
    /\ let oif := load 4 m (RTA_DATA oif_p) in
       match attr a RTA_GATEWAY with
       | Some p =>
           let gw := ipa_ntoh (load 4 m (RTA_DATA p)) in
           ra_dest (e_attrs e) = RTD_ROUTER
           /\ ra_gw (e_attrs e) = gw
           /\ (parse_route temp_ifs m h scan).2 = temp_ifs
           /\ match neigh_find gw with
              | Some ng => ra_iface (e_attrs e) = ng_iface ng
              | None =>
                  ra_iface (e_attrs e) = None
                  /\ In (Log L_WARN non_neighbor_msg)
                       (parse_route temp_ifs m h scan).1
              end
       | None =>
           ra_dest (e_attrs e) = RTD_DEVICE
           /\ ra_iface (e_attrs e)
              = Some (krt_temp_iface if_find_by_index temp_ifs oif).1
           /\ (parse_route temp_ifs m h scan).2
              = (krt_temp_iface if_find_by_index temp_ifs oif).2
       end.
Proof.
  intros Hfil Hty.
  destruct (nl_route_filters_pass _ _ _ _ _ _ Hfil) as (-> & _).
  unfold nl_parse_route. rewrite (tr_bind_some _ _ _ _ Hfil).
  unfold nl_route_translate. rewrite Hty.
  change (RTN_UNICAST =? RTN_UNICAST) with true.
  unfold non_neighbor_msg.
  intros Hin. tr_cases.
  all: repeat match goal with
              | H : _ \/ _ |- _ => destruct H
              | H : False |- _ => destruct H
              end; simplify_eq.
  all: eexists; split; [reflexivity |]; simpl; auto 10.
  all: match goal with
       | H : krt_temp_iface _ _ _ = _ |- _ => rewrite H
       end; auto.
Qed.

End RouteProperties.

Lemma nl_parse_route_unicast_iface_witness :
  let m := sample_route_via_gw in
  let r := nl_parse_route no_interfaces no_neighbors [] m 0 true in
  nl_route_filters m 0 true = ([], Some (16, sample_route_via_gw_table))
  /\ rtm_type m 16 = RTN_UNICAST
  /\ In sample_route_via_gw_rte (delivered r.1)
  /\ exists oif_p : Z,
       attr sample_route_via_gw_table RTA_OIF = Some oif_p
       /\ let oif := load 4 m (RTA_DATA oif_p) in
          match attr sample_route_via_gw_table RTA_GATEWAY with
          | Some p =>
              let gw := ipa_ntoh (load 4 m (RTA_DATA p)) in
              ra_dest (e_attrs sample_route_via_gw_rte) = RTD_ROUTER
              /\ ra_gw (e_attrs sample_route_via_gw_rte) = gw
              /\ r.2 = []
              /\ match no_neighbors gw with
                 | Some ng =>
                     ra_iface (e_attrs sample_route_via_gw_rte) = ng_iface ng
                 | None =>
                     ra_iface (e_attrs sample_route_via_gw_rte) = None
                     /\ In (Log L_WARN non_neighbor_msg) r.1
                 end
          | None =>
              ra_dest (e_attrs sample_route_via_gw_rte) = RTD_DEVICE
              /\ ra_iface (e_attrs sample_route_via_gw_rte)
                 = Some (krt_temp_iface no_interfaces [] oif).1
              /\ r.2 = (krt_temp_iface no_interfaces [] oif).2
          end.
Proof.
  intros m r.
  assert (H1 : nl_route_filters m 0 true
               = ([], Some (16, sample_route_via_gw_table)))
    by (vm_compute; reflexivity).
  assert (H2 : rtm_type m 16 = RTN_UNICAST) by (vm_compute; reflexivity).
  assert (H3 : In sample_route_via_gw_rte (delivered r.1))
    by (vm_compute; left; reflexivity).
  split; [exact H1 | split; [exact H2 | split; [exact H3 |]]].
  exact (nl_parse_route_unicast_iface no_interfaces no_neighbors [] m 0 true
           [] 16 sample_route_via_gw_table sample_route_via_gw_rte H1 H2 H3).
Defined.

(** C1 (as stated) fails: the NEWROUTE frame via 198.51.100.1, which is not
    a neighbor, on OIF 7 is accepted as a UNICAST route and the warning is
    logged, but the route is handed over with a null interface; the
    temporary interface of index 7 is neither looked up nor created. *)
Lemma nl_parse_route_non_neighbor_no_iface :
  let r := nl_parse_route no_interfaces no_neighbors []
             sample_route_via_gw 0 true in
  r.1 = [Log L_WARN non_neighbor_msg; Krt_got_route sample_route_via_gw_rte]
  /\ ra_cast (e_attrs sample_route_via_gw_rte) = RTC_UNICAST
  /\ ra_iface (e_attrs sample_route_via_gw_rte) = None
  /\ ra_iface (e_attrs sample_route_via_gw_rte)
     <> Some (krt_temp_iface no_interfaces [] 7).1
  /\ r.2 = [].
Proof.
  intros r. split; [vm_compute; reflexivity |].
  split; [reflexivity |]. split; [reflexivity |].
  split; [discriminate | vm_compute; reflexivity].
Qed.

Lemma route_source_classification_witness :
  let m := sample_own_blackhole in
  let p := rtm_protocol m 16 in
  let out := delivered
               (nl_parse_route no_interfaces no_neighbors [] m 0 true).1 in
  nl_route_filters m 0 true = ([], Some (16, sample_own_blackhole_table))
  /\ (p = RTPROT_KERNEL ->
      (nl_parse_route no_interfaces no_neighbors [] m 0 true).1 = [])
  /\ (p = RTPROT_BIRD -> true = false ->
      (nl_parse_route no_interfaces no_neighbors [] m 0 true).1 = [])
  /\ (forall e : rte, In e out ->
        (p = RTPROT_REDIRECT /\ e_src e = KRT_SRC_REDIRECT)
        \/ (p = RTPROT_BIRD /\ true = true /\ e_src e = KRT_SRC_BIRD)
        \/ (p <> RTPROT_KERNEL /\ p <> RTPROT_REDIRECT /\ p <> RTPROT_BIRD
            /\ e_src e = KRT_SRC_ALIEN))
  /\ (length out <= 1)%nat
  /\ (rtm_type m 16 = RTN_BLACKHOLE \/ rtm_type m 16 = RTN_UNREACHABLE
      \/ rtm_type m 16 = RTN_PROHIBIT ->
      p <> RTPROT_KERNEL -> (p = RTPROT_BIRD -> true = true) ->
      length out = 1%nat).
Proof.
  intros m p out.
  assert (H1 : nl_route_filters m 0 true
               = ([], Some (16, sample_own_blackhole_table)))
    by (vm_compute; reflexivity).
  split; [exact H1 |].
  exact (route_source_classification no_interfaces no_neighbors [] m 0 true
           [] 16 sample_own_blackhole_table H1).
Defined.

Example sample_own_blackhole_scan :
  delivered (nl_parse_route no_interfaces no_neighbors []
               sample_own_blackhole 0 true).1
  = [mk_rte (mk_net 0xC0000200 24)
       (mk_rta RTS_INHERIT SCOPE_UNIVERSE RTC_UNICAST RTD_BLACKHOLE 0 0 0
          IPA_NONE IPA_NONE None)
       KRT_SRC_BIRD].
Proof. vm_compute. reflexivity. Qed.

(** The same frame as an asynchronous notification is an echo of BIRD's own
    route and is dropped in silence. *)
Example sample_own_blackhole_async :
  nl_async_msg no_interfaces no_neighbors [] sample_own_blackhole 0 = ([], []).
Proof. vm_compute. reflexivity. Qed.

(** ** Requests *)

(** Abstracts the bytes of the values that are not known (addresses,
    indices, sequence numbers), so that frames can be computed with. *)
Ltac abstract_bytes :=
  repeat match goal with
         | |- context [le_split 4 ?v] =>
             lazymatch v with
             | ipa_hton _ => idtac
             | if_index _ => idtac
             | _ => is_var v
             end;
             let H := fresh in
             pose proof (length_le_split 4 v) as H;
             revert H; generalize (le_split 4 v);
             intros [|? [|? [|? [|? [|? ?]]]]] H; try discriminate H; clear H
         | |- context [le_split 1 ?v] =>
             is_var v;
             let H := fresh in
             pose proof (length_le_split 1 v) as H;
             revert H; generalize (le_split 1 v);
             intros [|? [|? ?]] H; try discriminate H; clear H
         | |- context [le_split 2 ?v] =>
             is_var v;
             let H := fresh in
             pose proof (length_le_split 2 v) as H;
             revert H; generalize (le_split 2 v);
             intros [|? [|? [|? ?]]] H; try discriminate H; clear H
         end.

(** C8 (as amended).  For each of the dump commands the request handed to
    [sendto] is a frame of [sizeof(req)] bytes, which is the size of the
    header plus that of [struct rtgenmsg] rounded up to a multiple of four
    (20 bytes); its length field says so, its flags are REQUEST | DUMP, its
    family is IPv4 and its type is the command. *)
Theorem nl_request_dump_frame (req : mem) (cmd : Z) (st : nl_state) :
  length req = Z.to_nat sizeof_dump_req ->
  cmd = RTM_GETLINK \/ cmd = RTM_GETADDR \/ cmd = RTM_GETROUTE ->
  sk_tx_ok st = true ->
  exists fr : mem,
    sk_outbox (nl_request_dump req cmd st).2 = sk_outbox st ++ [fr]
    /\ length fr = 20%nat
    /\ nlmsg_len fr 0 = sizeof_dump_req
    /\ sizeof_dump_req = NLMSG_ALIGN (sizeof_nlmsghdr + sizeof_rtgenmsg)
    /\ sizeof_dump_req = 20
    /\ nlmsg_flags fr 0 = Z.lor NLM_F_REQUEST NLM_F_DUMP
    /\ load 1 fr (NLMSG_DATA 0) = PF_INET
    /\ nlmsg_type fr 0 = cmd.
Proof.
  intros Hlen Hcmd Htx.
  change (Z.to_nat sizeof_dump_req) with 20%nat in *.
  do 20 (destruct req as [|? req]; [discriminate Hlen |]).
  destruct req; [| discriminate Hlen]. clear Hlen.
  unfold nl_request_dump, nl_send.
  cbn [sk_tx_ok set_seq]. rewrite Htx.
  cbn [snd sk_outbox set_last add_sent set_seq nl_sync_seq].
  eexists. split; [reflexivity |].
  generalize (u32 (nl_sync_seq st + 1)). intros s.
  destruct Hcmd as [-> | [-> | ->]].
  all: vm_compute; repeat split.
Qed.

Lemma nl_request_dump_frame_witness :
  length (zeros 20) = Z.to_nat sizeof_dump_req
  /\ (RTM_GETLINK = RTM_GETLINK \/ RTM_GETLINK = RTM_GETADDR
      \/ RTM_GETLINK = RTM_GETROUTE)
  /\ sk_tx_ok sample_state = true
  /\ exists fr : mem,
       sk_outbox (nl_request_dump (zeros 20) RTM_GETLINK sample_state).2
       = sk_outbox sample_state ++ [fr]
       /\ length fr = 20%nat
       /\ nlmsg_len fr 0 = sizeof_dump_req
       /\ sizeof_dump_req = NLMSG_ALIGN (sizeof_nlmsghdr + sizeof_rtgenmsg)
       /\ sizeof_dump_req = 20
       /\ nlmsg_flags fr 0 = Z.lor NLM_F_REQUEST NLM_F_DUMP
       /\ load 1 fr (NLMSG_DATA 0) = PF_INET
       /\ nlmsg_type fr 0 = RTM_GETLINK.
Proof.
  split; [reflexivity | split; [left; reflexivity | split; [reflexivity |]]].
  apply (nl_request_dump_frame (zeros 20) RTM_GETLINK sample_state).
  - reflexivity.
  - left; reflexivity.
  - reflexivity.
Defined.

(** C8 (as stated) fails: the GETLINK request sent on [sample_state] has 20
    bytes and says so in its length field, while the header and
    [struct rtgenmsg] together have 17. *)
Lemma nl_request_dump_length_is_padded :
  let st := (nl_request_dump (zeros 20) RTM_GETLINK sample_state).2 in
  exists fr : mem,
    sk_outbox st = [fr]
    /\ nlmsg_len fr 0 = 20
    /\ length fr = 20%nat
    /\ sizeof_nlmsghdr + sizeof_rtgenmsg = 17
    /\ nlmsg_len fr 0 <> sizeof_nlmsghdr + sizeof_rtgenmsg.
Proof.
  intros st. eexists. split; [vm_compute; reflexivity |].
  vm_compute. repeat split. discriminate.
Qed.

(** Receiving does not send. *)
Lemma nl_get_reply_outbox (fuel : nat) :
  forall st : nl_state, sk_outbox (nl_get_reply fuel st).2 = sk_outbox st.
Proof.
  induction fuel as [|fuel IH]; intros st; [reflexivity |].
  simpl. unfold nl_recv, nl_reply_step.
  repeat case_match; simplify_eq; simpl; rewrite ?IH; reflexivity.
Qed.

Lemma nl_exchange_loop_outbox (fuel : nat) :
  forall st : nl_state, sk_outbox (nl_exchange_loop fuel st).2 = sk_outbox st.
Proof.
  induction fuel as [|fuel IH]; intros st; [reflexivity |].
  cbn [nl_exchange_loop]. unfold and_then.
  pose proof (nl_get_reply_outbox (S fuel) st) as Hg.
  destruct (nl_get_reply (S fuel) st) as [[h| | | | |] st'];
    simpl in Hg; try exact Hg.
  destruct (_ =? NLMSG_ERROR).
  - unfold nl_error. repeat case_match; simplify_eq; simpl; exact Hg.
  - rewrite IH. exact Hg.
Qed.

(** ** The route emitter *)

(** [ipa_hton] puts the most significant byte first. *)
Lemma le_split_ipa_hton (x : Z) : le_split 4 (ipa_hton x) = be32 x.
Proof.
  unfold ipa_hton, bswap32, be32.
  rewrite <- (split_le_combine (rev (le_split 4 x))) at 2.
  now rewrite length_rev, length_le_split.
Qed.

(** The frame [nl_send_route] builds, once [nl_send] has stamped it with a
    sequence number [seq] and cut it to its length. *)
Lemma nl_route_frame_attrs (e : rte) (new : bool) (buf : mem) (seq : Z) :
  krt_capable e = true ->
  length buf = 128%nat ->
  (ra_dest (e_attrs e) = RTD_DEVICE -> is_Some (ra_iface (e_attrs e))) ->
  exists r : mem,
    nl_route_frame e new buf = Ok r
    /\ let fr := take (Z.to_nat (nlmsg_len (store 4 (store 4 r 12 0) 8 seq) 0))
                   (store 4 (store 4 r 12 0) 8 seq) in
       nlmsg_type fr 0 = (if new then RTM_NEWROUTE else RTM_DELROUTE)
       /\ nlmsg_flags fr 0
          = Z.lor (Z.lor NLM_F_REQUEST NLM_F_ACK)
              (if new then Z.lor NLM_F_CREATE NLM_F_REPLACE else 0)
       /\ frame_attrs fr
          = ((RTA_DST, le_split 4 (ipa_hton (n_prefix (e_net e))))
             :: match ra_dest (e_attrs e) with
                | RTD_ROUTER =>
                    [(RTA_GATEWAY, le_split 4 (ipa_hton (ra_gw (e_attrs e))))]
                | RTD_DEVICE =>
                    match ra_iface (e_attrs e) with
                    | Some ifa => [(RTA_OIF, le_split 4 (if_index ifa))]
                    | None => []
                    end
                | _ => []
                end, 0).
Proof.
  intros Hcap Hlen Hdev.
  destruct e as [[prefix pxlen]
                   [source scope cast dest tos flags aflags from gw iface] src].
  unfold krt_capable in Hcap. simpl in *.
  destruct cast; [| discriminate].
  do 16 (destruct buf as [|? buf]; [discriminate Hlen |]).
  clear Hlen.
  destruct dest; try discriminate; destruct new.
  all: try (destruct Hdev as [ifa ->]; [reflexivity |]).
  all: unfold nl_route_frame, nl_add_attr_ipa, nl_add_attr_u32, set_rtm, store;
    cbn [e_net e_attrs ra_dest ra_iface n_pxlen n_prefix ra_gw].
  all: abstract_bytes.
  all: eexists; split; [vm_compute; reflexivity |].
  all: vm_compute; repeat split.
Qed.

(** C5.  For an emittable route (one [krt_capable] accepts; a DEVICE route
    has its interface) [nl_send_route] hands one frame to [sendto].  Its
    attributes are RTA_DST with the destination prefix in network byte
    order, followed for a ROUTER route by RTA_GATEWAY with the gateway and
    for a DEVICE route by RTA_OIF with the interface index, and by nothing
    for BLACKHOLE, UNREACHABLE and PROHIBIT routes.  Its flags are
    REQUEST | ACK, with CREATE | REPLACE exactly when the route is
    installed. *)
Theorem nl_send_route_frame (fuel : nat) (e : rte) (new : bool) (buf : mem)
  (st : nl_state) :
  krt_capable e = true ->
  length buf = 128%nat ->
  (ra_dest (e_attrs e) = RTD_DEVICE -> is_Some (ra_iface (e_attrs e))) ->
  sk_tx_ok st = true ->
  exists fr : mem,
    sk_outbox (nl_send_route fuel e new buf st).2 = sk_outbox st ++ [fr]
    /\ nlmsg_type fr 0 = (if new then RTM_NEWROUTE else RTM_DELROUTE)
    /\ nlmsg_flags fr 0
       = Z.lor (Z.lor NLM_F_REQUEST NLM_F_ACK)
           (if new then Z.lor NLM_F_CREATE NLM_F_REPLACE else 0)
    /\ has_flag (nlmsg_flags fr 0) NLM_F_CREATE = new
    /\ has_flag (nlmsg_flags fr 0) NLM_F_REPLACE = new
    /\ frame_attrs fr
       = ((RTA_DST, be32 (n_prefix (e_net e)))
          :: match ra_dest (e_attrs e) with
             | RTD_ROUTER => [(RTA_GATEWAY, be32 (ra_gw (e_attrs e)))]
             | RTD_DEVICE =>
                 match ra_iface (e_attrs e) with
                 | Some ifa => [(RTA_OIF, le_split 4 (if_index ifa))]
                 | None => []
                 end
             | _ => []
             end, 0).
Proof.
  intros Hcap Hlen Hdev Htx.
  destruct (nl_route_frame_attrs e new buf (u32 (nl_sync_seq st + 1))
              Hcap Hlen Hdev) as (r & Hr & Hty & Hfl & Hattrs).
  unfold nl_send_route. rewrite Hr.
  unfold nl_exchange, nl_send. cbn [sk_tx_ok set_seq]. rewrite Htx.
  cbn [and_then]. rewrite nl_exchange_loop_outbox.
  cbn [sk_outbox set_last add_sent set_seq nl_sync_seq].
  eexists. split; [reflexivity |].
  rewrite Hattrs, Hfl, Hty, !le_split_ipa_hton.
  repeat split; destruct new; reflexivity.
Qed.

Lemma nl_send_route_frame_witness :
  krt_capable sample_rte_router = true
  /\ length (zeros 128) = 128%nat
  /\ (ra_dest (e_attrs sample_rte_router) = RTD_DEVICE ->
      is_Some (ra_iface (e_attrs sample_rte_router)))
  /\ sk_tx_ok sample_state = true
  /\ exists fr : mem,
       sk_outbox (nl_send_route 1 sample_rte_router true (zeros 128)
                    sample_state).2
       = sk_outbox sample_state ++ [fr]
       /\ nlmsg_type fr 0 = RTM_NEWROUTE
       /\ nlmsg_flags fr 0
          = Z.lor (Z.lor NLM_F_REQUEST NLM_F_ACK)
              (Z.lor NLM_F_CREATE NLM_F_REPLACE)
       /\ has_flag (nlmsg_flags fr 0) NLM_F_CREATE = true
       /\ has_flag (nlmsg_flags fr 0) NLM_F_REPLACE = true
       /\ frame_attrs fr
          = ([(RTA_DST, be32 0xC0000200); (RTA_GATEWAY, be32 0x0A0000FE)], 0).
Proof.
  assert (H3 : ra_dest (e_attrs sample_rte_router) = RTD_DEVICE ->
               is_Some (ra_iface (e_attrs sample_rte_router)))
    by discriminate.
  split; [reflexivity | split; [reflexivity | split; [exact H3 |]]].
  split; [reflexivity |].
  exact (nl_send_route_frame 1 sample_rte_router true (zeros 128)
           sample_state eq_refl eq_refl H3 eq_refl).
Defined.


(** * Further properties *)

(** ** The link translator, all paths *)

(** Everything [nl_parse_link] hands to the daemon: log lines and interface
    records; a record comes from a frame with valid IFNAME and MTU
    attributes and is either the overlay of a NEWLINK or the ADMIN_DOWN
    clone of an asynchronous DELLINK. *)
Lemma nl_parse_link_shape (if_find_by_index : Z -> option iface) (m : mem)
  (h : Z) (scan : bool) :
  Forall (fun e =>
            match e with
            | Log _ _ => True
            | If_update f =>
                exists pn pm : Z,
                  attr (link_table m h) IFLA_IFNAME = Some pn
                  /\ 2 <= RTA_PAYLOAD m pn
                  /\ attr (link_table m h) IFLA_MTU = Some pm
                  /\ RTA_PAYLOAD m pm = 4
                  /\ if nlmsg_type m h =? RTM_NEWLINK
                     then
                       let base :=
                         match if_find_by_index (ifi_index m (NLMSG_DATA h)) with
                         | Some ifi => ifi
                         | None =>
                             set_if_index iface_zero
                               (ifi_index m (NLMSG_DATA h))
                         end in
                       f = set_if_flags
                             (set_if_mtu
                                (set_if_name base
                                   (strncpy (if_name base)
                                      (drop (Z.to_nat (RTA_DATA pn)) m)
                                      (sizeof_if_name - 1)))
                                (load 4 m (RTA_DATA pm)))
                             (link_flags (ifi_flags m (NLMSG_DATA h)))
                     else
                       scan = false
                       /\ exists ifi : iface,
                            if_find_by_index (ifi_index m (NLMSG_DATA h))
                            = Some ifi
                            /\ f = set_if_flags ifi
                                     (Z.lor (if_flags ifi) IF_ADMIN_DOWN)
            | _ => False
            end)
    (nl_parse_link if_find_by_index m h scan).
Proof.
  unfold nl_parse_link, link_table.
  destruct (nlmsg_type m h =? RTM_NEWLINK) eqn:Hty.
  all: tr_cases; tr_events.
  all: unfold null_or in *.
  all: repeat match goal with
         | H : _ || _ = false |- _ => apply orb_false_elim in H as [? ?]
         | H : negb _ = false |- _ => apply negb_false_iff in H
         | H : (_ =? _) = true |- _ => apply Z.eqb_eq in H
         | H : (_ <? _) = false |- _ => apply Z.ltb_ge in H
         end.
  all: repeat match goal with
         | H : (nl_parse_attrs _ _ _ _).2 = _ |- _ => rewrite H; clear H
         end; cbn [fst snd].
  all: eexists _, _; repeat split; eauto.
  destruct scan; [discriminate | reflexivity].
Qed.

(** X1.  A NEWLINK frame is published only with an IFNAME attribute of at
    least two bytes and an MTU attribute of exactly four.  The record
    published takes its MTU from the frame and overlays the record of the
    interface table: for a known index the index and the address binding
    (address, prefix, prefix length, broadcast, opposite) are those of the
    table's record, for an unknown index the record is a fresh one with the
    frame's index and no address. *)
Theorem nl_parse_link_newlink_overlay (if_find_by_index : Z -> option iface)
  (m : mem) (h : Z) (scan : bool) (f : iface) :
  nlmsg_type m h = RTM_NEWLINK ->
  In (If_update f) (nl_parse_link if_find_by_index m h scan) ->
  (exists pn pm : Z,
     attr (link_table m h) IFLA_IFNAME = Some pn
     /\ 2 <= RTA_PAYLOAD m pn
     /\ attr (link_table m h) IFLA_MTU = Some pm
     /\ RTA_PAYLOAD m pm = 4
     /\ if_mtu f = load 4 m (RTA_DATA pm))
  /\ match if_find_by_index (ifi_index m (NLMSG_DATA h)) with
     | Some ifi =>
         if_index f = if_index ifi /\ if_ip f = if_ip ifi
         /\ if_prefix f = if_prefix ifi /\ if_pxlen f = if_pxlen ifi
         /\ if_brd f = if_brd ifi /\ if_opposite f = if_opposite ifi
     | None =>
         if_index f = ifi_index m (NLMSG_DATA h) /\ if_ip f = 0
         /\ if_prefix f = 0 /\ if_pxlen f = 0
         /\ if_brd f = 0 /\ if_opposite f = 0
     end.
Proof.
  intros Hty Hin.
  pose proof (nl_parse_link_shape if_find_by_index m h scan) as Hev.
  rewrite Forall_forall in Hev. rewrite <- list_elem_of_In in Hin.
  specialize (Hev _ Hin). cbn beta iota in Hev.
  destruct Hev as (pn & pm & Hn & Hpn & Hm & Hpm & Hf).
  rewrite Hty in Hf. change (RTM_NEWLINK =? RTM_NEWLINK) with true in Hf.
  cbn beta iota zeta in Hf. subst f.
  split; [exists pn, pm; auto 10 |].
  destruct (if_find_by_index (ifi_index m (NLMSG_DATA h))); simpl; auto 10.
Qed.

Lemma nl_parse_link_newlink_overlay_witness :
  nlmsg_type sample_newlink 0 = RTM_NEWLINK
  /\ In (If_update sample_newlink_published)
       (nl_parse_link sample_if_stale sample_newlink 0 true)
  /\ (exists pn pm : Z,
        attr (link_table sample_newlink 0) IFLA_IFNAME = Some pn
        /\ 2 <= RTA_PAYLOAD sample_newlink pn
        /\ attr (link_table sample_newlink 0) IFLA_MTU = Some pm
        /\ RTA_PAYLOAD sample_newlink pm = 4
        /\ if_mtu sample_newlink_published
           = load 4 sample_newlink (RTA_DATA pm)).
Proof.
  assert (H1 : nlmsg_type sample_newlink 0 = RTM_NEWLINK)
    by (vm_compute; reflexivity).
  assert (H2 : In (If_update sample_newlink_published)
                 (nl_parse_link sample_if_stale sample_newlink 0 true))
    by (vm_compute; left; reflexivity).
  split; [exact H1 | split; [exact H2 |]].
  exact (proj1 (nl_parse_link_newlink_overlay sample_if_stale sample_newlink
                  0 true sample_newlink_published H1 H2)).
Defined.

(** X2.  A frame that is not a NEWLINK is a link going down: during a scan
    nothing is published, and what an asynchronous one publishes is the
    record of the interface table, which must know the index, with
    ADMIN_DOWN added to its flags and nothing else changed. *)
Theorem nl_parse_link_dellink (if_find_by_index : Z -> option iface)
  (m : mem) (h : Z) (scan : bool) :
  nlmsg_type m h <> RTM_NEWLINK ->
  (scan = true -> published (nl_parse_link if_find_by_index m h scan) = [])
  /\ (forall f : iface,
        In (If_update f) (nl_parse_link if_find_by_index m h scan) ->
        scan = false
        /\ exists ifi : iface,
             if_find_by_index (ifi_index m (NLMSG_DATA h)) = Some ifi
             /\ f = set_if_flags ifi (Z.lor (if_flags ifi) IF_ADMIN_DOWN)).
Proof.
  intros Hty.
  pose proof (nl_parse_link_shape if_find_by_index m h scan) as Hev.
  apply Z.eqb_neq in Hty. rewrite Hty in Hev.
  assert (Hall : forall f : iface,
             In (If_update f) (nl_parse_link if_find_by_index m h scan) ->
             scan = false
             /\ exists ifi : iface,
                  if_find_by_index (ifi_index m (NLMSG_DATA h)) = Some ifi
                  /\ f = set_if_flags ifi (Z.lor (if_flags ifi) IF_ADMIN_DOWN)).
  { intros f Hin. rewrite Forall_forall in Hev.
    rewrite <- list_elem_of_In in Hin. specialize (Hev _ Hin).
    cbn beta iota in Hev. destruct Hev as (_ & _ & _ & _ & _ & _ & H). exact H. }
  split; [| exact Hall].
  intros Hscan.
  induction (nl_parse_link if_find_by_index m h scan) as [|e l IH];
    [reflexivity |].
  destruct e as [c msg | f | r | r new].
  - apply IH; [now inversion Hev | intros f Hin; apply Hall; now right ].
  - destruct (Hall f (or_introl eq_refl)) as [Hs _]. congruence.
  - inversion Hev as [|? ? Hhd]; destruct Hhd.
  - inversion Hev as [|? ? Hhd]; destruct Hhd.
Qed.

Lemma nl_parse_link_dellink_witness :
  nlmsg_type sample_dellink 0 <> RTM_NEWLINK
  /\ nl_parse_link sample_if_stale sample_dellink 0 true = []
  /\ nl_parse_link sample_if_stale sample_dellink 0 false
     = [If_update (mk_iface (zeros sizeof_if_name)
                     (Z.lor IF_ADMIN_DOWN IF_BROADCAST) 1500 1 0 0 0 0 0)]
  /\ (true = true ->
      published (nl_parse_link sample_if_stale sample_dellink 0 true) = []).
Proof.
  assert (H1 : nlmsg_type sample_dellink 0 <> RTM_NEWLINK)
    by (vm_compute; discriminate).
  split; [exact H1 |].
  split; [vm_compute; reflexivity | split; [vm_compute; reflexivity |]].
  exact (proj1 (nl_parse_link_dellink sample_if_stale sample_dellink 0 true H1)).
Defined.


(** ** The address translator, all paths *)

Lemma nl_addr_filters_logs (m : mem) (h : Z) :
  Forall is_log (nl_addr_filters m h).1.
Proof. unfold nl_addr_filters. tr_cases; tr_events. Qed.

(** What [nl_parse_addr] does with a frame that passes the checks. *)
Lemma nl_parse_addr_passed (if_find_by_index : Z -> option iface) (m : mem)
  (h : Z) (evs : list event) (i : Z) (a : list (option Z)) :
  nl_addr_filters m h = (evs, Some (i, a)) ->
  nl_parse_addr if_find_by_index m h =
  match if_find_by_index (ifa_index m i) with
  | None => [Log L_ERR unknown_iface_msg]
  | Some ifi =>
      if invalid_pxlen (if_flags ifi) (ifa_prefixlen m i)
      then [Log L_ERR invalid_pxlen_msg; If_update (addr_deletion ifi)]
      else if negb (nlmsg_type m h =? RTM_NEWADDR)
      then [If_update (addr_deletion ifi)]
      else
        let ip := match attr a IFA_LOCAL with
                  | Some p => ipa_ntoh (load 4 m (RTA_DATA p))
                  | None => IPA_NONE
                  end in
        let peer := match attr a IFA_ADDRESS with
                    | Some p => ipa_ntoh (load 4 m (RTA_DATA p))
                    | None => IPA_NONE
                    end in
        let brd := if has_flag (if_flags ifi) IF_UNNUMBERED then peer
                   else if has_flag (if_flags ifi) IF_BROADCAST
                   then match attr a IFA_BROADCAST with
                        | Some p => ipa_ntoh (load 4 m (RTA_DATA p))
                        | None => IPA_NONE
                        end
                   else IPA_NONE in
        let opposite := if has_flag (if_flags ifi) IF_UNNUMBERED then peer
                        else IPA_NONE in
        [If_update
           (mk_iface (if_name ifi) (if_flags ifi) (if_mtu ifi) (if_index ifi)
              ip (ipa_and ip (ipa_mkmask (ifa_prefixlen m i)))
              (ifa_prefixlen m i) brd opposite)]
  end.
Proof.
  intros Hfil.
  destruct (nl_addr_filters_pass _ _ _ _ _ Hfil)
    as (-> & _ & _ & _ & (pa & Hpa & _) & (pl & Hpl & _)).
  unfold nl_parse_addr. rewrite (tr_bind_some _ _ _ _ Hfil).
  unfold nl_addr_bind, unknown_iface_msg, invalid_pxlen_msg, addr_deletion.
  rewrite Hpa, Hpl.
  destruct (if_find_by_index (ifa_index m i)) as [ifi|]; [| reflexivity].
  destruct ifi as [name flags mtu index ip prefix pxlen brd opposite].
  cbn [if_flags if_name if_mtu if_index set_if_ip set_if_brd set_if_opposite].
  destruct (invalid_pxlen flags (ifa_prefixlen m i)); [reflexivity |].
  destruct (nlmsg_type m h =? RTM_NEWADDR); [| reflexivity].
  cbn [negb]. cbv iota.
  tr_cases; reflexivity.
Qed.

Lemma invalid_pxlen_false (flags pxlen : Z) :
  invalid_pxlen flags pxlen = false ->
  pxlen <= 32 /\ pxlen <> 31
  /\ (has_flag flags IF_UNNUMBERED = true -> pxlen = 32).
Proof.
  unfold invalid_pxlen. intros H.
  apply orb_false_elim in H as [H H3]. apply orb_false_elim in H as [H1 H2].
  apply Z.ltb_ge in H1. apply Z.eqb_neq in H2.
  repeat split; [lia | exact H2 |].
  intros Hu. rewrite Hu in H3. simpl in H3.
  apply negb_false_iff, Z.eqb_eq in H3. exact H3.
Qed.

(** X3.  Whatever [nl_parse_addr] publishes is the record of a known
    interface with its name, flags, MTU and index unchanged, and it obeys
    the address invariant: the prefix length is between 0 and 32 and is not
    31, on an UNNUMBERED interface it is 0 or 32, and the opposite address
    is set only on an UNNUMBERED interface, where it equals the broadcast
    address. *)
Theorem nl_parse_addr_published_invariant
  (if_find_by_index : Z -> option iface) (m : mem) (h : Z) (f : iface) :
  In (If_update f) (nl_parse_addr if_find_by_index m h) ->
  exists ifi : iface,
    if_find_by_index (ifa_index m (NLMSG_DATA h)) = Some ifi
    /\ if_name f = if_name ifi /\ if_flags f = if_flags ifi
    /\ if_mtu f = if_mtu ifi /\ if_index f = if_index ifi
    /\ 0 <= if_pxlen f <= 32 /\ if_pxlen f <> 31
    /\ (has_flag (if_flags f) IF_UNNUMBERED = true ->
        if_pxlen f = 0 \/ if_pxlen f = 32)
    /\ (if_opposite f = IPA_NONE
        \/ (has_flag (if_flags f) IF_UNNUMBERED = true
            /\ if_opposite f = if_brd f)).
Proof.
  intros Hin.
  destruct (nl_addr_filters m h) as [evs [[i a]|]] eqn:Hfil.
  2:{ exfalso. unfold nl_parse_addr in Hin. rewrite Hfil in Hin.
      pose proof (nl_addr_filters_logs m h) as Hlogs. rewrite Hfil in Hlogs.
      rewrite Forall_forall in Hlogs. rewrite <- list_elem_of_In in Hin.
      exact (Hlogs _ Hin). }
  rewrite (nl_parse_addr_passed _ _ _ _ _ _ Hfil) in Hin.
  destruct (nl_addr_filters_pass _ _ _ _ _ Hfil) as (_ & -> & _).
  destruct (if_find_by_index (ifa_index m (NLMSG_DATA h))) as [ifi|];
    [| destruct Hin as [Hin | []]; discriminate Hin].
  exists ifi. split; [reflexivity |].
  pose proof (load_bound 1 m (NLMSG_DATA h + 1)) as Hpx.
  fold (ifa_prefixlen m (NLMSG_DATA h)) in Hpx.
  destruct (invalid_pxlen (if_flags ifi) (ifa_prefixlen m (NLMSG_DATA h)))
    eqn:Hbad.
  { destruct Hin as [Hin | [Hin | []]]; [discriminate Hin |].
    injection Hin as <-. simpl. unfold IPA_NONE. repeat split; auto; lia. }
  apply invalid_pxlen_false in Hbad as (H32 & H31 & Hunn).
  destruct (negb (nlmsg_type m h =? RTM_NEWADDR)).
  { destruct Hin as [Hin | []].
    injection Hin as <-. simpl. unfold IPA_NONE. repeat split; auto; lia. }
  cbv zeta in Hin. destruct Hin as [Hin | []]. injection Hin as <-.
  cbn [if_name if_flags if_mtu if_index if_pxlen if_opposite if_brd].
  repeat split; try lia; auto.
  destruct (has_flag (if_flags ifi) IF_UNNUMBERED); auto.
Qed.

Lemma nl_parse_addr_published_invariant_witness :
  let m := sample_newaddr 32 0 3 0x0A000002 in
  In (If_update sample_ptp_published) (nl_parse_addr sample_if_table m 0)
  /\ exists ifi : iface,
       sample_if_table (ifa_index m (NLMSG_DATA 0)) = Some ifi
       /\ if_name sample_ptp_published = if_name ifi
       /\ if_flags sample_ptp_published = if_flags ifi
       /\ if_mtu sample_ptp_published = if_mtu ifi
       /\ if_index sample_ptp_published = if_index ifi
       /\ 0 <= if_pxlen sample_ptp_published <= 32
       /\ if_pxlen sample_ptp_published <> 31
       /\ (has_flag (if_flags sample_ptp_published) IF_UNNUMBERED = true ->
           if_pxlen sample_ptp_published = 0
           \/ if_pxlen sample_ptp_published = 32)
       /\ (if_opposite sample_ptp_published = IPA_NONE
           \/ (has_flag (if_flags sample_ptp_published) IF_UNNUMBERED = true
               /\ if_opposite sample_ptp_published
                  = if_brd sample_ptp_published)).
Proof.
  intros m.
  assert (H1 : In (If_update sample_ptp_published)
                 (nl_parse_addr sample_if_table m 0))
    by (vm_compute; left; reflexivity).
  split; [exact H1 |].
  exact (nl_parse_addr_published_invariant sample_if_table m 0
           sample_ptp_published H1).
Defined.

(** X4.  A frame that passes the checks and is not a NEWADDR, for a known
    interface: the binding is published as a deletion, the record of the
    interface table with prefix length 0 and the local, broadcast and
    opposite addresses cleared, and nothing else is published. *)
Theorem nl_parse_addr_deladdr (if_find_by_index : Z -> option iface)
  (m : mem) (h : Z) (evs : list event) (i : Z) (a : list (option Z))
  (ifi : iface) :
  nl_addr_filters m h = (evs, Some (i, a)) ->
  nlmsg_type m h <> RTM_NEWADDR ->
  if_find_by_index (ifa_index m i) = Some ifi ->
  exists f : iface,
    published (nl_parse_addr if_find_by_index m h) = [f]
    /\ if_pxlen f = 0
    /\ if_ip f = IPA_NONE /\ if_brd f = IPA_NONE /\ if_opposite f = IPA_NONE
    /\ if_index f = if_index ifi /\ if_name f = if_name ifi
    /\ if_flags f = if_flags ifi /\ if_mtu f = if_mtu ifi.
Proof.
  intros Hfil Hty Hifi.
  rewrite (nl_parse_addr_passed _ _ _ _ _ _ Hfil), Hifi.
  apply Z.eqb_neq in Hty. rewrite Hty.
  exists (addr_deletion ifi).
  destruct (invalid_pxlen _ _); simpl; auto 10.
Qed.

Lemma nl_parse_addr_deladdr_witness :
  nl_addr_filters sample_deladdr 0 = ([], Some (16, sample_newaddr_table))
  /\ nlmsg_type sample_deladdr 0 <> RTM_NEWADDR
  /\ sample_if_table (ifa_index sample_deladdr 16) = Some sample_if_2
  /\ exists f : iface,
       published (nl_parse_addr sample_if_table sample_deladdr 0) = [f]
       /\ if_pxlen f = 0
       /\ if_ip f = IPA_NONE /\ if_brd f = IPA_NONE
       /\ if_opposite f = IPA_NONE
       /\ if_index f = if_index sample_if_2
       /\ if_name f = if_name sample_if_2
       /\ if_flags f = if_flags sample_if_2
       /\ if_mtu f = if_mtu sample_if_2.
Proof.
  assert (H1 : nl_addr_filters sample_deladdr 0
               = ([], Some (16, sample_newaddr_table)))
    by (vm_compute; reflexivity).
  assert (H2 : nlmsg_type sample_deladdr 0 <> RTM_NEWADDR)
    by (vm_compute; discriminate).
  assert (H3 : sample_if_table (ifa_index sample_deladdr 16)
               = Some sample_if_2)
    by (vm_compute; reflexivity).
  split; [exact H1 | split; [exact H2 | split; [exact H3 |]]].
  exact (nl_parse_addr_deladdr sample_if_table sample_deladdr 0 [] 16
           sample_newaddr_table sample_if_2 H1 H2 H3).
Defined.

(** X5.  A NEWADDR frame that passes the checks, for a known interface that
    is not UNNUMBERED, with a valid prefix length: exactly one record is
    published; its address is the LOCAL attribute in host byte order, its
    prefix length the frame's, its prefix the address under the netmask,
    its opposite address unset, and its broadcast address the BROADCAST
    attribute if the interface is a BROADCAST one and the attribute is
    there, unset otherwise. *)
Theorem nl_parse_addr_numbered (if_find_by_index : Z -> option iface)
  (m : mem) (h : Z) (evs : list event) (i : Z) (a : list (option Z))
  (ifi : iface) :
  nl_addr_filters m h = (evs, Some (i, a)) ->
  nlmsg_type m h = RTM_NEWADDR ->
  if_find_by_index (ifa_index m i) = Some ifi ->
  has_flag (if_flags ifi) IF_UNNUMBERED = false ->
  ifa_prefixlen m i <= 32 -> ifa_prefixlen m i <> 31 ->
  exists (f : iface) (pl : Z),
    nl_parse_addr if_find_by_index m h = [If_update f]
    /\ attr a IFA_LOCAL = Some pl
    /\ if_ip f = ipa_ntoh (load 4 m (RTA_DATA pl))
    /\ if_pxlen f = ifa_prefixlen m i
    /\ if_prefix f = ipa_and (if_ip f) (ipa_mkmask (if_pxlen f))
    /\ if_opposite f = IPA_NONE
    /\ if_brd f
       = (if has_flag (if_flags ifi) IF_BROADCAST
          then match attr a IFA_BROADCAST with
               | Some pb => ipa_ntoh (load 4 m (RTA_DATA pb))
               | None => IPA_NONE
               end
          else IPA_NONE)
    /\ if_index f = if_index ifi /\ if_name f = if_name ifi
    /\ if_flags f = if_flags ifi /\ if_mtu f = if_mtu ifi.
Proof.
  intros Hfil Hty Hifi Hunn H32 H31.
  destruct (nl_addr_filters_pass _ _ _ _ _ Hfil)
    as (_ & _ & _ & _ & _ & (pl & Hpl & _)).
  rewrite (nl_parse_addr_passed _ _ _ _ _ _ Hfil), Hifi, Hty.
  assert (Hok : invalid_pxlen (if_flags ifi) (ifa_prefixlen m i) = false).
  { destruct (invalid_pxlen _ _) eqn:Hbad; [| reflexivity].
    apply invalid_pxlen_true in Hbad.
    destruct Hbad as [? | [? | [Hu _]]]; [lia | lia | congruence]. }
  rewrite Hok, Hpl, Hunn.
  change (RTM_NEWADDR =? RTM_NEWADDR) with true. cbn [negb]. cbv iota zeta.
  eexists _, pl. split; [reflexivity |].
  cbn [if_ip if_pxlen if_prefix if_opposite if_brd if_index if_name if_flags
       if_mtu].
  auto 12.
Qed.

Lemma nl_parse_addr_numbered_witness :
  let m := sample_newaddr 24 0 2 0x0A000001 in
  nl_addr_filters m 0 = ([], Some (16, sample_newaddr_table))
  /\ nlmsg_type m 0 = RTM_NEWADDR
  /\ sample_if_table (ifa_index m 16) = Some sample_if_2
  /\ has_flag (if_flags sample_if_2) IF_UNNUMBERED = false
  /\ ifa_prefixlen m 16 <= 32 /\ ifa_prefixlen m 16 <> 31
  /\ nl_parse_addr sample_if_table m 0 = [If_update sample_bcast_published]
  /\ exists (f : iface) (pl : Z),
       nl_parse_addr sample_if_table m 0 = [If_update f]
       /\ attr sample_newaddr_table IFA_LOCAL = Some pl
       /\ if_ip f = ipa_ntoh (load 4 m (RTA_DATA pl))
       /\ if_pxlen f = ifa_prefixlen m 16
       /\ if_prefix f = ipa_and (if_ip f) (ipa_mkmask (if_pxlen f))
       /\ if_opposite f = IPA_NONE
       /\ if_brd f
          = (if has_flag (if_flags sample_if_2) IF_BROADCAST
             then match attr sample_newaddr_table IFA_BROADCAST with
                  | Some pb => ipa_ntoh (load 4 m (RTA_DATA pb))
                  | None => IPA_NONE
                  end
             else IPA_NONE)
       /\ if_index f = if_index sample_if_2
       /\ if_name f = if_name sample_if_2
       /\ if_flags f = if_flags sample_if_2
       /\ if_mtu f = if_mtu sample_if_2.
Proof.
  intros m.
  assert (H1 : nl_addr_filters m 0 = ([], Some (16, sample_newaddr_table)))
    by (vm_compute; reflexivity).
  assert (H2 : nlmsg_type m 0 = RTM_NEWADDR) by (vm_compute; reflexivity).
  assert (H3 : sample_if_table (ifa_index m 16) = Some sample_if_2)
    by (vm_compute; reflexivity).
  assert (H4 : has_flag (if_flags sample_if_2) IF_UNNUMBERED = false)
    by (vm_compute; reflexivity).
  assert (H5 : ifa_prefixlen m 16 <= 32) by (vm_compute; discriminate).
  assert (H6 : ifa_prefixlen m 16 <> 31) by (vm_compute; discriminate).
  repeat (split; [assumption |]).
  split; [vm_compute; reflexivity |].
  exact (nl_parse_addr_numbered sample_if_table m 0 [] 16
           sample_newaddr_table sample_if_2 H1 H2 H3 H4 H5 H6).
Defined.

(** X6.  A frame that passes the checks but names an interface the table
    does not know: one error is logged and nothing is published. *)
Theorem nl_parse_addr_unknown_iface (if_find_by_index : Z -> option iface)
  (m : mem) (h : Z) (evs : list event) (i : Z) (a : list (option Z)) :
  nl_addr_filters m h = (evs, Some (i, a)) ->
  if_find_by_index (ifa_index m i) = None ->
  nl_parse_addr if_find_by_index m h = [Log L_ERR unknown_iface_msg]
  /\ published (nl_parse_addr if_find_by_index m h) = [].
Proof.
  intros Hfil Hifi.
  rewrite (nl_parse_addr_passed _ _ _ _ _ _ Hfil), Hifi. auto.
Qed.

Lemma nl_parse_addr_unknown_iface_witness :
  let m := sample_newaddr 24 0 9 0x0A000001 in
  nl_addr_filters m 0 = ([], Some (16, sample_newaddr_table))
  /\ sample_if_table (ifa_index m 16) = None
  /\ nl_parse_addr sample_if_table m 0 = [Log L_ERR unknown_iface_msg]
  /\ published (nl_parse_addr sample_if_table m 0) = [].
Proof.
  intros m.
  assert (H1 : nl_addr_filters m 0 = ([], Some (16, sample_newaddr_table)))
    by (vm_compute; reflexivity).
  assert (H2 : sample_if_table (ifa_index m 16) = None)
    by (vm_compute; reflexivity).
  split; [exact H1 | split; [exact H2 |]].
  exact (nl_parse_addr_unknown_iface sample_if_table m 0 [] 16
           sample_newaddr_table H1 H2).
Defined.

(** ** The route translator, all paths *)

Lemma nl_route_filters_logs (m : mem) (h : Z) (scan : bool) :
  Forall is_log (nl_route_filters m h scan).1.
Proof. unfold nl_route_filters. tr_cases; tr_events. Qed.

(** What the checks of [nl_parse_route] establish about the attributes. *)
Lemma nl_route_filters_table (m : mem) (h : Z) (scan : bool)
  (evs : list event) (i : Z) (a : list (option Z)) :
  nl_route_filters m h scan = (evs, Some (i, a)) ->
  a = route_table m h
  /\ (forall p : Z, attr a RTA_DST = Some p -> RTA_PAYLOAD m p = 4)
  /\ (forall p : Z, attr a RTA_OIF = Some p -> RTA_PAYLOAD m p = 4)
  /\ (forall p : Z, attr a RTA_GATEWAY = Some p -> RTA_PAYLOAD m p = 4).
Proof.
  unfold nl_route_filters, route_table. intros H.
  tr_cases.
  all: repeat match goal with
         | H : _ || _ = false |- _ => apply orb_false_elim in H as [? ?]
         end.
  all: repeat match goal with
         | H : (nl_parse_attrs _ _ _ _).2 = _ |- _ => rewrite H in *; clear H
         end; cbn [fst snd].
  all: unfold nonnull_and in *.
  all: split; [reflexivity |].
  all: repeat split; intros p Hp.
  all: match goal with
       | H : match attr _ ?c with Some _ => _ | None => _ end = false,
         Hp : attr _ ?c = Some _ |- _ =>
           rewrite Hp in H; apply negb_false_iff, Z.eqb_eq in H; exact H
       end.
Qed.

Lemma delivered_logs (evs : list event) :
  Forall is_log evs -> delivered evs = [].
Proof.
  induction 1 as [|[] evs Hx _ IH]; [reflexivity | | | |];
    simpl in Hx; try contradiction.
  exact IH.
Qed.

Section RouteTranslator.

Variable if_find_by_index : Z -> option iface.
Variable neigh_find : Z -> option neighbor.

Local Abbreviation parse_route := (nl_parse_route if_find_by_index neigh_find).

Local Arguments nl_parse_route : simpl never.

(** The events of [nl_parse_route], path by path. *)
Lemma nl_parse_route_events (temp_ifs : list iface) (m : mem) (h : Z)
  (scan : bool) :
  Forall (route_sink scan (nlmsg_type m h =? RTM_NEWROUTE))
    (parse_route temp_ifs m h scan).1.
Proof.
  destruct (nl_route_filters m h scan) as [evs [[i a]|]] eqn:Hfil.
  2:{ pose proof (nl_route_filters_logs m h scan) as Hlogs.
      unfold nl_parse_route. rewrite Hfil in *. simpl in *.
      eapply Forall_impl; [exact Hlogs |]. now intros []. }
  destruct (nl_route_filters_pass _ _ _ _ _ _ Hfil) as (-> & _).
  unfold nl_parse_route. rewrite (tr_bind_some _ _ _ _ Hfil).
  unfold nl_route_translate.
  destruct scan; tr_cases; tr_events.
Qed.

(** X7.  A route handed to the syncer comes from an IPv4 frame of the main
    table with TOS 0, in a scan from a NEWROUTE.  Its prefix is the DST
    attribute (four bytes) in host byte order, or the unset address if the
    frame has none, with the frame's prefix length.  Its attributes are
    those of an inherited unicast route of universe scope with no TOS, flags
    or origin, and its destination type follows the frame's: a UNICAST
    frame gives a ROUTER or a DEVICE route, a BLACKHOLE, UNREACHABLE or
    PROHIBIT frame the route of that kind, without gateway and interface;
    no other type of frame yields a route. *)
Theorem nl_parse_route_delivered (temp_ifs : list iface) (m : mem) (h : Z)
  (scan : bool) (e : rte) :
  In e (delivered (parse_route temp_ifs m h scan).1) ->
  let i := NLMSG_DATA h in
  let a := route_table m h in
  rtm_family m i = AF_INET /\ rtm_table m i = RT_TABLE_MAIN
  /\ rtm_tos m i = 0
  /\ (scan = true -> nlmsg_type m h = RTM_NEWROUTE)
  /\ (forall p : Z, attr a RTA_DST = Some p -> RTA_PAYLOAD m p = 4)
  /\ e_net e
     = mk_net match attr a RTA_DST with
              | Some p => ipa_ntoh (load 4 m (RTA_DATA p))
              | None => IPA_NONE
              end (rtm_dst_len m i)
  /\ e_attrs e
     = mk_rta RTS_INHERIT SCOPE_UNIVERSE RTC_UNICAST (ra_dest (e_attrs e))
         0 0 0 IPA_NONE (ra_gw (e_attrs e)) (ra_iface (e_attrs e))
  /\ ((rtm_type m i = RTN_UNICAST
       /\ (ra_dest (e_attrs e) = RTD_ROUTER
           \/ ra_dest (e_attrs e) = RTD_DEVICE))
      \/ (ra_gw (e_attrs e) = IPA_NONE /\ ra_iface (e_attrs e) = None
          /\ ((rtm_type m i = RTN_BLACKHOLE
               /\ ra_dest (e_attrs e) = RTD_BLACKHOLE)
              \/ (rtm_type m i = RTN_UNREACHABLE
                  /\ ra_dest (e_attrs e) = RTD_UNREACHABLE)
              \/ (rtm_type m i = RTN_PROHIBIT
                  /\ ra_dest (e_attrs e) = RTD_PROHIBIT)))).
Proof.
  intros Hin i a.
  destruct (nl_route_filters m h scan) as [evs [[i' a']|]] eqn:Hfil.
  2:{ exfalso. pose proof (nl_route_filters_logs m h scan) as Hlogs.
      unfold nl_parse_route in Hin. rewrite Hfil in *. simpl in *.
      now rewrite (delivered_logs _ Hlogs) in Hin. }
  destruct (nl_route_filters_pass _ _ _ _ _ _ Hfil)
    as (-> & -> & Hfam & Htab & Htos & Hscan).
  destruct (nl_route_filters_table _ _ _ _ _ _ Hfil) as (-> & Hdst & _).
  fold i in Hfam, Htab, Htos, Hfil. fold a in Hdst, Hfil.
  do 4 (split; [assumption |]). split; [exact Hdst |].
  clear Hfam Htab Htos Hscan Hdst.
  unfold nl_parse_route in Hin. rewrite (tr_bind_some _ _ _ _ Hfil) in Hin.
  clear Hfil. unfold nl_route_translate, net_get in Hin.
  generalize dependent a. intros a.
  generalize dependent i. intros i.
  intros Hin.
  destruct scan; tr_cases.
  all: repeat match goal with
              | H : _ \/ _ |- _ => destruct H
              | H : False |- _ => destruct H
              end; simplify_eq.
  all: simpl; repeat split.
  all: repeat match goal with
              | H : (_ =? _) = true |- _ => apply Z.eqb_eq in H
              end.
  all: auto 10.
Qed.

Lemma route_src_async (protocol : Z) (src : krt_src) :
  route_src protocol false = Some src -> src <> KRT_SRC_BIRD.
Proof.
  unfold route_src. repeat case_match; intros; simplify_eq; discriminate.
Qed.

Lemma nl_parse_route_async_events (temp_ifs : list iface) (m : mem) (h : Z) :
  Forall (async_event (nlmsg_type m h =? RTM_NEWROUTE))
    (parse_route temp_ifs m h false).1.
Proof.
  destruct (nl_route_filters m h false) as [evs [[i a]|]] eqn:Hfil.
  2:{ pose proof (nl_route_filters_logs m h false) as Hlogs.
      unfold nl_parse_route. rewrite Hfil in *. simpl in *.
      eapply Forall_impl; [exact Hlogs |]. now intros []. }
  destruct (nl_route_filters_pass _ _ _ _ _ _ Hfil) as (-> & _).
  unfold nl_parse_route. rewrite (tr_bind_some _ _ _ _ Hfil).
  unfold nl_route_translate.
  destruct (route_src (rtm_protocol m i) false) as [src|] eqn:Hsrc;
    [| constructor].
  apply route_src_async in Hsrc.
  tr_cases; tr_events.
Qed.

Lemma nl_parse_link_async_events (m : mem) (h : Z) (scan : bool) (new : bool) :
  Forall (async_event new) (nl_parse_link if_find_by_index m h scan).
Proof.
  eapply Forall_impl; [apply nl_parse_link_events |].
  intros [] ?; simpl in *; tauto.
Qed.

Lemma nl_parse_addr_async_events (m : mem) (h : Z) (new : bool) :
  Forall (async_event new) (nl_parse_addr if_find_by_index m h).
Proof.
  unfold nl_parse_addr, nl_addr_filters, nl_addr_bind.
  tr_cases; tr_events.
Qed.


Lemma krt_temp_iface_tail (temp_ifs : list iface) (index : Z) :
  exists tail : list iface,
    (krt_temp_iface if_find_by_index temp_ifs index).2 = temp_ifs ++ tail.
Proof.
  unfold krt_temp_iface. destruct (List.find _ _); cbn [snd].
  - exists []. now rewrite app_nil_r.
  - eauto.
Qed.

(** [nl_parse_route] only adds to the temporary interfaces. *)
Lemma nl_parse_route_temp_ifs (temp_ifs : list iface) (m : mem) (h : Z)
  (scan : bool) :
  exists tail : list iface,
    (parse_route temp_ifs m h scan).2 = temp_ifs ++ tail.
Proof.
  assert (Hsame : exists tail : list iface, temp_ifs = temp_ifs ++ tail)
    by (exists []; now rewrite app_nil_r).
  destruct (nl_route_filters m h scan) as [evs [[i a]|]] eqn:Hfil.
  2:{ unfold nl_parse_route. rewrite Hfil. exact Hsame. }
  unfold nl_parse_route. rewrite (tr_bind_some _ _ _ _ Hfil).
  unfold nl_route_translate.
  destruct (route_src (rtm_protocol m i) scan) as [src|]; [| exact Hsame].
  destruct scan; tr_cases; try exact Hsame.
  all: match goal with
       | H : krt_temp_iface _ ?l ?i = (_, ?l') |- _ =>
           destruct (krt_temp_iface_tail l i) as [tail Ht];
           rewrite H in Ht; exists tail; exact Ht
       end.
Qed.

(** X8.  Whatever the frame, [nl_parse_route] only logs and hands routes to
    the sink of its path: a scan never uses the asynchronous sink, an
    asynchronous notification never the scan's, its [new] argument says
    whether the frame is a NEWROUTE, and no interface record is
    published.  It only adds to the temporary interfaces. *)
Theorem nl_parse_route_sink (temp_ifs : list iface) (m : mem) (h : Z)
  (scan : bool) :
  Forall (route_sink scan (nlmsg_type m h =? RTM_NEWROUTE))
    (parse_route temp_ifs m h scan).1
  /\ exists tail : list iface,
       (parse_route temp_ifs m h scan).2 = temp_ifs ++ tail.
Proof.
  split.
  - apply nl_parse_route_events.
  - apply nl_parse_route_temp_ifs.
Qed.


(** X9.  An asynchronous notification never uses the scan's sink and never
    hands over a route tagged as BIRD's own: the echo of a route BIRD has
    installed is dropped.  A route it hands over carries [new] exactly for a
    NEWROUTE frame.  Only route frames touch the temporary interfaces, and a
    frame of any other type than the six known ones does nothing at all. *)
Theorem nl_async_msg_events (temp_ifs : list iface) (m : mem) (h : Z) :
  let r := nl_async_msg if_find_by_index neigh_find temp_ifs m h in
  Forall (async_event (nlmsg_type m h =? RTM_NEWROUTE)) r.1
  /\ (nlmsg_type m h <> RTM_NEWROUTE -> nlmsg_type m h <> RTM_DELROUTE ->
      r.2 = temp_ifs)
  /\ (async_known (nlmsg_type m h) = false -> r = ([], temp_ifs)).
Proof.
  unfold nl_async_msg, async_known. cbv zeta.
  destruct (nlmsg_type m h =? RTM_NEWROUTE) eqn:H1;
    [| destruct (nlmsg_type m h =? RTM_DELROUTE) eqn:H2].
  1,2: cbn [orb]; split;
    [ pose proof (nl_parse_route_async_events temp_ifs m h) as H;
      rewrite H1 in H; exact H
    | split; [| discriminate]; intros Hn Hd;
      rewrite ?Z.eqb_eq in *; congruence ].
  cbn [orb].
  destruct ((nlmsg_type m h =? RTM_NEWLINK) || (nlmsg_type m h =? RTM_DELLINK));
    cbn [orb fst snd].
  { split; [apply nl_parse_link_async_events | split; [reflexivity |]].
    discriminate. }
  destruct ((nlmsg_type m h =? RTM_NEWADDR) || (nlmsg_type m h =? RTM_DELADDR));
    cbn [orb fst snd].
  { split; [apply nl_parse_addr_async_events | split; [reflexivity |]].
    discriminate. }
  split; [constructor | split; reflexivity].
Qed.

End RouteTranslator.

Lemma nl_parse_route_delivered_witness :
  let m := sample_own_blackhole in
  let e := mk_rte (mk_net 0xC0000200 24)
             (mk_rta RTS_INHERIT SCOPE_UNIVERSE RTC_UNICAST RTD_BLACKHOLE
                0 0 0 IPA_NONE IPA_NONE None)
             KRT_SRC_BIRD in
  In e (delivered (nl_parse_route no_interfaces no_neighbors [] m 0 true).1)
  /\ rtm_family m (NLMSG_DATA 0) = AF_INET
  /\ rtm_table m (NLMSG_DATA 0) = RT_TABLE_MAIN
  /\ rtm_tos m (NLMSG_DATA 0) = 0.
Proof.
  intros m e.
  assert (H1 : In e (delivered (nl_parse_route no_interfaces no_neighbors []
                                  m 0 true).1))
    by (vm_compute; left; reflexivity).
  split; [exact H1 |].
  destruct (nl_parse_route_delivered no_interfaces no_neighbors [] m 0 true
              e H1) as (H2 & H3 & H4 & _).
  auto.
Defined.

(** ** The temporary interfaces *)

Lemma c_string_strcpy (dst src : list byte) :
  c_string (strcpy dst src) = c_string src.
Proof.
  unfold strcpy. rewrite <- app_assoc.
  generalize (drop (length (c_string src ++ [Byte.x00])) dst). intros rest.
  change ([Byte.x00] ++ rest) with (Byte.x00 :: rest).
  induction src as [|b src IH]; [reflexivity |].
  simpl. destruct (Byte.eqb b Byte.x00) eqn:Hb; [reflexivity |].
  simpl. rewrite Hb. now rewrite IH.
Qed.

Lemma find_app_none {A : Type} (f : A -> bool) (l l' : list A) :
  List.find f l = None -> List.find f (l ++ l') = List.find f l'.
Proof.
  induction l as [|x l IH]; [reflexivity |].
  simpl. destruct (f x); [discriminate | exact IH].
Qed.

Lemma krt_temp_iface_index (if_find_by_index : Z -> option iface)
  (temp_ifs : list iface) (index : Z) :
  if_index (krt_temp_iface if_find_by_index temp_ifs index).1 = index.
Proof.
  unfold krt_temp_iface.
  destruct (List.find _ temp_ifs) as [i|] eqn:Hf; [| reflexivity].
  apply find_some in Hf as [_ Hf]. now apply Z.eqb_eq in Hf.
Qed.

(** X10.  [krt_temp_iface] returns an entry of the list it leaves behind,
    with the index asked for; the list is the old one, or the old one with
    that entry added at its tail; and asking again for the same index
    returns the same entry and leaves the list alone. *)
Theorem krt_temp_iface_stable (if_find_by_index : Z -> option iface)
  (temp_ifs : list iface) (index : Z) :
  let r := krt_temp_iface if_find_by_index temp_ifs index in
  if_index r.1 = index
  /\ In r.1 r.2
  /\ (r.2 = temp_ifs \/ r.2 = temp_ifs ++ [r.1])
  /\ krt_temp_iface if_find_by_index r.2 index = r.
Proof.
  intros r. split; [apply krt_temp_iface_index |].
  subst r. unfold krt_temp_iface.
  destruct (List.find _ temp_ifs) as [i|] eqn:Hf; cbn [fst snd].
  - rewrite Hf. pose proof (find_some _ _ Hf) as [Hin _]. auto.
  - split; [apply in_or_app; right; left; reflexivity |].
    split; [right; reflexivity |].
    rewrite (find_app_none _ _ _ Hf). cbn [List.find if_index set_if_index].
    now rewrite Z.eqb_refl.
Qed.

(** X11.  The temporary interfaces keep distinct indices: if no two entries
    of the list share an index before a call of [krt_temp_iface], none do
    after it, and the entries that were there stay, in their order. *)
Theorem krt_temp_iface_nodup (if_find_by_index : Z -> option iface)
  (temp_ifs : list iface) (index : Z) :
  List.NoDup (map if_index temp_ifs) ->
  let r := krt_temp_iface if_find_by_index temp_ifs index in
  List.NoDup (map if_index r.2) /\ take (length temp_ifs) r.2 = temp_ifs.
Proof.
  intros Hnd r. subst r. unfold krt_temp_iface.
  destruct (List.find _ temp_ifs) as [i|] eqn:Hf; cbn [fst snd].
  - split; [exact Hnd | apply firstn_all].
  - split; [| now rewrite take_app_length].
    rewrite map_app. cbn [map if_index set_if_index].
    apply NoDup_ListNoDup, NoDup_app. rewrite NoDup_ListNoDup.
    split; [exact Hnd | split; [| apply NoDup_singleton]].
    intros x Hx Hx'. apply list_elem_of_singleton in Hx'. subst x.
    apply list_elem_of_In, in_map_iff in Hx as (j & Hj & Hin).
    pose proof (find_none _ _ Hf j Hin) as Hne. cbv beta in Hne.
    apply Z.eqb_neq in Hne. contradiction.
Qed.

Lemma krt_temp_iface_nodup_witness :
  List.NoDup (map if_index [sample_if_2; sample_if_3])
  /\ List.NoDup
       (map if_index
          (krt_temp_iface sample_if_table [sample_if_2; sample_if_3] 7).2)
  /\ take 2 (krt_temp_iface sample_if_table [sample_if_2; sample_if_3] 7).2
     = [sample_if_2; sample_if_3].
Proof.
  assert (H1 : List.NoDup (map if_index [sample_if_2; sample_if_3])).
  { apply NoDup_ListNoDup. vm_compute.
    apply NoDup_cons; split; [| apply NoDup_singleton].
    intros H. apply list_elem_of_singleton in H. discriminate H. }
  split; [exact H1 |].
  exact (krt_temp_iface_nodup sample_if_table [sample_if_2; sample_if_3] 7 H1).
Defined.

(** X12.  For an index that is not among the temporary interfaces,
    [krt_temp_iface] adds an entry at the tail of the list: its name is
    that of the interface of the daemon's table with this index, or ? if
    the table has none, and every other member but the index is zero. *)
Theorem krt_temp_iface_new (if_find_by_index : Z -> option iface)
  (temp_ifs : list iface) (index : Z) :
  (forall i : iface, In i temp_ifs -> if_index i <> index) ->
  let r := krt_temp_iface if_find_by_index temp_ifs index in
  r.2 = temp_ifs ++ [r.1]
  /\ if_index r.1 = index
  /\ c_string (if_name r.1)
     = match if_find_by_index index with
       | Some j => c_string (if_name j)
       | None => [Byte.x3f]
       end
  /\ set_if_name (set_if_index r.1 0) [] = set_if_name iface_zero [].
Proof.
  intros Hnew r. subst r. unfold krt_temp_iface.
  destruct (List.find _ temp_ifs) as [i|] eqn:Hf.
  { apply find_some in Hf as [Hin Hf]. apply Z.eqb_eq in Hf.
    now apply Hnew in Hin. }
  cbn [fst snd]. split; [reflexivity | split; [reflexivity |]].
  destruct (if_find_by_index index); cbn [if_name set_if_name set_if_index].
  - rewrite c_string_strcpy. auto.
  - auto.
Qed.

Lemma krt_temp_iface_new_witness :
  (forall i : iface, In i [sample_if_2] -> if_index i <> 7)
  /\ (krt_temp_iface sample_if_table [sample_if_2] 7).2
     = [sample_if_2;
        mk_iface ([Byte.x3f] ++ zeros 15) 0 0 7 0 0 0 0 0].
Proof.
  assert (H1 : forall i : iface, In i [sample_if_2] -> if_index i <> 7).
  { intros i [<- | []]. vm_compute. discriminate. }
  split; [exact H1 |].
  destruct (krt_temp_iface_new sample_if_table [sample_if_2] 7 H1)
    as (H2 & _).
  rewrite H2. vm_compute. reflexivity.
Defined.

(** ** Attributes stay inside the frame *)

Lemma NLMSG_ALIGN_small (n : Z) :
  0 <= n < 2 ^ 32 - 3 -> NLMSG_ALIGN n = 4 * ((n + 3) / 4).
Proof.
  intros Hn. unfold NLMSG_ALIGN, NLMSG_ALIGNTO, u32. simpl (4 - 1).
  replace (n + 4 - 1) with (n + 3) by lia. rewrite align4_eq.
  apply Z.mod_small. Z.div_mod_to_equations. lia.
Qed.

Lemma int32_small (x : Z) : - 2 ^ 31 <= x < 2 ^ 31 -> int32 x = x.
Proof. intros H. unfold int32. rewrite Z.mod_small by lia. lia. Qed.

Lemma int32_bound (x : Z) : - 2 ^ 31 <= int32 x < 2 ^ 31.
Proof.
  unfold int32. pose proof (Z.mod_pos_bound (x + 2 ^ 31) (2 ^ 32)). lia.
Qed.

(** X13.  [nl_checkin] hands out the body exactly when the frame's length
    field covers the header and the fixed part of the body (and is not so
    large that the difference, an [int], turns negative); the length it
    leaves in [nl_attr_len] is then what the frame has behind the fixed
    part, nothing is logged, and the body starts right behind the header.
    Otherwise it logs the underrun and returns null. *)
Theorem nl_checkin_accepts (m : mem) (h lsize : Z) :
  0 <= lsize < 2 ^ 31 - 16 ->
  let r := nl_checkin m h lsize in
  if (lsize + 16 <=? nlmsg_len m h) && (nlmsg_len m h <? lsize + 16 + 2 ^ 31)
  then r = ([], (Some (h + 16), nlmsg_len m h - (lsize + 16)))
  else r.1 = [Log L_ERR underrun_msg] /\ r.2.1 = None.
Proof.
  intros Hl r. subst r. unfold nl_checkin, underrun_msg.
  pose proof (load_bound 4 m h) as Hb. fold (nlmsg_len m h) in Hb.
  change (2 ^ (8 * Z.of_nat 4)) with (2 ^ 32) in Hb.
  change (NLMSG_LENGTH lsize) with (lsize + 16).
  change (NLMSG_DATA h) with (h + 16).
  destruct (lsize + 16 <=? nlmsg_len m h) eqn:H1; cbn [andb].
  - apply Z.leb_le in H1.
    destruct (nlmsg_len m h <? lsize + 16 + 2 ^ 31) eqn:H2.
    + apply Z.ltb_lt in H2. rewrite int32_small by lia.
      replace (_ <? 0) with false by (symmetry; apply Z.ltb_ge; lia).
      reflexivity.
    + apply Z.ltb_ge in H2.
      replace (int32 (nlmsg_len m h - (lsize + 16)))
        with (nlmsg_len m h - (lsize + 16) - 2 ^ 32).
      2:{ unfold int32.
          replace (nlmsg_len m h - (lsize + 16) + 2 ^ 31)
            with (nlmsg_len m h - (lsize + 16) - 2 ^ 31 + 1 * 2 ^ 32) by lia.
          rewrite Z.mod_add by lia. rewrite Z.mod_small by lia. lia. }
      replace (_ <? 0) with true by (symmetry; apply Z.ltb_lt; lia).
      auto.
  - apply Z.leb_gt in H1. rewrite int32_small by lia.
    replace (_ <? 0) with true by (symmetry; apply Z.ltb_lt; lia).
    auto.
Qed.

Lemma nl_checkin_accepts_witness :
  0 <= sizeof_rtmsg < 2 ^ 31 - 16
  /\ nl_checkin sample_own_blackhole 0 sizeof_rtmsg = ([], (Some 16, 8)).
Proof.
  assert (H1 : 0 <= sizeof_rtmsg < 2 ^ 31 - 16)
    by (change (0 <= 12 < 2 ^ 31 - 16); lia).
  split; [exact H1 |].
  exact (nl_checkin_accepts sample_own_blackhole 0 sizeof_rtmsg H1).
Defined.

(** Every attribute of the walk lies inside the region, with its header. *)
Lemma rta_walk_in_region (m : mem) :
  forall (n : nat) (a len q : Z),
    (Z.to_nat len < n)%nat -> len < 2 ^ 31 ->
    q ∈ (rta_walk m a len).1 ->
    a <= q /\ 4 <= rta_len m q /\ q + rta_len m q <= a + len.
Proof.
  induction n as [|n IH]; intros a len q Hn Hlen Hq; [lia |].
  rewrite rta_walk_eq in Hq.
  destruct (RTA_OK m a len) eqn:Hok; [| apply elem_of_nil in Hq; contradiction].
  pose proof (RTA_NEXT_decreases m a len Hok) as Hdec.
  apply RTA_OK_true in Hok. cbn [fst] in Hq.
  apply elem_of_cons in Hq as [-> | Hq]; [lia |].
  unfold RTA_NEXT in Hq, Hdec. cbn [fst snd] in Hq, Hdec.
  pose proof (RTA_ALIGN_eq (rta_len m a)) as Hal.
  assert (Hal' : rta_len m a <= RTA_ALIGN (rta_len m a) <= rta_len m a + 3)
    by (rewrite Hal; Z.div_mod_to_equations; lia).
  rewrite (int32_small (len - RTA_ALIGN (rta_len m a))) in Hq, Hdec by lia.
  apply IH in Hq; [lia | lia | lia].
Qed.

Lemma nl_parse_attrs_attr (m : mem) (a len ksize c : Z) :
  0 <= c < ksize / sizeof_ptr ->
  attr (nl_parse_attrs m a len ksize).2.1 c
  = last (filter (fun p => rta_type m p = c) (rta_walk m a len).1).
Proof.
  intros Hc. unfold nl_parse_attrs.
  rewrite (nl_parse_attrs_loop_walk m _ (S (Z.to_nat len))) by lia.
  destruct ((rta_walk m a len).2 =? 0); simpl.
  all: rewrite attr_fold_table_put by (rewrite ?length_replicate; lia).
  all: destruct (last _); [reflexivity |].
  all: unfold attr; rewrite lookup_replicate_2 by lia; reflexivity.
Qed.

Lemma nl_parse_attrs_length (m : mem) (a len ksize : Z) :
  length (nl_parse_attrs m a len ksize).2.1 = Z.to_nat (ksize / sizeof_ptr).
Proof.
  unfold nl_parse_attrs.
  rewrite (nl_parse_attrs_loop_walk m _ (S (Z.to_nat len))) by lia.
  assert (H : forall l k, length (fold_left (table_put m (ksize / sizeof_ptr)) l k)
                          = length k).
  { induction l as [|p l IH]; intros k; [reflexivity |].
    simpl. now rewrite IH, table_put_length. }
  destruct (_ =? 0); simpl; now rewrite H, length_replicate.
Qed.

Lemma last_filter_elem {A : Type} (P : A -> Prop) `{!forall x, Decision (P x)}
  (l : list A) (x : A) :
  last (filter P l) = Some x -> x ∈ l /\ P x.
Proof.
  intros Hl. apply last_Some in Hl as [l' Hl].
  assert (Hx : x ∈ filter P l) by (rewrite Hl; apply elem_of_app; right; left).
  apply list_elem_of_filter in Hx. tauto.
Qed.

Lemma nl_parse_attrs_entry (m : mem) (a len ksize c p : Z) :
  0 <= c -> len < 2 ^ 31 ->
  attr (nl_parse_attrs m a len ksize).2.1 c = Some p ->
  c < ksize / sizeof_ptr
  /\ rta_type m p = c
  /\ a <= p /\ 4 <= rta_len m p /\ p + rta_len m p <= a + len.
Proof.
  intros Hc Hlen Hp.
  assert (Hk : c < ksize / sizeof_ptr).
  { destruct (Z.lt_ge_cases c (ksize / sizeof_ptr)) as [H | H]; [exact H |].
    exfalso. unfold attr in Hp.
    rewrite lookup_ge_None_2 in Hp; [discriminate |].
    rewrite nl_parse_attrs_length. lia. }
  split; [exact Hk |].
  rewrite nl_parse_attrs_attr in Hp by lia.
  apply last_filter_elem in Hp as [Hin Hty].
  split; [exact Hty |].
  apply (rta_walk_in_region m (S (Z.to_nat len))); [lia | exact Hlen | exact Hin].
Qed.

(** X14.  A pointer [nl_parse_attrs] leaves in slot [c] of the table points
    to an attribute of code [c] that lies, header and payload, inside the
    region it was given; slots from the table's bound on stay null. *)
Theorem nl_parse_attrs_in_region (m : mem) (a len ksize c p : Z) :
  0 <= c -> len < 2 ^ 31 ->
  attr (nl_parse_attrs m a len ksize).2.1 c = Some p ->
  c < ksize / sizeof_ptr
  /\ rta_type m p = c
  /\ a <= p
  /\ sizeof_rtattr <= rta_len m p
  /\ p + rta_len m p <= a + len
  /\ RTA_DATA p + RTA_PAYLOAD m p <= a + len.
Proof.
  intros Hc Hlen Hp.
  destruct (nl_parse_attrs_entry m a len ksize c p Hc Hlen Hp)
    as (H1 & H2 & H3 & H4 & H5).
  unfold sizeof_rtattr, RTA_DATA, RTA_PAYLOAD.
  change (RTA_LENGTH 0) with 4.
  repeat split; try assumption. lia.
Qed.

Lemma nl_parse_attrs_in_region_witness :
  0 <= 1 /\ 16 < 2 ^ 31
  /\ attr (nl_parse_attrs twice_code_1 0 16 (sizeof_ptr * 13)).2.1 1 = Some 8
  /\ rta_type twice_code_1 8 = 1
  /\ 8 + rta_len twice_code_1 8 <= 0 + 16.
Proof.
  assert (H1 : 0 <= 1) by lia.
  assert (H2 : 16 < 2 ^ 31) by reflexivity.
  assert (H3 : attr (nl_parse_attrs twice_code_1 0 16 (sizeof_ptr * 13)).2.1 1
               = Some 8) by (vm_compute; reflexivity).
  split; [exact H1 | split; [exact H2 | split; [exact H3 |]]].
  destruct (nl_parse_attrs_in_region twice_code_1 0 16 (sizeof_ptr * 13) 1 8
              H1 H2 H3) as (_ & H4 & _ & _ & H5 & _).
  auto.
Defined.

Lemma int32_nonneg (x : Z) :
  - 2 ^ 31 <= x < 2 ^ 32 -> 0 <= int32 x -> int32 x = x.
Proof.
  intros Hx Hpos.
  destruct (Z.lt_ge_cases x (2 ^ 31)) as [H | H]; [apply int32_small; lia |].
  exfalso. unfold int32 in Hpos.
  replace (x + 2 ^ 31) with (x - 2 ^ 31 + 1 * 2 ^ 32) in Hpos by lia.
  rewrite Z.mod_add, Z.mod_small in Hpos by lia. lia.
Qed.

(** The region a translator hands to [nl_parse_attrs] once [nl_checkin] has
    accepted the frame ends where the frame ends. *)
Lemma checked_attr_in_frame (m : mem) (h lsize ksize c p : Z) :
  0 <= lsize < 2 ^ 31 - 16 ->
  (int32 (nlmsg_len m h - NLMSG_LENGTH lsize) <? 0) = false ->
  0 <= c ->
  attr (nl_parse_attrs m (NLMSG_DATA h + lsize)
          (int32 (nlmsg_len m h - NLMSG_LENGTH lsize)) ksize).2.1 c = Some p ->
  rta_type m p = c
  /\ NLMSG_DATA h + lsize <= p
  /\ 4 <= rta_len m p
  /\ p + rta_len m p <= h + nlmsg_len m h.
Proof.
  intros Hl Hchk Hc Hp. apply Z.ltb_ge in Hchk.
  pose proof (load_bound 4 m h) as Hb. fold (nlmsg_len m h) in Hb.
  change (2 ^ (8 * Z.of_nat 4)) with (2 ^ 32) in Hb.
  pose proof (int32_bound (nlmsg_len m h - NLMSG_LENGTH lsize)) as Hi.
  apply nl_parse_attrs_entry in Hp as (_ & H2 & H3 & H4 & H5); [| lia | lia].
  rewrite int32_nonneg in H5;
    [| change (NLMSG_LENGTH lsize) with (lsize + 16); lia | lia].
  change (NLMSG_LENGTH lsize) with (lsize + 16) in H5.
  change (NLMSG_DATA h) with (h + 16) in *.
  repeat split; try assumption. lia.
Qed.

Lemma nl_route_filters_checkin (m : mem) (h : Z) (scan : bool)
  (evs : list event) (i : Z) (a : list (option Z)) :
  nl_route_filters m h scan = (evs, Some (i, a)) ->
  (int32 (nlmsg_len m h - NLMSG_LENGTH sizeof_rtmsg) <? 0) = false.
Proof. unfold nl_route_filters. intros H. tr_cases. reflexivity. Qed.

Lemma nl_addr_filters_checkin (m : mem) (h : Z) (evs : list event) (i : Z)
  (a : list (option Z)) :
  nl_addr_filters m h = (evs, Some (i, a)) ->
  (int32 (nlmsg_len m h - NLMSG_LENGTH sizeof_ifaddrmsg) <? 0) = false
  /\ a = addr_table m h
  /\ (forall p : Z, attr a IFA_ADDRESS = Some p -> RTA_PAYLOAD m p = 4)
  /\ (forall p : Z, attr a IFA_LOCAL = Some p -> RTA_PAYLOAD m p = 4)
  /\ (forall p : Z, attr a IFA_BROADCAST = Some p -> RTA_PAYLOAD m p = 4).
Proof.
  unfold nl_addr_filters, addr_table. intros H. tr_cases.
  all: repeat match goal with
         | H : _ || _ = false |- _ => apply orb_false_elim in H as [? ?]
         end.
  all: repeat match goal with
         | H : (nl_parse_attrs _ _ _ _).2 = _ |- _ => rewrite H in *; clear H
         end; cbn [fst snd].
  all: unfold nonnull_and, null_or in *.
  all: do 2 (split; [reflexivity |]).
  all: repeat split; intros p Hp.
  all: match goal with
       | H : match attr _ ?c with Some _ => _ | None => _ end = false,
         Hp : attr _ ?c = Some _ |- _ =>
           rewrite Hp in H; apply negb_false_iff, Z.eqb_eq in H; exact H
       end.
Qed.

(** X15.  For a route frame that passes the checks every attribute in the
    table lies inside the frame, behind the header and the [rtmsg], and has
    the code of its slot; the four bytes [nl_parse_route] reads from a DST,
    OIF or GATEWAY attribute are the attribute's payload and end inside the
    frame. *)
Theorem nl_parse_route_reads_in_frame (m : mem) (h : Z) (scan : bool)
  (evs : list event) (i : Z) (a : list (option Z)) (c p : Z) :
  nl_route_filters m h scan = (evs, Some (i, a)) ->
  0 <= c ->
  attr a c = Some p ->
  rta_type m p = c
  /\ h + sizeof_nlmsghdr + sizeof_rtmsg <= p
  /\ p + rta_len m p <= h + nlmsg_len m h
  /\ (c = RTA_DST \/ c = RTA_OIF \/ c = RTA_GATEWAY ->
      RTA_PAYLOAD m p = 4 /\ RTA_DATA p + 4 <= h + nlmsg_len m h).
Proof.
  intros Hfil Hc Hp.
  pose proof (nl_route_filters_checkin _ _ _ _ _ _ Hfil) as Hchk.
  destruct (nl_route_filters_table _ _ _ _ _ _ Hfil) as (-> & Hd & Ho & Hg).
  pose proof Hp as Hp'. unfold route_table in Hp'.
  apply (checked_attr_in_frame m h sizeof_rtmsg) in Hp'
      as (H1 & H2 & H3 & H4);
    [| change (0 <= 12 < 2 ^ 31 - 16); lia | exact Hchk | exact Hc].
  change (NLMSG_DATA h + sizeof_rtmsg) with (h + 16 + 12) in H2.
  change (h + sizeof_nlmsghdr + sizeof_rtmsg) with (h + 16 + 12).
  repeat split; try assumption.
  all: destruct H as [-> | [-> | ->]]; auto.
  all: unfold RTA_DATA; change (RTA_LENGTH 0) with 4.
  1: pose proof (Hd p Hp) as Hpay.
  2: pose proof (Ho p Hp) as Hpay.
  3: pose proof (Hg p Hp) as Hpay.
  all: unfold RTA_PAYLOAD in Hpay; change (RTA_LENGTH 0) with 4 in Hpay; lia.
Qed.

Lemma nl_parse_route_reads_in_frame_witness :
  let m := sample_route_via_gw in
  nl_route_filters m 0 true = ([], Some (16, sample_route_via_gw_table))
  /\ 0 <= RTA_GATEWAY
  /\ attr sample_route_via_gw_table RTA_GATEWAY = Some 36
  /\ nlmsg_len m 0 = 52
  /\ RTA_DATA 36 + 4 <= 0 + nlmsg_len m 0.
Proof.
  intros m.
  assert (H1 : nl_route_filters m 0 true
               = ([], Some (16, sample_route_via_gw_table)))
    by (vm_compute; reflexivity).
  assert (H2 : 0 <= RTA_GATEWAY) by (vm_compute; discriminate).
  assert (H3 : attr sample_route_via_gw_table RTA_GATEWAY = Some 36)
    by (vm_compute; reflexivity).
  split; [exact H1 | split; [exact H2 | split; [exact H3 |]]].
  split; [vm_compute; reflexivity |].
  destruct (nl_parse_route_reads_in_frame m 0 true [] 16
              sample_route_via_gw_table RTA_GATEWAY 36 H1 H2 H3)
    as (_ & _ & _ & H4).
  exact (proj2 (H4 (or_intror (or_intror eq_refl)))).
Defined.

(** X16.  For an address frame that passes the checks every attribute in
    the table lies inside the frame, behind the header and the
    [ifaddrmsg], and has the code of its slot; the four bytes
    [nl_parse_addr] reads from an ADDRESS, a LOCAL or a BROADCAST
    attribute are the attribute's payload and end inside the frame. *)
Theorem nl_parse_addr_reads_in_frame (m : mem) (h : Z) (evs : list event)
  (i : Z) (a : list (option Z)) (c p : Z) :
  nl_addr_filters m h = (evs, Some (i, a)) ->
  0 <= c ->
  attr a c = Some p ->
  rta_type m p = c
  /\ h + sizeof_nlmsghdr + sizeof_ifaddrmsg <= p
  /\ p + rta_len m p <= h + nlmsg_len m h
  /\ (c = IFA_ADDRESS \/ c = IFA_LOCAL \/ c = IFA_BROADCAST ->
      RTA_PAYLOAD m p = 4 /\ RTA_DATA p + 4 <= h + nlmsg_len m h).
Proof.
  intros Hfil Hc Hp.
  destruct (nl_addr_filters_checkin _ _ _ _ _ Hfil)
    as (Hchk & -> & Ha & Hl & Hb).
  pose proof Hp as Hp'. unfold addr_table in Hp'.
  apply (checked_attr_in_frame m h sizeof_ifaddrmsg) in Hp'
      as (H1 & H2 & H3 & H4);
    [| change (0 <= 8 < 2 ^ 31 - 16); lia | exact Hchk | exact Hc].
  change (NLMSG_DATA h + sizeof_ifaddrmsg) with (h + 16 + 8) in H2.
  change (h + sizeof_nlmsghdr + sizeof_ifaddrmsg) with (h + 16 + 8).
  repeat split; try assumption.
  all: assert (Hpay : RTA_PAYLOAD m p = 4)
    by (destruct H as [-> | [-> | ->]]; auto).
  all: try exact Hpay.
  unfold RTA_DATA, RTA_PAYLOAD in *. change (RTA_LENGTH 0) with 4 in *. lia.
Qed.

Lemma nl_parse_addr_reads_in_frame_witness :
  let m := sample_newaddr 24 0 2 0x0A000001 in
  nl_addr_filters m 0 = ([], Some (16, sample_newaddr_table))
  /\ 0 <= IFA_LOCAL
  /\ attr sample_newaddr_table IFA_LOCAL = Some 32
  /\ nlmsg_len m 0 = 48
  /\ RTA_DATA 32 + 4 <= 0 + nlmsg_len m 0.
Proof.
  intros m.
  assert (H1 : nl_addr_filters m 0 = ([], Some (16, sample_newaddr_table)))
    by (vm_compute; reflexivity).
  assert (H2 : 0 <= IFA_LOCAL) by (vm_compute; discriminate).
  assert (H3 : attr sample_newaddr_table IFA_LOCAL = Some 32)
    by (vm_compute; reflexivity).
  split; [exact H1 | split; [exact H2 | split; [exact H3 |]]].
  split; [vm_compute; reflexivity |].
  destruct (nl_parse_addr_reads_in_frame m 0 [] 16 sample_newaddr_table
              IFA_LOCAL 32 H1 H2 H3) as (_ & _ & _ & H4).
  exact (proj2 (H4 (or_intror (or_introl eq_refl)))).
Defined.

(** ** Replies that are returned *)

Lemma nl_recv_go (st st1 : nl_state) :
  nl_recv st = RfGo st1 \/ nl_recv st = RfAgain st1 ->
  nl_sync_seq st1 = nl_sync_seq st
  /\ sk_tx_ok st1 = sk_tx_ok st
  /\ sk_outbox st1 = sk_outbox st
  /\ trace st1 = trace st
  /\ (exists ev, sk_inbox st = ev :: sk_inbox st1)
  /\ (nl_recv st = RfGo st1 -> nl_last_hdr st1 = Some 0).
Proof.
  unfold nl_recv. intros H.
  destruct (sk_inbox st) as [|[|pid data] rest] eqn:Hin;
    [destruct H; discriminate | destruct H; discriminate |].
  destruct (negb (pid =? 0));
    [| destruct (NL_RX_SIZE <? length data)%nat].
  all: destruct H as [H | H]; try discriminate H.
  all: injection H as <-; simpl; repeat split; eauto.
  all: discriminate.
Qed.

(** One look at the frame under the cursor: it is returned, or it is stale
    and stays under the cursor, or the cursor is emptied. *)
Lemma nl_reply_step_cases (st : nl_state) (h0 : Z) :
  nl_last_hdr st = Some h0 ->
  match nl_reply_step st with
  | inl (o, st2) =>
      o = Ok h0
      /\ NLMSG_OK (nl_rx_buffer st) h0 (nl_last_size st) = true
      /\ nlmsg_seq (nl_rx_buffer st) h0 = nl_sync_seq st
      /\ st2 = set_last_size
                 (set_last st
                    (Some (h0 + NLMSG_ALIGN (nlmsg_len (nl_rx_buffer st) h0))))
                 (u32 (nl_last_size st
                       - NLMSG_ALIGN (nlmsg_len (nl_rx_buffer st) h0)))
  | inr st1 =>
      stale_under_cursor st = true
      \/ (nl_last_hdr st1 = None
          /\ nl_sync_seq st1 = nl_sync_seq st
          /\ sk_tx_ok st1 = sk_tx_ok st
          /\ sk_outbox st1 = sk_outbox st
          /\ sk_inbox st1 = sk_inbox st
          /\ nl_rx_buffer st1 = nl_rx_buffer st
          /\ exists n : nat,
               trace st1 = trace st ++ replicate n (Log L_WARN remnant_warning))
  end.
Proof.
  intros Hh. unfold nl_reply_step, stale_under_cursor. rewrite Hh. simpl.
  destruct (NLMSG_OK _ _ _) eqn:Hok.
  - destruct (_ =? nl_sync_seq st) eqn:Hs; simpl.
    + apply Z.eqb_eq in Hs. auto.
    + left. reflexivity.
  - right. destruct (negb (nl_last_size st =? 0)); simpl.
    + repeat split. exists 1%nat. reflexivity.
    + repeat split. exists 0%nat. now rewrite app_nil_r.
Qed.

(** A call of [nl_get_reply] that returns: the frame returned is complete
    and carries the sequence number of the last request, the cursor is
    behind it, and the call has logged nothing but remnants. *)
Lemma nl_get_reply_returns (fuel : nat) :
  forall (st st2 : nl_state) (h : Z),
    nl_get_reply fuel st = (Ok h, st2) ->
    nl_sync_seq st2 = nl_sync_seq st
    /\ sk_tx_ok st2 = sk_tx_ok st
    /\ sk_outbox st2 = sk_outbox st
    /\ nlmsg_seq (nl_rx_buffer st2) h = nl_sync_seq st
    /\ sizeof_nlmsghdr <= nlmsg_len (nl_rx_buffer st2) h
    /\ nl_last_hdr st2
       = Some (h + NLMSG_ALIGN (nlmsg_len (nl_rx_buffer st2) h))
    /\ (exists n : nat,
          trace st2 = trace st ++ replicate n (Log L_WARN remnant_warning))
    /\ (exists consumed : list rx_event,
          sk_inbox st = consumed ++ sk_inbox st2).
Proof.
  induction fuel as [|fuel IH]; intros st st2 h Hrun; [discriminate |].
  assert (Hstep : forall st1 : nl_state,
             is_Some (nl_last_hdr st1) ->
             match nl_reply_step st1 with
             | inl r => r
             | inr st => nl_get_reply fuel st
             end = (Ok h, st2) ->
             nl_sync_seq st2 = nl_sync_seq st1
             /\ sk_tx_ok st2 = sk_tx_ok st1
             /\ sk_outbox st2 = sk_outbox st1
             /\ nlmsg_seq (nl_rx_buffer st2) h = nl_sync_seq st1
             /\ sizeof_nlmsghdr <= nlmsg_len (nl_rx_buffer st2) h
             /\ nl_last_hdr st2
                = Some (h + NLMSG_ALIGN (nlmsg_len (nl_rx_buffer st2) h))
             /\ (exists n : nat,
                   trace st2
                   = trace st1 ++ replicate n (Log L_WARN remnant_warning))
             /\ (exists consumed : list rx_event,
                   sk_inbox st1 = consumed ++ sk_inbox st2)).
  { intros st1 [h0 Hh0] H.
    pose proof (nl_reply_step_cases st1 h0 Hh0) as Hc.
    destruct (nl_reply_step st1) as [[o st']|st'] eqn:Hrs.
    - destruct Hc as (-> & Hok & Hseq & ->). injection H as <- <-.
      apply NLMSG_OK_true in Hok. unfold sizeof_nlmsghdr. simpl.
      repeat split; try assumption; try lia.
      + exists 0%nat. now rewrite app_nil_r.
      + now exists [].
    - destruct Hc as [Hstale | (Hn & Hs & Ht & Ho & Hi & Hb & (n & Htr))].
      + pose proof (nl_reply_step_stale st1 Hstale) as [Hst' Hstale'].
        rewrite Hst' in Hrs. injection Hrs as <-.
        rewrite (nl_get_reply_stale fuel _ Hstale') in H.
        discriminate H.
      + apply IH in H as (H1 & H2 & H3 & H4 & H5 & H6 & (n' & H7) & H8).
        rewrite Hs in H1, H4. rewrite Ht in H2. rewrite Ho in H3.
        rewrite Hi in H8. rewrite Htr in H7.
        repeat split; try assumption.
        exists (n + n')%nat. rewrite H7, <- app_assoc.
        now rewrite replicate_add. }
  simpl in Hrun.
  destruct (nl_last_hdr st) as [h0|] eqn:Hh0.
  { apply Hstep; [rewrite Hh0; eauto | exact Hrun]. }
  destruct (nl_recv st) as [o st1|st1|st1] eqn:Hrecv.
  - injection Hrun as -> ->. unfold nl_recv in Hrecv.
    repeat case_match; simplify_eq.
  - destruct (nl_recv_go st st1 (or_intror Hrecv))
      as (Hs & Ht & Ho & Htr & (ev & Hi) & _).
    apply IH in Hrun as (H1 & H2 & H3 & H4 & H5 & H6 & H7 & (c & H8)).
    rewrite Hs in H1, H4. rewrite Ht in H2. rewrite Ho in H3.
    rewrite Htr in H7. rewrite H8 in Hi.
    repeat split; try assumption. exists (ev :: c). exact Hi.
  - destruct (nl_recv_go st st1 (or_introl Hrecv))
      as (Hs & Ht & Ho & Htr & (ev & Hi) & Hcur).
    apply Hstep in Hrun as (H1 & H2 & H3 & H4 & H5 & H6 & H7 & (c & H8));
      [| rewrite (Hcur Hrecv); eauto].
    rewrite Hs in H1, H4. rewrite Ht in H2. rewrite Ho in H3.
    rewrite Htr in H7. rewrite H8 in Hi.
    repeat split; try assumption. exists (ev :: c). exact Hi.
Qed.

Lemma nl_error_cases (h : Z) (st : nl_state) :
  let r := nl_error h st in
  nl_sync_seq r.2 = nl_sync_seq st
  /\ nl_rx_buffer r.2 = nl_rx_buffer st
  /\ nl_last_hdr r.2 = nl_last_hdr st
  /\ sk_outbox r.2 = sk_outbox st
  /\ sk_inbox r.2 = sk_inbox st
  /\ ((r.1 = 0 /\ r.2 = st)
      \/ (r.1 <> 0 /\ exists ev : event,
                        error_warning ev /\ trace r.2 = trace st ++ [ev])).
Proof.
  unfold nl_error, error_warning. cbv zeta.
  destruct (_ <? _); cbn [fst snd].
  - repeat split. right. split; [discriminate | eauto].
  - destruct (_ =? 0) eqn:He; cbn [negb]; repeat split.
    + left. apply Z.eqb_eq in He. auto.
    + right. apply Z.eqb_neq in He. eauto.
Qed.

(** X17.  What [nl_get_scan] returns.  A frame it returns is a complete
    frame that carries the sequence number of the last request and is
    neither DONE nor ERROR.  It returns null only on a DONE or an ERROR
    frame with that sequence number, and an ERROR frame is passed to
    [nl_error], which logs at most one warning.  The call sends nothing
    and, apart from that warning, logs nothing but remnants. *)
Theorem nl_get_scan_returns (fuel : nat) (st st2 : nl_state)
  (r : option Z) :
  nl_get_scan fuel st = (Ok r, st2) ->
  nl_sync_seq st2 = nl_sync_seq st
  /\ sk_outbox st2 = sk_outbox st
  /\ exists (h : Z) (n : nat) (errs : list event),
       nlmsg_seq (nl_rx_buffer st2) h = nl_sync_seq st
       /\ sizeof_nlmsghdr <= nlmsg_len (nl_rx_buffer st2) h
       /\ trace st2
          = trace st ++ replicate n (Log L_WARN remnant_warning) ++ errs
       /\ Forall error_warning errs /\ (length errs <= 1)%nat
       /\ match r with
          | Some h' =>
              h' = h /\ errs = []
              /\ nlmsg_type (nl_rx_buffer st2) h <> NLMSG_DONE
              /\ nlmsg_type (nl_rx_buffer st2) h <> NLMSG_ERROR
          | None =>
              (nlmsg_type (nl_rx_buffer st2) h = NLMSG_DONE /\ errs = [])
              \/ nlmsg_type (nl_rx_buffer st2) h = NLMSG_ERROR
          end.
Proof.
  unfold nl_get_scan, and_then. intros H.
  destruct (nl_get_reply fuel st) as [[h| | | | |] st1] eqn:Hg;
    try discriminate H.
  apply nl_get_reply_returns in Hg
    as (H1 & _ & H3 & H4 & H5 & _ & (n & H7) & _).
  destruct (nlmsg_type (nl_rx_buffer st1) h =? NLMSG_DONE) eqn:Hd;
    [| destruct (nlmsg_type (nl_rx_buffer st1) h =? NLMSG_ERROR) eqn:He].
  - injection H as <- <-. apply Z.eqb_eq in Hd.
    repeat split; try assumption.
    exists h, n, []. rewrite app_nil_r. repeat split; auto.
  - injection H as <- <-. apply Z.eqb_eq in He.
    destruct (nl_error_cases h st1) as (E1 & E2 & _ & E4 & _ & E6).
    cbv zeta in *. rewrite E1, E2, E4.
    repeat split; try assumption.
    destruct E6 as [[_ ->] | (_ & ev & Hev & Htr)].
    + exists h, n, []. rewrite app_nil_r. repeat split; auto.
    + exists h, n, [ev]. rewrite Htr, H7, <- app_assoc.
      repeat split; auto.
  - injection H as <- <-. apply Z.eqb_neq in Hd, He.
    repeat split; try assumption.
    exists h, n, []. rewrite app_nil_r. repeat split; auto.
Qed.

Lemma nl_get_scan_returns_witness :
  let st := (nl_send leftover_request leftover_state).2 in
  nl_get_scan 1 st = (Ok None, (nl_get_scan 1 st).2)
  /\ nl_sync_seq (nl_get_scan 1 st).2 = nl_sync_seq st
  /\ sk_outbox (nl_get_scan 1 st).2 = sk_outbox st.
Proof.
  intros st.
  assert (H1 : nl_get_scan 1 st = (Ok None, (nl_get_scan 1 st).2))
    by (vm_compute; reflexivity).
  split; [exact H1 |].
  destruct (nl_get_scan_returns 1 st _ None H1) as (H2 & H3 & _).
  auto.
Defined.

Lemma nl_exchange_loop_returns (fuel : nat) :
  forall (st st2 : nl_state) (ec : Z),
    nl_exchange_loop fuel st = (Ok ec, st2) ->
    nl_sync_seq st2 = nl_sync_seq st
    /\ (exists h : Z,
          nlmsg_type (nl_rx_buffer st2) h = NLMSG_ERROR
          /\ nlmsg_seq (nl_rx_buffer st2) h = nl_sync_seq st
          /\ ec = (nl_error h st2).1)
    /\ (ec <> 0 ->
        exists ev : event, last (trace st2) = Some ev /\ error_warning ev).
Proof.
  induction fuel as [|fuel IH]; intros st st2 ec H; [discriminate |].
  cbn [nl_exchange_loop] in H. unfold and_then in H.
  destruct (nl_get_reply (S fuel) st) as [[h| | | | |] st1] eqn:Hg;
    try discriminate H.
  apply nl_get_reply_returns in Hg as (H1 & _ & _ & H4 & _).
  destruct (nlmsg_type (nl_rx_buffer st1) h =? NLMSG_ERROR) eqn:He.
  - apply Z.eqb_eq in He.
    destruct (nl_error_cases h st1) as (E1 & E2 & _ & _ & _ & E6).
    cbv zeta in *.
    destruct (nl_error h st1) as [ec' st'] eqn:Herr. injection H as <- <-.
    cbn [fst snd] in *. rewrite E1, E2.
    split; [exact H1 | split].
    + exists h. repeat split; try assumption.
      unfold nl_error in *. rewrite E2.
      repeat case_match; simplify_eq; reflexivity.
    + intros Hne. destruct E6 as [[? _] | (_ & ev & Hev & Htr)];
        [contradiction |].
      exists ev. rewrite Htr, last_snoc. auto.
  - apply IH in H as (I1 & (h' & I2 & I3 & I4) & I5).
    cbn [add_log nl_sync_seq] in I1, I3.
    split; [congruence | split; [| exact I5]].
    exists h'. repeat split; try assumption. congruence.
Qed.

(** X18.  A call of [nl_exchange] that returns has handed exactly one frame
    to [sendto], the caller's frame stamped with port 0 and the next
    sequence number and cut to its length; it has read replies up to an
    ERROR frame that carries this sequence number, and its value is what
    [nl_error] makes of that frame.  Whenever the value is not 0, the last
    line of the log is a warning of [nl_error]. *)
Theorem nl_exchange_returns (fuel : nat) (pkt : mem) (st st2 : nl_state)
  (ec : Z) :
  nl_exchange fuel pkt st = (Ok ec, st2) ->
  sk_outbox st2 = sk_outbox st ++ [stamped pkt (nl_sync_seq st)]
  /\ nl_sync_seq st2 = u32 (nl_sync_seq st + 1)
  /\ (exists h : Z,
        nlmsg_type (nl_rx_buffer st2) h = NLMSG_ERROR
        /\ nlmsg_seq (nl_rx_buffer st2) h = u32 (nl_sync_seq st + 1)
        /\ ec = (nl_error h st2).1)
  /\ (ec <> 0 ->
      exists ev : event, last (trace st2) = Some ev /\ error_warning ev).
Proof.
  unfold nl_exchange, and_then. intros H.
  destruct (nl_send pkt st) as [[fr| | | | |] st1] eqn:Hs; try discriminate H.
  pose proof (nl_exchange_loop_outbox fuel st1) as Hout.
  rewrite H in Hout. cbn [snd] in Hout.
  apply nl_exchange_loop_returns in H as (H1 & H2 & H3).
  unfold nl_send in Hs. cbn [sk_tx_ok set_seq] in Hs.
  destruct (sk_tx_ok st); [| discriminate Hs].
  injection Hs as <- <-.
  cbn [sk_outbox nl_sync_seq set_last add_sent set_seq] in *.
  repeat split; assumption.
Qed.

Lemma nl_exchange_returns_witness :
  let st := mk_nl_state 41 (zeros NL_RX_SIZE) None 0
              [RxDgram 0 (sample_frame NLMSG_ERROR 0 42 0
                            (le_split 4 (-17) ++ zeros 16))] [] true [] in
  let r := nl_exchange 1 leftover_request st in
  r = (Ok 17, r.2)
  /\ sk_outbox r.2 = [stamped leftover_request 41]
  /\ nl_sync_seq r.2 = 42
  /\ trace r.2 = [Log L_WARN "Netlink: %s"].
Proof.
  intros st r.
  assert (H1 : nl_exchange 1 leftover_request st = (Ok 17, r.2))
    by (vm_compute; reflexivity).
  split; [exact H1 |].
  destruct (nl_exchange_returns 1 leftover_request st r.2 17 H1)
    as (H2 & H3 & _).
  split; [exact H2 | split; [exact H3 | vm_compute; reflexivity]].
Defined.

(** ** Installing and withdrawing routes *)

Lemma void_state {A S : Type} (r : outcome A * S) : (void r).2 = r.2.
Proof. unfold void, and_then. now destruct r as [[] ?]. Qed.

Lemma nl_get_reply_tx_ok (fuel : nat) :
  forall st : nl_state, sk_tx_ok (nl_get_reply fuel st).2 = sk_tx_ok st.
Proof.
  induction fuel as [|fuel IH]; intros st; [reflexivity |].
  simpl. unfold nl_recv, nl_reply_step.
  repeat case_match; simplify_eq; simpl; rewrite ?IH; reflexivity.
Qed.

Lemma nl_exchange_loop_tx_ok (fuel : nat) :
  forall st : nl_state, sk_tx_ok (nl_exchange_loop fuel st).2 = sk_tx_ok st.
Proof.
  induction fuel as [|fuel IH]; intros st; [reflexivity |].
  cbn [nl_exchange_loop]. unfold and_then.
  pose proof (nl_get_reply_tx_ok (S fuel) st) as Hg.
  destruct (nl_get_reply (S fuel) st) as [[h| | | | |] st'];
    simpl in Hg; try exact Hg.
  destruct (_ =? NLMSG_ERROR).
  - unfold nl_error. repeat case_match; simplify_eq; simpl; exact Hg.
  - rewrite IH. exact Hg.
Qed.

(** The one frame [nl_send_route] sends for an emittable route. *)
Lemma nl_send_route_sends (fuel : nat) (e : rte) (new : bool) (buf : mem)
  (st : nl_state) :
  krt_capable e = true ->
  length buf = 128%nat ->
  (ra_dest (e_attrs e) = RTD_DEVICE -> is_Some (ra_iface (e_attrs e))) ->
  sk_tx_ok st = true ->
  sk_tx_ok (nl_send_route fuel e new buf st).2 = true
  /\ exists fr : mem,
       sk_outbox (nl_send_route fuel e new buf st).2 = sk_outbox st ++ [fr]
       /\ nlmsg_type fr 0 = (if new then RTM_NEWROUTE else RTM_DELROUTE)
       /\ nlmsg_flags fr 0
          = Z.lor (Z.lor NLM_F_REQUEST NLM_F_ACK)
              (if new then Z.lor NLM_F_CREATE NLM_F_REPLACE else 0)
       /\ (frame_attrs fr).1 !! 0%nat
          = Some (RTA_DST, be32 (n_prefix (e_net e))).
Proof.
  intros Hcap Hlen Hdev Htx.
  destruct (nl_route_frame_attrs e new buf (u32 (nl_sync_seq st + 1))
              Hcap Hlen Hdev) as (r & Hr & Hty & Hfl & Hattrs).
  unfold nl_send_route. rewrite Hr.
  unfold nl_exchange, nl_send. cbn [sk_tx_ok set_seq]. rewrite Htx.
  cbn [and_then]. rewrite nl_exchange_loop_outbox, nl_exchange_loop_tx_ok.
  cbn [sk_outbox sk_tx_ok set_last add_sent set_seq nl_sync_seq].
  split; [exact Htx |].
  eexists. split; [reflexivity |].
  rewrite Hattrs, Hfl, Hty, !le_split_ipa_hton. auto.
Qed.

Section NotifyProperties.

Variable RTS_DEVICE : rta_source.
Variable IF_UP : Z.

Local Abbreviation set_notify := (krt_set_notify RTS_DEVICE IF_UP).

(** X19.  Device routes are left to the kernel, and so is the removal of a
    route whose interface is no longer up: when the new route is absent or
    a device route, and the old route is absent, a device route, or bound
    to an interface that is not up, [krt_set_notify] returns without a
    word to the kernel. *)
Theorem krt_set_notify_idle (fuel : nat) (new old : option rte)
  (buf_del buf_add : mem) (st : nl_state) :
  not_device RTS_DEVICE new = None ->
  match not_device RTS_DEVICE old with
  | Some o => iface_up_or_none IF_UP o = false
  | None => True
  end ->
  set_notify fuel new old buf_del buf_add st = (Ok tt, st).
Proof.
  unfold krt_set_notify. intros -> Hold.
  destruct (not_device RTS_DEVICE old) as [o|]; [| reflexivity].
  now rewrite Hold.
Qed.

(** X20.  A route that replaces another with the same TOS is installed with
    a single frame: a NEWROUTE with REQUEST | ACK | CREATE | REPLACE for
    the new route's prefix; no DELROUTE is sent for the old route. *)
Theorem krt_set_notify_replace (fuel : nat) (n o : rte)
  (buf_del buf_add : mem) (st : nl_state) :
  not_device RTS_DEVICE (Some o) = Some o ->
  not_device RTS_DEVICE (Some n) = Some n ->
  ra_tos (e_attrs o) = ra_tos (e_attrs n) ->
  krt_capable n = true ->
  length buf_add = 128%nat ->
  (ra_dest (e_attrs n) = RTD_DEVICE -> is_Some (ra_iface (e_attrs n))) ->
  sk_tx_ok st = true ->
  exists fr : mem,
    sk_outbox (set_notify fuel (Some n) (Some o) buf_del buf_add st).2
    = sk_outbox st ++ [fr]
    /\ nlmsg_type fr 0 = RTM_NEWROUTE
    /\ nlmsg_flags fr 0
       = Z.lor (Z.lor NLM_F_REQUEST NLM_F_ACK)
           (Z.lor NLM_F_CREATE NLM_F_REPLACE)
    /\ (frame_attrs fr).1 !! 0%nat = Some (RTA_DST, be32 (n_prefix (e_net n))).
Proof.
  intros Ho Hn Htos Hcap Hlen Hdev Htx.
  unfold krt_set_notify. rewrite Ho, Hn.
  apply Z.eqb_eq in Htos. rewrite Htos, void_state.
  destruct (nl_send_route_sends fuel n true buf_add st Hcap Hlen Hdev Htx)
    as (_ & fr & H1 & H2 & H3 & H4).
  exists fr. auto.
Qed.

(** X21.  When the TOS of the old and of the new route differs, the old
    route is withdrawn before the new one is installed: if the old route
    has no interface or one that is up and its withdrawal is answered, the
    kernel gets a DELROUTE for the old route and then a NEWROUTE for the
    new one. *)
Theorem krt_set_notify_del_add (fuel : nat) (n o : rte)
  (buf_del buf_add : mem) (st : nl_state) (ec : Z) :
  not_device RTS_DEVICE (Some o) = Some o ->
  not_device RTS_DEVICE (Some n) = Some n ->
  ra_tos (e_attrs o) <> ra_tos (e_attrs n) ->
  iface_up_or_none IF_UP o = true ->
  krt_capable o = true -> krt_capable n = true ->
  length buf_del = 128%nat -> length buf_add = 128%nat ->
  (ra_dest (e_attrs o) = RTD_DEVICE -> is_Some (ra_iface (e_attrs o))) ->
  (ra_dest (e_attrs n) = RTD_DEVICE -> is_Some (ra_iface (e_attrs n))) ->
  sk_tx_ok st = true ->
  (nl_send_route fuel o false buf_del st).1 = Ok ec ->
  exists f_del f_add : mem,
    sk_outbox (set_notify fuel (Some n) (Some o) buf_del buf_add st).2
    = sk_outbox st ++ [f_del; f_add]
    /\ nlmsg_type f_del 0 = RTM_DELROUTE
    /\ nlmsg_flags f_del 0 = Z.lor NLM_F_REQUEST NLM_F_ACK
    /\ (frame_attrs f_del).1 !! 0%nat
       = Some (RTA_DST, be32 (n_prefix (e_net o)))
    /\ nlmsg_type f_add 0 = RTM_NEWROUTE
    /\ nlmsg_flags f_add 0
       = Z.lor (Z.lor NLM_F_REQUEST NLM_F_ACK)
           (Z.lor NLM_F_CREATE NLM_F_REPLACE)
    /\ (frame_attrs f_add).1 !! 0%nat
       = Some (RTA_DST, be32 (n_prefix (e_net n))).
Proof.
  intros Ho Hn Htos Hup Hco Hcn Hlo Hln Hdo Hdn Htx Hret.
  unfold krt_set_notify. rewrite Ho, Hn.
  apply Z.eqb_neq in Htos. rewrite Htos, Hup.
  destruct (nl_send_route_sends fuel o false buf_del st Hco Hlo Hdo Htx)
    as (Htx1 & f1 & A1 & A2 & A3 & A4).
  destruct (nl_send_route fuel o false buf_del st) as [[ec'| | | | |] st1];
    try discriminate Hret.
  cbn [void and_then snd] in *.
  change (and_then (nl_send_route fuel n true buf_add st1)
            (fun _ st => (Ok tt, st)))
    with (void (nl_send_route fuel n true buf_add st1)).
  rewrite void_state.
  destruct (nl_send_route_sends fuel n true buf_add st1 Hcn Hln Hdn Htx1)
    as (_ & f2 & B1 & B2 & B3 & B4).
  exists f1, f2. rewrite B1, A1, <- app_assoc.
  repeat split; assumption.
Qed.

End NotifyProperties.

Lemma krt_set_notify_idle_witness :
  not_device (RTS_OTHER 7) (Some sample_rte_device) = None
  /\ match not_device (RTS_OTHER 7) (Some sample_rte_on_if_3) with
     | Some o => iface_up_or_none 1 o = false
     | None => True
     end
  /\ krt_set_notify (RTS_OTHER 7) 1 1 (Some sample_rte_device)
       (Some sample_rte_on_if_3) (zeros 128) (zeros 128) sample_state
     = (Ok tt, sample_state).
Proof.
  assert (H1 : not_device (RTS_OTHER 7) (Some sample_rte_device) = None)
    by reflexivity.
  assert (H2 : match not_device (RTS_OTHER 7) (Some sample_rte_on_if_3) with
               | Some o => iface_up_or_none 1 o = false
               | None => True
               end) by reflexivity.
  split; [exact H1 | split; [exact H2 |]].
  exact (krt_set_notify_idle (RTS_OTHER 7) 1 1 (Some sample_rte_device)
           (Some sample_rte_on_if_3) (zeros 128) (zeros 128) sample_state
           H1 H2).
Defined.

Lemma krt_set_notify_replace_witness :
  let n := sample_rte_router in
  let o := sample_rte_blackhole 0 in
  not_device (RTS_OTHER 7) (Some o) = Some o
  /\ not_device (RTS_OTHER 7) (Some n) = Some n
  /\ ra_tos (e_attrs o) = ra_tos (e_attrs n)
  /\ krt_capable n = true
  /\ length (zeros 128) = 128%nat
  /\ (ra_dest (e_attrs n) = RTD_DEVICE -> is_Some (ra_iface (e_attrs n)))
  /\ sk_tx_ok sample_state_acks = true
  /\ exists fr : mem,
       sk_outbox (krt_set_notify (RTS_OTHER 7) 1 1 (Some n) (Some o)
                    (zeros 128) (zeros 128) sample_state_acks).2
       = sk_outbox sample_state_acks ++ [fr]
       /\ nlmsg_type fr 0 = RTM_NEWROUTE
       /\ nlmsg_flags fr 0
          = Z.lor (Z.lor NLM_F_REQUEST NLM_F_ACK)
              (Z.lor NLM_F_CREATE NLM_F_REPLACE)
       /\ (frame_attrs fr).1 !! 0%nat
          = Some (RTA_DST, be32 (n_prefix (e_net n))).
Proof.
  intros n o.
  assert (H6 : ra_dest (e_attrs n) = RTD_DEVICE ->
               is_Some (ra_iface (e_attrs n))) by discriminate.
  do 5 (split; [reflexivity |]). split; [exact H6 | split; [reflexivity |]].
  exact (krt_set_notify_replace (RTS_OTHER 7) 1 1 n o (zeros 128) (zeros 128)
           sample_state_acks eq_refl eq_refl eq_refl eq_refl eq_refl H6
           eq_refl).
Defined.

Lemma krt_set_notify_del_add_witness :
  let n := sample_rte_router in
  let o := sample_rte_blackhole 8 in
  let r := krt_set_notify (RTS_OTHER 7) 1 2 (Some n) (Some o)
             (zeros 128) (zeros 128) sample_state_acks in
  ra_tos (e_attrs o) <> ra_tos (e_attrs n)
  /\ iface_up_or_none 1 o = true
  /\ (nl_send_route 2 o false (zeros 128) sample_state_acks).1 = Ok 0
  /\ r.1 = Ok tt
  /\ exists f_del f_add : mem,
       sk_outbox r.2 = sk_outbox sample_state_acks ++ [f_del; f_add]
       /\ nlmsg_type f_del 0 = RTM_DELROUTE
       /\ nlmsg_flags f_del 0 = Z.lor NLM_F_REQUEST NLM_F_ACK
       /\ (frame_attrs f_del).1 !! 0%nat
          = Some (RTA_DST, be32 (n_prefix (e_net o)))
       /\ nlmsg_type f_add 0 = RTM_NEWROUTE
       /\ nlmsg_flags f_add 0
          = Z.lor (Z.lor NLM_F_REQUEST NLM_F_ACK)
              (Z.lor NLM_F_CREATE NLM_F_REPLACE)
       /\ (frame_attrs f_add).1 !! 0%nat
          = Some (RTA_DST, be32 (n_prefix (e_net n))).
Proof.
  intros n o r.
  assert (H3 : ra_tos (e_attrs o) <> ra_tos (e_attrs n)) by discriminate.
  assert (Hdo : ra_dest (e_attrs o) = RTD_DEVICE ->
                is_Some (ra_iface (e_attrs o))) by discriminate.
  assert (Hdn : ra_dest (e_attrs n) = RTD_DEVICE ->
                is_Some (ra_iface (e_attrs n))) by discriminate.
  assert (Hec : (nl_send_route 2 o false (zeros 128) sample_state_acks).1
                = Ok 0) by (vm_compute; reflexivity).
  split; [exact H3 | split; [reflexivity | split; [exact Hec |]]].
  split; [vm_compute; reflexivity |].
  exact (krt_set_notify_del_add (RTS_OTHER 7) 1 2 n o (zeros 128) (zeros 128)
           sample_state_acks 0 eq_refl eq_refl H3 eq_refl eq_refl eq_refl
           eq_refl eq_refl Hdo Hdn eq_refl Hec).
Defined.

(** ** Scans *)

Lemma received_refl (st : nl_state) : received st st.
Proof.
  repeat split. exists []. now rewrite app_nil_r.
Qed.

Lemma received_trans (st1 st2 st3 : nl_state) :
  received st1 st2 -> received st2 st3 -> received st1 st3.
Proof.
  intros (A1 & A2 & A3 & l1 & A4 & A5) (B1 & B2 & B3 & l2 & B4 & B5).
  repeat split; try congruence.
  exists (l1 ++ l2). rewrite B4, A4, <- app_assoc.
  split; [reflexivity | now apply Forall_app].
Qed.

Lemma received_add_log (st : nl_state) (c : log_class) (msg : string) :
  received st (add_log st c msg).
Proof.
  repeat split. exists [Log c msg]. split; [reflexivity |].
  repeat constructor.
Qed.

Lemma nl_get_reply_received (fuel : nat) :
  forall st : nl_state, received st (nl_get_reply fuel st).2.
Proof.
  induction fuel as [|fuel IH]; intros st; [apply received_refl |].
  assert (Hstep : forall st1 : nl_state,
             received st st1 ->
             received st (match nl_reply_step st1 with
                          | inl r => r
                          | inr st => nl_get_reply fuel st
                          end).2).
  { intros st1 H1. unfold nl_reply_step.
    destruct (NLMSG_OK _ _ _).
    - destruct (negb _).
      + eapply received_trans; [| apply IH].
        eapply received_trans; [exact H1 | apply received_add_log].
      + eapply received_trans; [exact H1 |].
        repeat split. exists []. now rewrite app_nil_r.
    - eapply received_trans; [| apply IH].
      eapply received_trans; [exact H1 |].
      destruct (negb _).
      + eapply received_trans; [apply received_add_log |].
        repeat split. exists []. now rewrite app_nil_r.
      + repeat split. exists []. now rewrite app_nil_r. }
  simpl.
  destruct (nl_last_hdr st); [apply Hstep, received_refl |].
  unfold nl_recv.
  destruct (sk_inbox st) as [|[|pid data] rest]; cbn [snd].
  - apply received_refl.
  - repeat split. exists []. now rewrite app_nil_r.
  - assert (Hrx : forall st1 st2 : nl_state,
               nl_sync_seq st1 = nl_sync_seq st ->
               sk_outbox st1 = sk_outbox st ->
               sk_tx_ok st1 = sk_tx_ok st ->
               trace st1 = trace st -> received st st1).
    { intros st1 _ E1 E2 E3 E4. repeat split; try assumption.
      exists []. now rewrite app_nil_r. }
    destruct (negb (pid =? 0)).
    + eapply received_trans; [| apply IH]. now apply (Hrx _ st).
    + destruct (NL_RX_SIZE <? length data)%nat; cbn [snd].
      * now apply (Hrx _ st).
      * apply Hstep. now apply (Hrx _ st).
Qed.

Lemma nl_get_scan_received (fuel : nat) (st : nl_state) :
  received st (nl_get_scan fuel st).2.
Proof.
  unfold nl_get_scan, and_then.
  pose proof (nl_get_reply_received fuel st) as Hg.
  destruct (nl_get_reply fuel st) as [[h| | | | |] st1]; cbn [snd] in *;
    try exact Hg.
  destruct (_ =? NLMSG_DONE); [exact Hg |].
  destruct (_ =? NLMSG_ERROR); [| exact Hg]. cbn [snd].
  eapply received_trans; [exact Hg |].
  unfold nl_error. destruct (_ <? _); cbn [snd].
  - apply received_add_log.
  - destruct (negb _); [apply received_add_log | apply received_refl].
Qed.

Section DumpProperties.

Context {S : Type}.
Variable known : Z -> bool.
Variable parse : S -> mem -> Z -> list event * S.
Variable unknown_msg : string.

(** [Q s evs s'] relates the daemon's state before a scan, the events of
    the scan so far and the state they have led to. *)
Variable Q : S -> list event -> S -> Prop.
Hypothesis Q_logs :
  forall (s s' : S) (evs l : list event),
    Q s evs s' -> Forall is_log l -> Q s (evs ++ l) s'.
Hypothesis Q_parse :
  forall (s s' : S) (evs : list event) (m : mem) (h : Z),
    Q s evs s' -> Q s (evs ++ (parse s' m h).1) (parse s' m h).2.

(** A dump loop only receives, and what it does to the daemon is what its
    translator does, frame by frame. *)
Lemma nl_dump_loop_run (fuel : nat) :
  forall (s : S) (st : nl_state),
    let r := nl_dump_loop known parse unknown_msg fuel s st in
    nl_sync_seq r.2.2 = nl_sync_seq st
    /\ sk_outbox r.2.2 = sk_outbox st
    /\ sk_tx_ok r.2.2 = sk_tx_ok st
    /\ exists evs : list event,
         trace r.2.2 = trace st ++ evs
         /\ forall (s0 : S) (evs0 : list event),
              Q s0 evs0 s -> Q s0 (evs0 ++ evs) r.2.1.
Proof.
  induction fuel as [|fuel IH]; intros s st r; subst r.
  { repeat split. exists []. rewrite app_nil_r. split; [reflexivity |].
    intros s0 evs0 H. now rewrite app_nil_r. }
  cbn [nl_dump_loop]. unfold and_then, beside.
  destruct (nl_get_scan_received (Datatypes.S fuel) st)
    as (G1 & G2 & G3 & l & G4 & G5).
  destruct (nl_get_scan (Datatypes.S fuel) st) as [o st1].
  cbn [fst snd] in *.
  assert (Hstop : nl_sync_seq st1 = nl_sync_seq st
                  /\ sk_outbox st1 = sk_outbox st
                  /\ sk_tx_ok st1 = sk_tx_ok st
                  /\ exists evs : list event,
                       trace st1 = trace st ++ evs
                       /\ forall (s0 : S) (evs0 : list event),
                            Q s0 evs0 s -> Q s0 (evs0 ++ evs) s).
  { repeat split; try assumption. exists l. split; [exact G4 |].
    intros s0 evs0 H. now apply Q_logs. }
  destruct o as [[h|]| | | | |]; cbn [fst snd]; try exact Hstop.
  clear Hstop.
  destruct (known (nlmsg_type (nl_rx_buffer st1) h)).
  - destruct (parse s (nl_rx_buffer st1) h) as [evs s'] eqn:Hp.
    destruct (IH s' (add_events st1 evs)) as (I1 & I2 & I3 & evs' & I4 & I5).
    cbn [add_events nl_sync_seq sk_outbox sk_tx_ok trace] in *.
    repeat split; try congruence.
    exists (l ++ evs ++ evs'). split.
    + rewrite I4, G4, <- !app_assoc. reflexivity.
    + intros s0 evs0 H. rewrite !app_assoc. apply I5.
      pose proof (Q_parse s0 s (evs0 ++ l) (nl_rx_buffer st1) h
                    (Q_logs _ _ _ _ H G5)) as H'.
      now rewrite Hp in H'.
  - destruct (IH s (add_log st1 L_DEBUG unknown_msg))
      as (I1 & I2 & I3 & evs' & I4 & I5).
    cbn [add_log nl_sync_seq sk_outbox sk_tx_ok trace] in *.
    repeat split; try congruence.
    exists (l ++ [Log L_DEBUG unknown_msg] ++ evs'). split.
    + rewrite I4, G4, <- !app_assoc. reflexivity.
    + intros s0 evs0 H. rewrite !app_assoc. apply I5.
      rewrite <- app_assoc. apply Q_logs; [exact H |].
      apply Forall_app. split; [exact G5 | repeat constructor].
Qed.

End DumpProperties.

(** What a dump request does to the channel. *)
Lemma nl_request_dump_sends (req : mem) (cmd : Z) (st : nl_state) :
  length req = Z.to_nat sizeof_dump_req ->
  cmd = RTM_GETLINK \/ cmd = RTM_GETADDR \/ cmd = RTM_GETROUTE ->
  sk_tx_ok st = true ->
  exists (fr' fr : mem) (st1 : nl_state),
    nl_request_dump req cmd st = (Ok fr', st1)
    /\ nl_sync_seq st1 = u32 (nl_sync_seq st + 1)
    /\ sk_outbox st1 = sk_outbox st ++ [fr]
    /\ sk_tx_ok st1 = true
    /\ trace st1 = trace st
    /\ nlmsg_type fr 0 = cmd
    /\ nlmsg_flags fr 0 = Z.lor NLM_F_REQUEST NLM_F_DUMP.
Proof.
  intros Hlen Hcmd Htx.
  change (Z.to_nat sizeof_dump_req) with 20%nat in *.
  do 20 (destruct req as [|? req]; [discriminate Hlen |]).
  destruct req; [| discriminate Hlen]. clear Hlen.
  unfold nl_request_dump, nl_send.
  cbn [sk_tx_ok set_seq]. rewrite Htx.
  eexists _, _, _. split; [reflexivity |].
  cbn [sk_outbox sk_tx_ok trace set_last add_sent set_seq nl_sync_seq].
  split; [reflexivity |]. split; [reflexivity |].
  split; [exact Htx |]. split; [reflexivity |].
  generalize (u32 (nl_sync_seq st + 1)). intros s.
  destruct Hcmd as [-> | [-> | ->]].
  all: vm_compute; repeat split.
Qed.


Lemma nl_parse_addr_if_events (if_find_by_index : Z -> option iface)
  (m : mem) (h : Z) :
  Forall if_event (nl_parse_addr if_find_by_index m h).
Proof.
  unfold nl_parse_addr, nl_addr_filters, nl_addr_bind.
  tr_cases; tr_events.
Qed.

Lemma nl_parse_link_if_events (if_find_by_index : Z -> option iface)
  (m : mem) (h : Z) (scan : bool) :
  Forall if_event (nl_parse_link if_find_by_index m h scan).
Proof.
  eapply Forall_impl; [apply nl_parse_link_events |].
  intros [] ?; simpl in *; tauto.
Qed.

Section DaemonProperties.

Variable T : Type.
Variable if_find_by_index : T -> Z -> option iface.
Variable neigh_find : T -> Z -> option neighbor.
Variable if_update : iface -> T -> T.
Variable krt_got_route : rte -> T -> T.
Variable krt_got_route_async : rte -> bool -> T -> T.
Variable if_start_update : T -> T.
Variable if_end_update : T -> T.

Local Abbreviation apply_events :=
  (daemon_apply T if_update krt_got_route krt_got_route_async).

Lemma daemon_apply_app (evs evs' : list event) (tbl : T) :
  apply_events (evs ++ evs') tbl = apply_events evs' (apply_events evs tbl).
Proof. unfold daemon_apply. apply fold_left_app. Qed.

Lemma daemon_apply_logs (l : list event) (tbl : T) :
  Forall is_log l -> apply_events l tbl = tbl.
Proof.
  induction 1 as [|[] l Hx _ IH]; [reflexivity | | | |];
    simpl in Hx; try contradiction.
  exact IH.
Qed.


(** A dump loop of [krt_if_scan]: the translator's records go to the table
    as they come. *)
Lemma if_dump_loop_run (known : Z -> bool)
  (translate : T -> mem -> Z -> list event) (msg : string) :
  (forall (tbl : T) (m : mem) (h : Z), Forall if_event (translate tbl m h)) ->
  forall (fuel : nat) (tbl : T) (st : nl_state),
    let r := nl_dump_loop known
               (fun tbl m h =>
                  let evs := translate tbl m h in
                  (evs, apply_events evs tbl))
               msg fuel tbl st in
    nl_sync_seq r.2.2 = nl_sync_seq st
    /\ sk_outbox r.2.2 = sk_outbox st
    /\ sk_tx_ok r.2.2 = sk_tx_ok st
    /\ exists evs : list event,
         trace r.2.2 = trace st ++ evs
         /\ Forall if_event evs
         /\ r.2.1 = apply_events evs tbl.
Proof.
  intros Htr fuel tbl st.
  set (Q := fun (s : T) (evs : list event) (s' : T) =>
              Forall if_event evs /\ s' = apply_events evs s).
  assert (HQl : forall (s s' : T) (evs l : list event),
             Q s evs s' -> Forall is_log l -> Q s (evs ++ l) s').
  { intros s s' evs l [H1 H2] Hl. split.
    - apply Forall_app. split; [exact H1 |].
      eapply Forall_impl; [exact Hl |]. now intros [].
    - rewrite daemon_apply_app, <- H2. now rewrite daemon_apply_logs. }
  match goal with
  | |- context [nl_dump_loop known ?p msg fuel tbl st] =>
      assert (HQp : forall (s s' : T) (evs : list event) (m : mem) (h : Z),
                 Q s evs s' -> Q s (evs ++ (p s' m h).1) (p s' m h).2);
      [| pose proof (nl_dump_loop_run known p msg Q HQl HQp fuel tbl st)
           as Hrun ]
  end.
  { intros s s' evs m h [H1 H2]. cbn [fst snd]. split.
    - apply Forall_app. split; [exact H1 | apply Htr].
    - rewrite daemon_apply_app, <- H2. reflexivity. }
  cbv zeta in Hrun. destruct Hrun as (R1 & R2 & R3 & evs & R4 & R5).
  cbv zeta. repeat split; try assumption.
  destruct (R5 tbl []) as [R6 R7]; [split; [constructor | reflexivity] |].
  exists evs. auto.
Qed.

(** X23.  A scan of interfaces asks for the links first and for the
    addresses only once the dump of the links has ended: the kernel gets
    the dump of RTM_GETLINK, and, unless the scan has stopped before, the
    dump of RTM_GETADDR with the sequence number after it.  The scan only
    logs and publishes interface records, and the table is what
    [if_start_update], the records published, in their order, and, if the
    scan returns, [if_end_update] make of it. *)
Theorem krt_if_scan_effects (fuel : nat) (req_link req_addr : mem) (tbl : T)
  (st : nl_state) :
  length req_link = Z.to_nat sizeof_dump_req ->
  length req_addr = Z.to_nat sizeof_dump_req ->
  sk_tx_ok st = true ->
  let r := krt_if_scan T if_find_by_index if_update krt_got_route
             krt_got_route_async if_start_update if_end_update fuel req_link
             req_addr tbl st in
  exists (f_link : mem) (evs : list event),
    nlmsg_type f_link 0 = RTM_GETLINK
    /\ nlmsg_flags f_link 0 = Z.lor NLM_F_REQUEST NLM_F_DUMP
    /\ trace r.2.2 = trace st ++ evs
    /\ Forall if_event evs
    /\ ((r.1 <> Ok tt
         /\ sk_outbox r.2.2 = sk_outbox st ++ [f_link]
         /\ r.2.1 = apply_events evs (if_start_update tbl))
        \/ exists f_addr : mem,
             sk_outbox r.2.2 = sk_outbox st ++ [f_link; f_addr]
             /\ nlmsg_type f_addr 0 = RTM_GETADDR
             /\ nlmsg_flags f_addr 0 = Z.lor NLM_F_REQUEST NLM_F_DUMP
             /\ nl_sync_seq r.2.2 = u32 (u32 (nl_sync_seq st + 1) + 1)
             /\ r.2.1
                = match r.1 with
                  | Ok _ =>
                      if_end_update
                        (apply_events evs (if_start_update tbl))
                  | _ => apply_events evs (if_start_update tbl)
                  end).
Proof.
  clear neigh_find.
  intros Hl1 Hl2 Htx r.
  assert (Hr : r = krt_if_scan T if_find_by_index if_update krt_got_route
                     krt_got_route_async if_start_update if_end_update fuel
                     req_link req_addr tbl st)
    by reflexivity.
  clearbody r. unfold krt_if_scan in Hr. cbv zeta in Hr.
  destruct (nl_request_dump_sends req_link RTM_GETLINK st Hl1
              (or_introl eq_refl) Htx)
    as (fr1' & f1 & st1 & E1 & S1 & S2 & S3 & S4 & S5 & S6).
  rewrite E1 in Hr. unfold beside at 1 in Hr. cbn [and_then fst snd] in Hr.
  pose proof (if_dump_loop_run
                (fun type => (type =? RTM_NEWLINK) || (type =? RTM_DELLINK))
                (fun tbl m h => nl_parse_link (if_find_by_index tbl) m h true)
                "nl_scan_ifaces: Unknown packet received (type=%d)"
                (fun tbl m h =>
                   nl_parse_link_if_events (if_find_by_index tbl) m h true)
                fuel (if_start_update tbl) st1) as Hrun.
  cbv zeta in Hrun.
  match type of Hrun with
  | context [nl_dump_loop ?k ?p ?m ?f ?t ?s] =>
      destruct (nl_dump_loop k p m f t s) as [o1 [tbl2 st2]]
  end.
  cbn [fst snd] in Hrun.
  destruct Hrun as (R1 & R2 & R3 & evs1 & R4 & R5 & R6).
  exists f1.
  assert (Hstop1 : r = (o1, (tbl2, st2)) -> o1 <> Ok tt ->
                   exists evs : list event,
                     nlmsg_type f1 0 = RTM_GETLINK
                     /\ nlmsg_flags f1 0 = Z.lor NLM_F_REQUEST NLM_F_DUMP
                     /\ trace r.2.2 = trace st ++ evs
                     /\ Forall if_event evs
                     /\ (r.1 <> Ok tt
                         /\ sk_outbox r.2.2 = sk_outbox st ++ [f1]
                         /\ r.2.1
                            = apply_events evs (if_start_update tbl))).
  { intros -> Ho. exists evs1. cbn [fst snd].
    rewrite R4, S4, R2, S2. auto 10. }
  destruct o1 as [[]| | | | |];
    try (destruct (Hstop1 Hr ltac:(discriminate)) as (evs & H);
         exists evs; tauto).
  clear Hstop1. cbn [and_then] in Hr.
  destruct (nl_request_dump_sends req_addr RTM_GETADDR st2 Hl2
              (or_intror (or_introl eq_refl)) ltac:(congruence))
    as (fr2' & f2 & st3 & E2 & U1 & U2 & U3 & U4 & U5 & U6).
  rewrite E2 in Hr. unfold beside at 1 in Hr. cbn [and_then fst snd] in Hr.
  pose proof (if_dump_loop_run
                (fun type => (type =? RTM_NEWADDR) || (type =? RTM_DELADDR))
                (fun tbl m h => nl_parse_addr (if_find_by_index tbl) m h)
                "nl_scan_ifaces: Unknown packet received (type=%d)"
                (fun tbl m h =>
                   nl_parse_addr_if_events (if_find_by_index tbl) m h)
                fuel tbl2 st3) as Hrun.
  cbv zeta in Hrun.
  match type of Hrun with
  | context [nl_dump_loop ?k ?p ?m ?f ?t ?s] =>
      destruct (nl_dump_loop k p m f t s) as [o2 [tbl4 st4]]
  end.
  cbn [fst snd] in Hrun.
  destruct Hrun as (V1 & V2 & V3 & evs2 & V4 & V5 & V6).
  exists (evs1 ++ evs2).
  do 2 (split; [assumption |]).
  assert (Htr : trace st4 = trace st ++ evs1 ++ evs2)
    by (rewrite V4, U4, R4, S4, <- app_assoc; reflexivity).
  assert (Hout : sk_outbox st4 = sk_outbox st ++ [f1; f2])
    by (rewrite V2, U2, R2, S2, <- app_assoc; reflexivity).
  assert (Hseq : nl_sync_seq st4 = u32 (u32 (nl_sync_seq st + 1) + 1))
    by (rewrite V1, U1, R1, S1; reflexivity).
  assert (Htbl : tbl4 = apply_events (evs1 ++ evs2)
                          (if_start_update tbl))
    by (rewrite daemon_apply_app, <- R6; exact V6).
  assert (Hev : Forall if_event (evs1 ++ evs2))
    by (apply Forall_app; auto).
  destruct o2 as [[]| | | | |]; cbn [and_then] in Hr; subst r; cbn [fst snd].
  all: split; [exact Htr | split; [exact Hev |]].
  all: right; exists f2; rewrite <- Htbl; auto 10.
Qed.



(** X25.  A datagram that does not come from the kernel, or one that did
    not fit into the buffer, reaches no translator: the hook returns 1,
    the interface table and the temporary interfaces stay as they are, and
    but for the warning about a truncated message nothing is logged. *)
Theorem nl_async_hook_dropped (fuel : nat) (abuf : mem) (pid : Z)
  (data : mem) (s : krt_state T) (st : nl_state) :
  pid <> 0 \/ (NL_RX_SIZE < length data)%nat ->
  let r := nl_async_hook T if_find_by_index neigh_find if_update
             krt_got_route krt_got_route_async fuel abuf (ARxDgram pid data)
             s st in
  r.1 = Ok 1
  /\ r.2.1.2 = s
  /\ r.2.1.1 = take NL_RX_SIZE data ++ drop (length data `min` NL_RX_SIZE) abuf
  /\ trace r.2.2
     = trace st
       ++ (if pid =? 0
           then [Log L_WARN "Netlink got truncated asynchronous message"]
           else []).
Proof.
  intros Hdrop r. subst r. unfold nl_async_hook. cbv zeta.
  assert (Htake : take (length data `min` NL_RX_SIZE) data
                  = take NL_RX_SIZE data).
  { destruct (Nat.le_ge_cases (length data) NL_RX_SIZE) as [H | H].
    - rewrite Nat.min_l, !take_ge by lia. reflexivity.
    - rewrite Nat.min_r by lia. reflexivity. }
  destruct (pid =? 0) eqn:Hpid; cbn [negb fst snd].
  - apply Z.eqb_eq in Hpid. destruct Hdrop as [H | H]; [contradiction |].
    apply Nat.ltb_lt in H. rewrite H. cbn [fst snd]. rewrite Htake.
    repeat split.
  - cbn [fst snd]. rewrite Htake, app_nil_r. repeat split.
Qed.

End DaemonProperties.


Lemma krt_if_scan_effects_witness :
  let st := sample_if_scan_state in
  let r := krt_if_scan (list iface) sample_tbl_find cons sample_got_route
             sample_got_route_async id id 3 (zeros 20) (zeros 20) [] st in
  length (zeros 20) = Z.to_nat sizeof_dump_req
  /\ sk_tx_ok st = true
  /\ r.1 = Ok tt
  /\ r.2.1 = [sample_newlink_published]
  /\ exists (f_link : mem) (evs : list event),
       nlmsg_type f_link 0 = RTM_GETLINK
       /\ nlmsg_flags f_link 0 = Z.lor NLM_F_REQUEST NLM_F_DUMP
       /\ trace r.2.2 = trace st ++ evs
       /\ Forall if_event evs.
Proof.
  intros st r.
  assert (H1 : length (zeros 20) = Z.to_nat sizeof_dump_req) by reflexivity.
  assert (H2 : sk_tx_ok st = true) by reflexivity.
  split; [exact H1 | split; [exact H2 |]].
  split; [vm_compute; reflexivity | split; [vm_compute; reflexivity |]].
  destruct (krt_if_scan_effects (list iface) sample_tbl_find cons
              sample_got_route sample_got_route_async id id 3
              (zeros 20) (zeros 20) [] st H1 H1 H2)
    as (f & evs & H3 & H4 & H5 & H6 & _).
  exists f, evs. auto.
Defined.

Lemma nl_async_hook_dropped_witness :
  let r := nl_async_hook (list iface) sample_tbl_find sample_neigh_find cons
             sample_got_route sample_got_route_async 4 (zeros NL_RX_SIZE)
             (ARxDgram 1234 sample_route_via_gw) ([], []) sample_state in
  (1234 <> 0 \/ (NL_RX_SIZE < length sample_route_via_gw)%nat)
  /\ r.1 = Ok 1
  /\ r.2.1.2 = ([], [])
  /\ trace r.2.2 = [].
Proof.
  intros r.
  assert (H1 : 1234 <> 0 \/ (NL_RX_SIZE < length sample_route_via_gw)%nat)
    by (left; discriminate).
  split; [exact H1 |].
  destruct (nl_async_hook_dropped (list iface) sample_tbl_find
              sample_neigh_find cons sample_got_route sample_got_route_async
              4 (zeros NL_RX_SIZE) 1234 sample_route_via_gw ([], [])
              sample_state H1)
    as (H2 & H3 & _ & H4).
  split; [exact H2 | split; [exact H3 | exact H4]].
Defined.

(** ** What BIRD sends, read back *)

Lemma bswap32_bswap32 (x : Z) : bswap32 (bswap32 x) = x mod 2 ^ 32.
Proof.
  unfold bswap32 at 1.
  replace (le_split 4 (bswap32 x)) with (rev (le_split 4 x)).
  - rewrite rev_involutive, le_combine_split. reflexivity.
  - unfold bswap32.
    rewrite <- (split_le_combine (rev (le_split 4 x))) at 1.
    now rewrite length_rev, length_le_split.
Qed.

Section ReadBack.

Variable if_find_by_index : Z -> option iface.
Variable neigh_find : Z -> option neighbor.

(** The frame of a route without gateway and interface, as the translator
    sees it. *)
Lemma nl_route_frame_plain_parsed (e : rte) (buf : mem) (seq : Z)
  (temp_ifs : list iface) :
  krt_capable e = true ->
  rtd_plain (ra_dest (e_attrs e)) = true ->
  length buf = 128%nat ->
  exists fr : mem,
    route_frame_sent e true buf seq = Some fr
    /\ nl_parse_route if_find_by_index neigh_find temp_ifs fr 0 true
       = ([Krt_got_route
             (mk_rte
                (mk_net
                   (ipa_ntoh
                      (le_combine (le_split 4 (ipa_hton (n_prefix (e_net e))))))
                   (le_combine (le_split 1 (n_pxlen (e_net e)))))
                (mk_rta RTS_INHERIT SCOPE_UNIVERSE RTC_UNICAST
                   (ra_dest (e_attrs e)) 0 0 0 IPA_NONE IPA_NONE None)
                KRT_SRC_BIRD)], temp_ifs)
    /\ nl_async_msg if_find_by_index neigh_find temp_ifs fr 0
       = ([], temp_ifs).
Proof.
  intros Hcap Hplain Hlen.
  destruct e as [[prefix pxlen]
                   [source scope cast dest tos flags aflags from gw iface] src].
  unfold krt_capable in Hcap. simpl in *.
  destruct cast; [| discriminate].
  do 16 (destruct buf as [|? buf]; [discriminate Hlen |]).
  clear Hlen.
  destruct dest; try discriminate Hplain.
  all: unfold route_frame_sent, stamped, nl_route_frame, nl_add_attr_ipa,
         nl_add_attr_u32, set_rtm, store;
    cbn [e_net e_attrs ra_dest ra_iface n_pxlen n_prefix ra_gw].
  all: generalize (u32 (seq + 1)); intros s.
  all: abstract_bytes.
  all: eexists; split; [vm_compute; reflexivity |].
  all: split; lazy -[ipa_ntoh]; reflexivity.
Qed.

(** The frame of a route through a gateway, as the translator sees it. *)
Lemma nl_route_frame_router_parsed (e : rte) (buf : mem) (seq : Z)
  (temp_ifs : list iface) :
  krt_capable e = true ->
  ra_dest (e_attrs e) = RTD_ROUTER ->
  length buf = 128%nat ->
  exists fr : mem,
    route_frame_sent e true buf seq = Some fr
    /\ attr (route_table fr 0) RTA_OIF = None
    /\ is_Some (attr (route_table fr 0) RTA_GATEWAY)
    /\ nl_parse_route if_find_by_index neigh_find temp_ifs fr 0 true
       = ([Log L_ERR no_oif_msg], temp_ifs).
Proof.
  intros Hcap Hdest Hlen.
  destruct e as [[prefix pxlen]
                   [source scope cast dest tos flags aflags from gw iface] src].
  unfold krt_capable in Hcap. simpl in *. subst dest.
  destruct cast; [| discriminate].
  do 16 (destruct buf as [|? buf]; [discriminate Hlen |]).
  clear Hlen.
  unfold route_frame_sent, stamped, nl_route_frame, nl_add_attr_ipa,
    nl_add_attr_u32, set_rtm, store;
    cbn [e_net e_attrs ra_dest ra_iface n_pxlen n_prefix ra_gw].
  generalize (u32 (seq + 1)); intros s.
  abstract_bytes.
  eexists; split; [vm_compute; reflexivity |].
  split; [vm_compute; reflexivity |].
  split; [vm_compute; eauto |].
  lazy -[ipa_ntoh]. reflexivity.
Qed.

Lemma route_frame_sent_outbox (fuel : nat) (e : rte) (new : bool) (buf : mem)
  (st : nl_state) (fr : mem) :
  sk_tx_ok st = true ->
  route_frame_sent e new buf (nl_sync_seq st) = Some fr ->
  sk_outbox (nl_send_route fuel e new buf st).2 = sk_outbox st ++ [fr].
Proof.
  unfold route_frame_sent, nl_send_route. intros Htx Hfr.
  destruct (nl_route_frame e new buf) as [r| | | | |]; try discriminate Hfr.
  injection Hfr as <-.
  unfold nl_exchange, nl_send. cbn [sk_tx_ok set_seq]. rewrite Htx.
  cbn [and_then]. rewrite nl_exchange_loop_outbox. reflexivity.
Qed.

Lemma ipa_ntoh_hton (x : Z) :
  0 <= x < 2 ^ 32 ->
  ipa_ntoh (le_combine (le_split 4 (ipa_hton x))) = x.
Proof.
  intros Hx. rewrite le_combine_split.
  unfold ipa_ntoh, ipa_hton.
  assert (Hb : 0 <= bswap32 x < 2 ^ 32).
  { unfold bswap32.
    pose proof (le_combine_bound (rev (le_split 4 x))) as H.
    rewrite length_rev, length_le_split in H. exact H. }
  change (Z.of_nat 4 * 8) with 32.
  rewrite (Z.mod_small (bswap32 x)) by exact Hb.
  rewrite bswap32_bswap32. apply Z.mod_small. exact Hx.
Qed.

(** X26.  What [nl_send_route] sends for a BLACKHOLE, UNREACHABLE or
    PROHIBIT route comes back from [nl_parse_route] as the same route: read
    in a scan, the frame handed to [sendto] yields exactly one route, with
    the prefix, the prefix length and the destination type of the route
    sent, tagged as BIRD's own; as an asynchronous notification the same
    frame is dropped in silence. *)
Theorem nl_send_route_read_back (fuel : nat) (e : rte) (buf : mem)
  (st : nl_state) (temp_ifs : list iface) :
  krt_capable e = true ->
  rtd_plain (ra_dest (e_attrs e)) = true ->
  length buf = 128%nat ->
  0 <= n_prefix (e_net e) < 2 ^ 32 ->
  0 <= n_pxlen (e_net e) < 2 ^ 8 ->
  sk_tx_ok st = true ->
  exists fr : mem,
    sk_outbox (nl_send_route fuel e true buf st).2 = sk_outbox st ++ [fr]
    /\ nl_parse_route if_find_by_index neigh_find temp_ifs fr 0 true
       = ([Krt_got_route
             (mk_rte (e_net e)
                (mk_rta RTS_INHERIT SCOPE_UNIVERSE RTC_UNICAST
                   (ra_dest (e_attrs e)) 0 0 0 IPA_NONE IPA_NONE None)
                KRT_SRC_BIRD)], temp_ifs)
    /\ nl_async_msg if_find_by_index neigh_find temp_ifs fr 0
       = ([], temp_ifs).
Proof.
  intros Hcap Hplain Hlen Hpre Hpx Htx.
  destruct (nl_route_frame_plain_parsed e buf (nl_sync_seq st) temp_ifs
              Hcap Hplain Hlen) as (fr & Hfr & Hscan & Hasync).
  exists fr. split; [now apply route_frame_sent_outbox |].
  split; [| exact Hasync].
  rewrite Hscan, ipa_ntoh_hton, le_combine_split by exact Hpre.
  change (Z.of_nat 1 * 8) with 8. rewrite Z.mod_small by exact Hpx.
  now destruct (e_net e).
Qed.

(** X27.  The frame [nl_send_route] sends for a ROUTER route carries the
    gateway but no OIF attribute, so [nl_parse_route] does not take it for
    a route: read in a scan, it is answered with the error about a route
    without OIF and nothing is handed to the syncer. *)
Theorem nl_send_route_router_no_oif (fuel : nat) (e : rte) (buf : mem)
  (st : nl_state) (temp_ifs : list iface) :
  krt_capable e = true ->
  ra_dest (e_attrs e) = RTD_ROUTER ->
  length buf = 128%nat ->
  sk_tx_ok st = true ->
  exists fr : mem,
    sk_outbox (nl_send_route fuel e true buf st).2 = sk_outbox st ++ [fr]
    /\ attr (route_table fr 0) RTA_OIF = None
    /\ is_Some (attr (route_table fr 0) RTA_GATEWAY)
    /\ nl_parse_route if_find_by_index neigh_find temp_ifs fr 0 true
       = ([Log L_ERR no_oif_msg], temp_ifs).
Proof.
  intros Hcap Hdest Hlen Htx.
  destruct (nl_route_frame_router_parsed e buf (nl_sync_seq st) temp_ifs
              Hcap Hdest Hlen) as (fr & Hfr & H1 & H2 & H3).
  exists fr. split; [now apply route_frame_sent_outbox | auto].
Qed.

End ReadBack.

Lemma nl_send_route_read_back_witness :
  let e := sample_rte_blackhole 0 in
  krt_capable e = true
  /\ rtd_plain (ra_dest (e_attrs e)) = true
  /\ length (zeros 128) = 128%nat
  /\ 0 <= n_prefix (e_net e) < 2 ^ 32
  /\ 0 <= n_pxlen (e_net e) < 2 ^ 8
  /\ sk_tx_ok sample_state = true
  /\ exists fr : mem,
       sk_outbox (nl_send_route 1 e true (zeros 128) sample_state).2
       = sk_outbox sample_state ++ [fr]
       /\ nl_parse_route no_interfaces no_neighbors [] fr 0 true
          = ([Krt_got_route e], [])
       /\ nl_async_msg no_interfaces no_neighbors [] fr 0 = ([], []).
Proof.
  intros e.
  assert (H4 : 0 <= n_prefix (e_net e) < 2 ^ 32)
    by (change (0 <= 0xC0000200 < 2 ^ 32); lia).
  assert (H5 : 0 <= n_pxlen (e_net e) < 2 ^ 8)
    by (change (0 <= 24 < 2 ^ 8); lia).
  do 3 (split; [reflexivity |]).
  split; [exact H4 | split; [exact H5 | split; [reflexivity |]]].
  exact (nl_send_route_read_back no_interfaces no_neighbors 1 e (zeros 128)
           sample_state [] eq_refl eq_refl eq_refl H4 H5 eq_refl).
Defined.

Lemma nl_send_route_router_no_oif_witness :
  let e := sample_rte_router in
  krt_capable e = true
  /\ ra_dest (e_attrs e) = RTD_ROUTER
  /\ length (zeros 128) = 128%nat
  /\ sk_tx_ok sample_state = true
  /\ exists fr : mem,
       sk_outbox (nl_send_route 1 e true (zeros 128) sample_state).2
       = sk_outbox sample_state ++ [fr]
       /\ attr (route_table fr 0) RTA_OIF = None
       /\ is_Some (attr (route_table fr 0) RTA_GATEWAY)
       /\ nl_parse_route no_interfaces no_neighbors [] fr 0 true
          = ([Log L_ERR no_oif_msg], []).
Proof.
  intros e.
  do 4 (split; [reflexivity |]).
  exact (nl_send_route_router_no_oif no_interfaces no_neighbors 1 e
           (zeros 128) sample_state [] eq_refl eq_refl eq_refl eq_refl).
Defined.

(** ** Emitting attributes *)

Lemma length_store_bytes (m : mem) (p : Z) (bs : list byte) :
  (Z.to_nat p + length bs <= length m)%nat ->
  length (store_bytes m p bs) = length m.
Proof.
  intros H. unfold store_bytes.
  rewrite !length_app, length_take, length_drop. lia.
Qed.

Lemma drop_store_bytes_after (m : mem) (p : Z) (bs : list byte) (q : nat) :
  (Z.to_nat p + length bs <= q)%nat ->
  (Z.to_nat p + length bs <= length m)%nat ->
  drop q (store_bytes m p bs) = drop q m.
Proof.
  intros Hq Hm. unfold store_bytes.
  rewrite app_assoc, drop_app_ge by (rewrite length_app, length_take; lia).
  rewrite length_app, length_take, drop_drop. f_equal. lia.
Qed.

Lemma load_bytes_store_bytes_after (m : mem) (p : Z) (bs : list byte)
  (n : nat) (q : Z) :
  (Z.to_nat p + length bs <= Z.to_nat q)%nat ->
  (Z.to_nat p + length bs <= length m)%nat ->
  load_bytes n (store_bytes m p bs) q = load_bytes n m q.
Proof.
  intros Hq Hm. unfold load_bytes. now rewrite drop_store_bytes_after.
Qed.

Lemma load_bytes_store_bytes_before (m : mem) (p : Z) (bs : list byte)
  (n : nat) (q : Z) :
  (Z.to_nat q + n <= Z.to_nat p)%nat -> (Z.to_nat p <= length m)%nat ->
  load_bytes n (store_bytes m p bs) q = load_bytes n m q.
Proof.
  intros Hq Hm. unfold load_bytes, store_bytes.
  rewrite drop_app_le by (rewrite length_take; lia).
  rewrite take_app_le by (rewrite length_drop, length_take; lia).
  rewrite <- (take_drop (Z.to_nat p) m) at 2.
  rewrite drop_app_le by (rewrite length_take; lia).
  rewrite take_app_le by (rewrite length_drop, length_take; lia).
  reflexivity.
Qed.

Lemma load_bytes_store_bytes_same (m : mem) (p : Z) (bs : list byte) :
  (Z.to_nat p <= length m)%nat ->
  load_bytes (length bs) (store_bytes m p bs) p = bs.
Proof.
  intros Hm. unfold load_bytes, store_bytes.
  rewrite drop_app_length' by (rewrite length_take; lia).
  apply take_app_length.
Qed.

(** The four assignments of [nl_add_attr_u32] and [nl_add_attr_ipa] on a
    frame that has room for the attribute. *)
Lemma attr_stores (h : mem) (a code : Z) (bs : list byte) :
  length bs = 4%nat ->
  4 <= a -> a + 8 <= Z.of_nat (length h) -> a + 8 < 2 ^ 32 ->
  let h3 := store_bytes (store 2 (store 2 h (a + 2) code) a (RTA_LENGTH 4))
              (RTA_DATA a) bs in
  let h' := store 4 h3 0 (a + RTA_LENGTH 4) in
  nlmsg_len h3 0 = nlmsg_len h 0
  /\ length h' = length h
  /\ nlmsg_len h' 0 = a + RTA_LENGTH 4
  /\ rta_len h' a = RTA_LENGTH 4
  /\ rta_type h' a = code mod 2 ^ 16
  /\ load_bytes 4 h' (RTA_DATA a) = bs
  /\ (forall (q : Z) (n : nat),
        4 <= q -> q + Z.of_nat n <= a ->
        load_bytes n h' q = load_bytes n h q)
  /\ drop (Z.to_nat (a + RTA_LENGTH 4)) h'
     = drop (Z.to_nat (a + RTA_LENGTH 4)) h.
Proof.
  intros Hbs Ha Hroom Hsmall.
  change (RTA_LENGTH 4) with 8. unfold RTA_DATA.
  change (RTA_LENGTH 0) with 4. unfold store.
  set (h1 := store_bytes h (a + 2) (le_split 2 code)).
  set (h2 := store_bytes h1 a (le_split 2 8)).
  set (h3 := store_bytes h2 (a + 4) bs).
  cbv zeta.
  set (h4 := store_bytes h3 0 (le_split 4 (a + 8))).
  assert (L1 : length h1 = length h)
    by (apply length_store_bytes; rewrite length_le_split; lia).
  assert (L2 : length h2 = length h)
    by (unfold h2; rewrite length_store_bytes;
        [exact L1 | rewrite length_le_split; lia]).
  assert (L3 : length h3 = length h)
    by (unfold h3; rewrite length_store_bytes; [exact L2 | lia]).
  assert (L4 : length h4 = length h)
    by (unfold h4; rewrite length_store_bytes;
        [exact L3 | rewrite length_le_split; lia]).
  assert (Hbefore : forall (q : Z) (n : nat),
             0 <= q -> q + Z.of_nat n <= a ->
             load_bytes n h3 q = load_bytes n h q).
  { intros q n Hq Hn.
    unfold h3. rewrite load_bytes_store_bytes_before by lia.
    unfold h2. rewrite load_bytes_store_bytes_before by lia.
    unfold h1. rewrite load_bytes_store_bytes_before by lia.
    reflexivity. }
  split; [unfold nlmsg_len, load; now rewrite Hbefore by lia |].
  split; [exact L4 |].
  split.
  { unfold nlmsg_len, load, h4.
    rewrite <- (length_le_split 4 (a + 8)) at 1.
    rewrite load_bytes_store_bytes_same by lia.
    rewrite le_combine_split. apply Z.mod_small. lia. }
  split.
  { unfold rta_len, load, h4.
    rewrite load_bytes_store_bytes_after
      by (rewrite ?length_le_split; lia).
    unfold h3. rewrite load_bytes_store_bytes_before by lia.
    unfold h2. rewrite <- (length_le_split 2 8) at 1.
    rewrite load_bytes_store_bytes_same by lia.
    reflexivity. }
  split.
  { unfold rta_type, load, h4.
    rewrite load_bytes_store_bytes_after
      by (rewrite ?length_le_split; lia).
    unfold h3. rewrite load_bytes_store_bytes_before by lia.
    unfold h2. rewrite load_bytes_store_bytes_after
      by (rewrite ?length_le_split; lia).
    unfold h1. rewrite <- (length_le_split 2 code) at 1.
    rewrite load_bytes_store_bytes_same by lia.
    apply le_combine_split. }
  split.
  { unfold h4.
    rewrite load_bytes_store_bytes_after
      by (rewrite ?length_le_split; lia).
    unfold h3. rewrite <- Hbs at 1.
    apply load_bytes_store_bytes_same. lia. }
  split.
  { intros q n Hq Hn. unfold h4.
    rewrite load_bytes_store_bytes_after
      by (rewrite ?length_le_split; lia).
    apply Hbefore; lia. }
  unfold h4. rewrite drop_store_bytes_after by (rewrite ?length_le_split; lia).
  unfold h3. rewrite drop_store_bytes_after by lia.
  unfold h2. rewrite drop_store_bytes_after by (rewrite ?length_le_split; lia).
  unfold h1. rewrite drop_store_bytes_after by (rewrite ?length_le_split; lia).
  reflexivity.
Qed.

Lemma add_attr_room (h : mem) (maxsize : Z) :
  sizeof_nlmsghdr <= nlmsg_len h 0 <= maxsize ->
  maxsize + 11 < 2 ^ 32 ->
  let a := NLMSG_ALIGN (nlmsg_len h 0) in
  16 <= a /\ a + 8 < 2 ^ 32 /\ u32 (a + RTA_LENGTH 4) = a + 8.
Proof.
  unfold sizeof_nlmsghdr. intros Hl Hm. cbv zeta.
  pose proof (load_bound 4 h 0) as Hb. fold (nlmsg_len h 0) in Hb.
  rewrite NLMSG_ALIGN_small by lia.
  change (RTA_LENGTH 4) with 8. unfold u32.
  rewrite Z.mod_small; Z.div_mod_to_equations; lia.
Qed.

(** X28.  [nl_add_attr_u32] on a frame that lies in a buffer of [maxsize]
    bytes: if the attribute fits behind the aligned end of the frame, it
    is put there with its length, its code and the value, the frame's
    length field is moved behind it, and nothing else in the buffer
    changes; if it does not fit, the call ends in [bug]. *)
Theorem nl_add_attr_u32_appends (h : mem) (maxsize code data : Z) :
  sizeof_nlmsghdr <= nlmsg_len h 0 <= maxsize ->
  maxsize <= Z.of_nat (length h) ->
  maxsize + 11 < 2 ^ 32 ->
  let a := NLMSG_ALIGN (nlmsg_len h 0) in
  if a + RTA_LENGTH 4 <=? maxsize
  then exists h' : mem,
         nl_add_attr_u32 h maxsize code data = Ok h'
         /\ attr_appended h h' a code (le_split 4 data)
         /\ load 4 h' (RTA_DATA a) = u32 data
  else nl_add_attr_u32 h maxsize code data
       = Bug "nl_add_attr32: packet buffer overflow".
Proof.
  intros Hl Hbuf Hm a.
  destruct (add_attr_room h maxsize Hl Hm) as (Ha & Hsmall & Hu).
  fold a in Ha, Hsmall, Hu.
  unfold nl_add_attr_u32. cbv zeta. fold a. rewrite Hu.
  change (RTA_LENGTH 4) with 8.
  destruct (a + 8 <=? maxsize) eqn:Hfit.
  - apply Z.leb_le in Hfit.
    replace (maxsize <? a + 8) with false by (symmetry; apply Z.ltb_ge; lia).
    pose proof (attr_stores h a code (le_split 4 data)
                  (length_le_split 4 data) ltac:(lia) ltac:(lia) ltac:(lia))
      as E.
    cbv zeta in E. destruct E as (E0 & E).
    change (RTA_LENGTH 4) with 8 in E0, E.
    eexists. split; [reflexivity |].
    rewrite E0. fold a. split; [exact E |].
    destruct E as (_ & _ & _ & _ & E5 & _).
    unfold load. rewrite E5. apply le_combine_split.
  - apply Z.leb_gt in Hfit.
    replace (maxsize <? a + 8) with true by (symmetry; apply Z.ltb_lt; lia).
    reflexivity.
Qed.

Lemma nl_add_attr_u32_appends_witness :
  let h := sample_route_head 64 in
  sizeof_nlmsghdr <= nlmsg_len h 0 <= 64
  /\ 64 <= Z.of_nat (length h)
  /\ 64 + 11 < 2 ^ 32
  /\ NLMSG_ALIGN (nlmsg_len h 0) = 28
  /\ exists h' : mem,
       nl_add_attr_u32 h 64 RTA_OIF 7 = Ok h'
       /\ attr_appended h h' 28 RTA_OIF (le_split 4 7)
       /\ load 4 h' (RTA_DATA 28) = u32 7.
Proof.
  intros h.
  assert (H1 : sizeof_nlmsghdr <= nlmsg_len h 0 <= 64)
    by (change (16 <= 28 <= 64); lia).
  assert (H2 : 64 <= Z.of_nat (length h)) by (change (64 <= 64); lia).
  assert (H3 : 64 + 11 < 2 ^ 32) by lia.
  split; [exact H1 | split; [exact H2 | split; [exact H3 |]]].
  split; [reflexivity |].
  exact (nl_add_attr_u32_appends h 64 RTA_OIF 7 H1 H2 H3).
Defined.

(** X29.  [nl_add_attr_ipa] does the same with an address, which it stores
    in network byte order, most significant byte first: read back and
    converted with [ipa_ntoh], the payload is the address; and an
    attribute that does not fit ends the call in [bug]. *)
Theorem nl_add_attr_ipa_appends (h : mem) (maxsize code ipa : Z) :
  sizeof_nlmsghdr <= nlmsg_len h 0 <= maxsize ->
  maxsize <= Z.of_nat (length h) ->
  maxsize + 11 < 2 ^ 32 ->
  let a := NLMSG_ALIGN (nlmsg_len h 0) in
  if a + RTA_LENGTH sizeof_ip_addr <=? maxsize
  then exists h' : mem,
         nl_add_attr_ipa h maxsize code ipa = Ok h'
         /\ attr_appended h h' a code (be32 ipa)
         /\ ipa_ntoh (load 4 h' (RTA_DATA a)) = u32 ipa
  else nl_add_attr_ipa h maxsize code ipa
       = Bug "nl_add_attr_ipa: packet buffer overflow".
Proof.
  intros Hl Hbuf Hm a.
  destruct (add_attr_room h maxsize Hl Hm) as (Ha & Hsmall & Hu).
  fold a in Ha, Hsmall, Hu.
  unfold nl_add_attr_ipa. cbv zeta. fold a.
  change (RTA_LENGTH sizeof_ip_addr) with (RTA_LENGTH 4). rewrite Hu.
  change (RTA_LENGTH 4) with 8.
  destruct (a + 8 <=? maxsize) eqn:Hfit.
  - apply Z.leb_le in Hfit.
    replace (maxsize <? a + 8) with false by (symmetry; apply Z.ltb_ge; lia).
    rewrite le_split_ipa_hton.
    assert (Hbe : length (be32 ipa) = 4%nat)
      by (unfold be32; now rewrite length_rev, length_le_split).
    pose proof (attr_stores h a code (be32 ipa) Hbe
                  ltac:(lia) ltac:(lia) ltac:(lia)) as E.
    cbv zeta in E. destruct E as (E0 & E).
    change (RTA_LENGTH 4) with 8 in E0, E.
    eexists. split; [reflexivity |].
    rewrite E0. fold a. split; [exact E |].
    destruct E as (_ & _ & _ & _ & E5 & _).
    unfold load. rewrite E5.
    change (le_combine (be32 ipa)) with (bswap32 ipa).
    unfold ipa_ntoh. apply bswap32_bswap32.
  - apply Z.leb_gt in Hfit.
    replace (maxsize <? a + 8) with true by (symmetry; apply Z.ltb_lt; lia).
    reflexivity.
Qed.

Lemma nl_add_attr_ipa_appends_witness :
  let h := sample_route_head 32 in
  sizeof_nlmsghdr <= nlmsg_len h 0 <= 32
  /\ 32 <= Z.of_nat (length h)
  /\ 32 + 11 < 2 ^ 32
  /\ NLMSG_ALIGN (nlmsg_len h 0) = 28
  /\ nl_add_attr_ipa h 32 RTA_DST 0xC0000200
     = Bug "nl_add_attr_ipa: packet buffer overflow".
Proof.
  intros h.
  assert (H1 : sizeof_nlmsghdr <= nlmsg_len h 0 <= 32)
    by (change (16 <= 28 <= 32); lia).
  assert (H2 : 32 <= Z.of_nat (length h)) by (change (32 <= 32); lia).
  assert (H3 : 32 + 11 < 2 ^ 32) by lia.
  split; [exact H1 | split; [exact H2 | split; [exact H3 |]]].
  split; [reflexivity |].
  exact (nl_add_attr_ipa_appends h 32 RTA_DST 0xC0000200 H1 H2 H3).
Defined.

(** ** Frames that share a datagram *)

(** X30.  The frames of one datagram are handed out one after the other:
    when [nl_get_reply] has returned a frame and the bytes behind it, up to
    the end of what was received, hold a complete frame with the sequence
    number of the request, the next call returns that frame, at the aligned
    end of the first, without another [recvmsg] and without a line in the
    log. *)
Theorem nl_get_reply_next_frame (fuel fuel' : nat) (st st2 : nl_state)
  (h : Z) :
  nl_get_reply fuel st = (Ok h, st2) ->
  let h' := h + NLMSG_ALIGN (nlmsg_len (nl_rx_buffer st2) h) in
  NLMSG_OK (nl_rx_buffer st2) h' (nl_last_size st2) = true ->
  nlmsg_seq (nl_rx_buffer st2) h' = nl_sync_seq st ->
  exists st3 : nl_state,
    nl_get_reply (S fuel') st2 = (Ok h', st3)
    /\ sk_inbox st3 = sk_inbox st2
    /\ trace st3 = trace st2
    /\ nl_rx_buffer st3 = nl_rx_buffer st2
    /\ nl_last_hdr st3
       = Some (h' + NLMSG_ALIGN (nlmsg_len (nl_rx_buffer st2) h')).
Proof.
  intros Hrun h' Hok Hseq.
  apply nl_get_reply_returns in Hrun as (H1 & _ & _ & _ & _ & H6 & _).
  fold h' in H6.
  assert (Hseq' : (nlmsg_seq (nl_rx_buffer st2) h' =? nl_sync_seq st2) = true)
    by (apply Z.eqb_eq; congruence).
  cbn [nl_get_reply]. rewrite H6.
  unfold nl_reply_step. rewrite H6. unfold default. cbn [from_option id].
  rewrite Hok, Hseq'. cbn [negb NLMSG_NEXT].
  eexists. split; [reflexivity |].
  repeat split.
Qed.

Lemma nl_get_reply_next_frame_witness :
  let r1 := nl_get_reply 1 two_replies in
  let r2 := nl_get_reply 1 r1.2 in
  nl_get_reply 1 two_replies = (Ok 0, r1.2)
  /\ NLMSG_OK (nl_rx_buffer r1.2) 16 (nl_last_size r1.2) = true
  /\ nlmsg_seq (nl_rx_buffer r1.2) 16 = nl_sync_seq two_replies
  /\ r2.1 = Ok 16
  /\ sk_inbox r2.2 = [] /\ trace r2.2 = [].
Proof.
  intros r1 r2.
  assert (H1 : nl_get_reply 1 two_replies = (Ok 0, r1.2))
    by (vm_compute; reflexivity).
  assert (H2 : NLMSG_OK (nl_rx_buffer r1.2) 16 (nl_last_size r1.2) = true)
    by (vm_compute; reflexivity).
  assert (H3 : nlmsg_seq (nl_rx_buffer r1.2) 16 = nl_sync_seq two_replies)
    by (vm_compute; reflexivity).
  split; [exact H1 | split; [exact H2 | split; [exact H3 |]]].
  destruct (nl_get_reply_next_frame 1 0 two_replies r1.2 0 H1 H2 H3)
    as (st3 & E1 & E2 & E3 & _).
  subst r2. rewrite E1. cbn [fst snd]. rewrite E2, E3.
  vm_compute. auto.
Defined.
